(** * Hammy the Hire Tracker: ingestion pipeline

    A shallow embedding of the extraction and merge code of the job
    tracker: the identity generator, the e-mail parsers over the tree that
    BeautifulSoup builds, the WeWorkRemotely feed scan over the tree that
    ElementTree builds, the source detector and registry, the Flask
    routes and the insert-if-absent merge against the [jobs] table, whose
    columns are those [init_db] creates.

    Python text ([str]) is a sequence of Unicode code points and is
    modelled as [list N]; [len] is [length] and the slice [s[:n]] is
    [take n s]. Code that can raise returns an [option], [None] being the
    exception. *)

From Stdlib Require Import ZArith NArith List String Ascii Lia Bool.
From stdpp Require Import gmap list.

Set Warnings "-register-all,-clear-no-such-hyp".
Local Open Scope Z_scope.

(** ** Python text *)

Abbreviation str := (list N).

(** An ASCII literal as Python text. *)
Definition u (s : string) : str :=
  map N_of_ascii (list_ascii_of_string s).

Definition str_eqb (a b : str) : bool := bool_decide (a = b).

(** ** The character tables of the runtime

    Python's text methods and the [re] module classify and map code points
    by the Unicode Character Database the interpreter is built with
    (version 14.0.0 for CPython 3.11). The tables below are that data, in
    ranges. *)

(** Membership in a table of ranges [(lo, hi)]. *)
Definition in_ranges (ranges : list (N * N)) (c : N) : bool :=
  existsb (fun r : N * N => (fst r <=? c) && (c <=? snd r))%N ranges.

(** The simple lower-case mappings: a code point [c] with [lo <= c <= hi]
    and [c - lo] a multiple of [step] maps to [c + delta]. The entries are
    in the order of their [lo]. *)
Definition lower_table : list (N * N * N * Z) :=
  [ (65, 90, 1, 32%Z); (192, 214, 1, 32%Z); (216, 222, 1, 32%Z);
    (256, 302, 2, 1%Z); (306, 310, 2, 1%Z); (313, 327, 2, 1%Z);
    (330, 374, 2, 1%Z); (376, 376, 1, (-121)%Z); (377, 381, 2, 1%Z);
    (385, 385, 1, 210%Z); (386, 388, 2, 1%Z); (390, 390, 1, 206%Z);
    (391, 391, 1, 1%Z); (393, 394, 1, 205%Z); (395, 395, 1, 1%Z);
    (398, 398, 1, 79%Z); (399, 399, 1, 202%Z); (400, 400, 1, 203%Z);
    (401, 401, 1, 1%Z); (403, 403, 1, 205%Z); (404, 404, 1, 207%Z);
    (406, 406, 1, 211%Z); (407, 407, 1, 209%Z); (408, 408, 1, 1%Z);
    (412, 412, 1, 211%Z); (413, 413, 1, 213%Z); (415, 415, 1, 214%Z);
    (416, 420, 2, 1%Z); (422, 422, 1, 218%Z); (423, 423, 1, 1%Z);
    (425, 425, 1, 218%Z); (428, 428, 1, 1%Z); (430, 430, 1, 218%Z);
    (431, 431, 1, 1%Z); (433, 434, 1, 217%Z); (435, 437, 2, 1%Z);
    (439, 439, 1, 219%Z); (440, 440, 1, 1%Z); (444, 444, 1, 1%Z);
    (452, 452, 1, 2%Z); (453, 453, 1, 1%Z); (455, 455, 1, 2%Z);
    (456, 456, 1, 1%Z); (458, 458, 1, 2%Z); (459, 475, 2, 1%Z);
    (478, 494, 2, 1%Z); (497, 497, 1, 2%Z); (498, 500, 2, 1%Z);
    (502, 502, 1, (-97)%Z); (503, 503, 1, (-56)%Z); (504, 542, 2, 1%Z);
    (544, 544, 1, (-130)%Z); (546, 562, 2, 1%Z); (570, 570, 1, 10795%Z);
    (571, 571, 1, 1%Z); (573, 573, 1, (-163)%Z); (574, 574, 1, 10792%Z);
    (577, 577, 1, 1%Z); (579, 579, 1, (-195)%Z); (580, 580, 1, 69%Z);
    (581, 581, 1, 71%Z); (582, 590, 2, 1%Z); (880, 882, 2, 1%Z);
    (886, 886, 1, 1%Z); (895, 895, 1, 116%Z); (902, 902, 1, 38%Z);
    (904, 906, 1, 37%Z); (908, 908, 1, 64%Z); (910, 911, 1, 63%Z);
    (913, 929, 1, 32%Z); (932, 939, 1, 32%Z); (975, 975, 1, 8%Z);
    (984, 1006, 2, 1%Z); (1012, 1012, 1, (-60)%Z); (1015, 1015, 1, 1%Z);
    (1017, 1017, 1, (-7)%Z); (1018, 1018, 1, 1%Z); (1021, 1023, 1, (-130)%Z);
    (1024, 1039, 1, 80%Z); (1040, 1071, 1, 32%Z); (1120, 1152, 2, 1%Z);
    (1162, 1214, 2, 1%Z); (1216, 1216, 1, 15%Z); (1217, 1229, 2, 1%Z);
    (1232, 1326, 2, 1%Z); (1329, 1366, 1, 48%Z); (4256, 4293, 1, 7264%Z);
    (4295, 4295, 1, 7264%Z); (4301, 4301, 1, 7264%Z);
    (5024, 5103, 1, 38864%Z); (5104, 5109, 1, 8%Z);
    (7312, 7354, 1, (-3008)%Z); (7357, 7359, 1, (-3008)%Z);
    (7680, 7828, 2, 1%Z); (7838, 7838, 1, (-7615)%Z); (7840, 7934, 2, 1%Z);
    (7944, 7951, 1, (-8)%Z); (7960, 7965, 1, (-8)%Z); (7976, 7983, 1, (-8)%Z);
    (7992, 7999, 1, (-8)%Z); (8008, 8013, 1, (-8)%Z); (8025, 8031, 2, (-8)%Z);
    (8040, 8047, 1, (-8)%Z); (8072, 8079, 1, (-8)%Z); (8088, 8095, 1, (-8)%Z);
    (8104, 8111, 1, (-8)%Z); (8120, 8121, 1, (-8)%Z);
    (8122, 8123, 1, (-74)%Z); (8124, 8124, 1, (-9)%Z);
    (8136, 8139, 1, (-86)%Z); (8140, 8140, 1, (-9)%Z);
    (8152, 8153, 1, (-8)%Z); (8154, 8155, 1, (-100)%Z);
    (8168, 8169, 1, (-8)%Z); (8170, 8171, 1, (-112)%Z);
    (8172, 8172, 1, (-7)%Z); (8184, 8185, 1, (-128)%Z);
    (8186, 8187, 1, (-126)%Z); (8188, 8188, 1, (-9)%Z);
    (8486, 8486, 1, (-7517)%Z); (8490, 8490, 1, (-8383)%Z);
    (8491, 8491, 1, (-8262)%Z); (8498, 8498, 1, 28%Z); (8544, 8559, 1, 16%Z);
    (8579, 8579, 1, 1%Z); (9398, 9423, 1, 26%Z); (11264, 11311, 1, 48%Z);
    (11360, 11360, 1, 1%Z); (11362, 11362, 1, (-10743)%Z);
    (11363, 11363, 1, (-3814)%Z); (11364, 11364, 1, (-10727)%Z);
    (11367, 11371, 2, 1%Z); (11373, 11373, 1, (-10780)%Z);
    (11374, 11374, 1, (-10749)%Z); (11375, 11375, 1, (-10783)%Z);
    (11376, 11376, 1, (-10782)%Z); (11378, 11378, 1, 1%Z);
    (11381, 11381, 1, 1%Z); (11390, 11391, 1, (-10815)%Z);
    (11392, 11490, 2, 1%Z); (11499, 11501, 2, 1%Z); (11506, 11506, 1, 1%Z);
    (42560, 42604, 2, 1%Z); (42624, 42650, 2, 1%Z); (42786, 42798, 2, 1%Z);
    (42802, 42862, 2, 1%Z); (42873, 42875, 2, 1%Z);
    (42877, 42877, 1, (-35332)%Z); (42878, 42886, 2, 1%Z);
    (42891, 42891, 1, 1%Z); (42893, 42893, 1, (-42280)%Z);
    (42896, 42898, 2, 1%Z); (42902, 42920, 2, 1%Z);
    (42922, 42922, 1, (-42308)%Z); (42923, 42923, 1, (-42319)%Z);
    (42924, 42924, 1, (-42315)%Z); (42925, 42925, 1, (-42305)%Z);
    (42926, 42926, 1, (-42308)%Z); (42928, 42928, 1, (-42258)%Z);
    (42929, 42929, 1, (-42282)%Z); (42930, 42930, 1, (-42261)%Z);
    (42931, 42931, 1, 928%Z); (42932, 42946, 2, 1%Z);
    (42948, 42948, 1, (-48)%Z); (42949, 42949, 1, (-42307)%Z);
    (42950, 42950, 1, (-35384)%Z); (42951, 42953, 2, 1%Z);
    (42960, 42960, 1, 1%Z); (42966, 42968, 2, 1%Z); (42997, 42997, 1, 1%Z);
    (65313, 65338, 1, 32%Z); (66560, 66599, 1, 40%Z); (66736, 66771, 1, 40%Z);
    (66928, 66964, 2, 39%Z); (66929, 66937, 2, 39%Z); (66941, 66953, 2, 39%Z);
    (66957, 66961, 2, 39%Z); (66965, 66965, 1, 39%Z); (68736, 68786, 1, 64%Z);
    (71840, 71871, 1, 32%Z); (93760, 93791, 1, 32%Z);
    (125184, 125217, 1, 34%Z) ]%N.

(** The code points with the property Case_Ignorable. *)
Definition case_ignorable_ranges : list (N * N) :=
  [ (39, 39); (46, 46); (58, 58); (94, 94); (96, 96); (168, 168); (173, 173);
    (175, 175); (180, 180); (183, 184); (688, 879); (884, 885); (890, 890);
    (900, 901); (903, 903); (1155, 1161); (1369, 1369); (1375, 1375);
    (1425, 1469); (1471, 1471); (1473, 1474); (1476, 1477); (1479, 1479);
    (1524, 1524); (1536, 1541); (1552, 1562); (1564, 1564); (1600, 1600);
    (1611, 1631); (1648, 1648); (1750, 1757); (1759, 1768); (1770, 1773);
    (1807, 1807); (1809, 1809); (1840, 1866); (1958, 1968); (2027, 2037);
    (2042, 2042); (2045, 2045); (2070, 2093); (2137, 2139); (2184, 2184);
    (2192, 2193); (2200, 2207); (2249, 2306); (2362, 2362); (2364, 2364);
    (2369, 2376); (2381, 2381); (2385, 2391); (2402, 2403); (2417, 2417);
    (2433, 2433); (2492, 2492); (2497, 2500); (2509, 2509); (2530, 2531);
    (2558, 2558); (2561, 2562); (2620, 2620); (2625, 2626); (2631, 2632);
    (2635, 2637); (2641, 2641); (2672, 2673); (2677, 2677); (2689, 2690);
    (2748, 2748); (2753, 2757); (2759, 2760); (2765, 2765); (2786, 2787);
    (2810, 2815); (2817, 2817); (2876, 2876); (2879, 2879); (2881, 2884);
    (2893, 2893); (2901, 2902); (2914, 2915); (2946, 2946); (3008, 3008);
    (3021, 3021); (3072, 3072); (3076, 3076); (3132, 3132); (3134, 3136);
    (3142, 3144); (3146, 3149); (3157, 3158); (3170, 3171); (3201, 3201);
    (3260, 3260); (3263, 3263); (3270, 3270); (3276, 3277); (3298, 3299);
    (3328, 3329); (3387, 3388); (3393, 3396); (3405, 3405); (3426, 3427);
    (3457, 3457); (3530, 3530); (3538, 3540); (3542, 3542); (3633, 3633);
    (3636, 3642); (3654, 3662); (3761, 3761); (3764, 3772); (3782, 3782);
    (3784, 3789); (3864, 3865); (3893, 3893); (3895, 3895); (3897, 3897);
    (3953, 3966); (3968, 3972); (3974, 3975); (3981, 3991); (3993, 4028);
    (4038, 4038); (4141, 4144); (4146, 4151); (4153, 4154); (4157, 4158);
    (4184, 4185); (4190, 4192); (4209, 4212); (4226, 4226); (4229, 4230);
    (4237, 4237); (4253, 4253); (4348, 4348); (4957, 4959); (5906, 5908);
    (5938, 5939); (5970, 5971); (6002, 6003); (6068, 6069); (6071, 6077);
    (6086, 6086); (6089, 6099); (6103, 6103); (6109, 6109); (6155, 6159);
    (6211, 6211); (6277, 6278); (6313, 6313); (6432, 6434); (6439, 6440);
    (6450, 6450); (6457, 6459); (6679, 6680); (6683, 6683); (6742, 6742);
    (6744, 6750); (6752, 6752); (6754, 6754); (6757, 6764); (6771, 6780);
    (6783, 6783); (6823, 6823); (6832, 6862); (6912, 6915); (6964, 6964);
    (6966, 6970); (6972, 6972); (6978, 6978); (7019, 7027); (7040, 7041);
    (7074, 7077); (7080, 7081); (7083, 7085); (7142, 7142); (7144, 7145);
    (7149, 7149); (7151, 7153); (7212, 7219); (7222, 7223); (7288, 7293);
    (7376, 7378); (7380, 7392); (7394, 7400); (7405, 7405); (7412, 7412);
    (7416, 7417); (7468, 7530); (7544, 7544); (7579, 7679); (8125, 8125);
    (8127, 8129); (8141, 8143); (8157, 8159); (8173, 8175); (8189, 8190);
    (8203, 8207); (8216, 8217); (8228, 8228); (8231, 8231); (8234, 8238);
    (8288, 8292); (8294, 8303); (8305, 8305); (8319, 8319); (8336, 8348);
    (8400, 8432); (11388, 11389); (11503, 11505); (11631, 11631);
    (11647, 11647); (11744, 11775); (11823, 11823); (12293, 12293);
    (12330, 12333); (12337, 12341); (12347, 12347); (12441, 12446);
    (12540, 12542); (40981, 40981); (42232, 42237); (42508, 42508);
    (42607, 42610); (42612, 42621); (42623, 42623); (42652, 42655);
    (42736, 42737); (42752, 42785); (42864, 42864); (42888, 42890);
    (42994, 42996); (43000, 43001); (43010, 43010); (43014, 43014);
    (43019, 43019); (43045, 43046); (43052, 43052); (43204, 43205);
    (43232, 43249); (43263, 43263); (43302, 43309); (43335, 43345);
    (43392, 43394); (43443, 43443); (43446, 43449); (43452, 43453);
    (43471, 43471); (43493, 43494); (43561, 43566); (43569, 43570);
    (43573, 43574); (43587, 43587); (43596, 43596); (43632, 43632);
    (43644, 43644); (43696, 43696); (43698, 43700); (43703, 43704);
    (43710, 43711); (43713, 43713); (43741, 43741); (43756, 43757);
    (43763, 43764); (43766, 43766); (43867, 43871); (43881, 43883);
    (44005, 44005); (44008, 44008); (44013, 44013); (64286, 64286);
    (64434, 64450); (65024, 65039); (65043, 65043); (65056, 65071);
    (65106, 65106); (65109, 65109); (65279, 65279); (65287, 65287);
    (65294, 65294); (65306, 65306); (65342, 65342); (65344, 65344);
    (65392, 65392); (65438, 65439); (65507, 65507); (65529, 65531);
    (66045, 66045); (66272, 66272); (66422, 66426); (67456, 67461);
    (67463, 67504); (67506, 67514); (68097, 68099); (68101, 68102);
    (68108, 68111); (68152, 68154); (68159, 68159); (68325, 68326);
    (68900, 68903); (69291, 69292); (69446, 69456); (69506, 69509);
    (69633, 69633); (69688, 69702); (69744, 69744); (69747, 69748);
    (69759, 69761); (69811, 69814); (69817, 69818); (69821, 69821);
    (69826, 69826); (69837, 69837); (69888, 69890); (69927, 69931);
    (69933, 69940); (70003, 70003); (70016, 70017); (70070, 70078);
    (70089, 70092); (70095, 70095); (70191, 70193); (70196, 70196);
    (70198, 70199); (70206, 70206); (70367, 70367); (70371, 70378);
    (70400, 70401); (70459, 70460); (70464, 70464); (70502, 70508);
    (70512, 70516); (70712, 70719); (70722, 70724); (70726, 70726);
    (70750, 70750); (70835, 70840); (70842, 70842); (70847, 70848);
    (70850, 70851); (71090, 71093); (71100, 71101); (71103, 71104);
    (71132, 71133); (71219, 71226); (71229, 71229); (71231, 71232);
    (71339, 71339); (71341, 71341); (71344, 71349); (71351, 71351);
    (71453, 71455); (71458, 71461); (71463, 71467); (71727, 71735);
    (71737, 71738); (71995, 71996); (71998, 71998); (72003, 72003);
    (72148, 72151); (72154, 72155); (72160, 72160); (72193, 72202);
    (72243, 72248); (72251, 72254); (72263, 72263); (72273, 72278);
    (72281, 72283); (72330, 72342); (72344, 72345); (72752, 72758);
    (72760, 72765); (72767, 72767); (72850, 72871); (72874, 72880);
    (72882, 72883); (72885, 72886); (73009, 73014); (73018, 73018);
    (73020, 73021); (73023, 73029); (73031, 73031); (73104, 73105);
    (73109, 73109); (73111, 73111); (73459, 73460); (78896, 78904);
    (92912, 92916); (92976, 92982); (92992, 92995); (94031, 94031);
    (94095, 94111); (94176, 94177); (94179, 94180); (110576, 110579);
    (110581, 110587); (110589, 110590); (113821, 113822); (113824, 113827);
    (118528, 118573); (118576, 118598); (119143, 119145); (119155, 119170);
    (119173, 119179); (119210, 119213); (119362, 119364); (121344, 121398);
    (121403, 121452); (121461, 121461); (121476, 121476); (121499, 121503);
    (121505, 121519); (122880, 122886); (122888, 122904); (122907, 122913);
    (122915, 122916); (122918, 122922); (123184, 123197); (123566, 123566);
    (123628, 123631); (125136, 125142); (125252, 125259); (127995, 127999);
    (917505, 917505); (917536, 917631); (917760, 917999) ]%N.

(** The code points with the property Cased that are not case-ignorable. *)
Definition cased_ranges : list (N * N) :=
  [ (65, 90); (97, 122); (170, 170); (181, 181); (186, 186); (192, 214);
    (216, 246); (248, 442); (444, 447); (452, 659); (661, 687); (880, 883);
    (886, 887); (891, 893); (895, 895); (902, 902); (904, 906); (908, 908);
    (910, 929); (931, 1013); (1015, 1153); (1162, 1327); (1329, 1366);
    (1376, 1416); (4256, 4293); (4295, 4295); (4301, 4301); (4304, 4346);
    (4349, 4351); (5024, 5109); (5112, 5117); (7296, 7304); (7312, 7354);
    (7357, 7359); (7424, 7467); (7531, 7543); (7545, 7578); (7680, 7957);
    (7960, 7965); (7968, 8005); (8008, 8013); (8016, 8023); (8025, 8025);
    (8027, 8027); (8029, 8029); (8031, 8061); (8064, 8116); (8118, 8124);
    (8126, 8126); (8130, 8132); (8134, 8140); (8144, 8147); (8150, 8155);
    (8160, 8172); (8178, 8180); (8182, 8188); (8450, 8450); (8455, 8455);
    (8458, 8467); (8469, 8469); (8473, 8477); (8484, 8484); (8486, 8486);
    (8488, 8488); (8490, 8493); (8495, 8500); (8505, 8505); (8508, 8511);
    (8517, 8521); (8526, 8526); (8544, 8575); (8579, 8580); (9398, 9449);
    (11264, 11387); (11390, 11492); (11499, 11502); (11506, 11507);
    (11520, 11557); (11559, 11559); (11565, 11565); (42560, 42605);
    (42624, 42651); (42786, 42863); (42865, 42887); (42891, 42894);
    (42896, 42954); (42960, 42961); (42963, 42963); (42965, 42969);
    (42997, 42998); (43002, 43002); (43824, 43866); (43872, 43880);
    (43888, 43967); (64256, 64262); (64275, 64279); (65313, 65338);
    (65345, 65370); (66560, 66639); (66736, 66771); (66776, 66811);
    (66928, 66938); (66940, 66954); (66956, 66962); (66964, 66965);
    (66967, 66977); (66979, 66993); (66995, 67001); (67003, 67004);
    (68736, 68786); (68800, 68850); (71840, 71903); (93760, 93823);
    (119808, 119892); (119894, 119964); (119966, 119967); (119970, 119970);
    (119973, 119974); (119977, 119980); (119982, 119993); (119995, 119995);
    (119997, 120003); (120005, 120069); (120071, 120074); (120077, 120084);
    (120086, 120092); (120094, 120121); (120123, 120126); (120128, 120132);
    (120134, 120134); (120138, 120144); (120146, 120485); (120488, 120512);
    (120514, 120538); (120540, 120570); (120572, 120596); (120598, 120628);
    (120630, 120654); (120656, 120686); (120688, 120712); (120714, 120744);
    (120746, 120770); (120772, 120779); (122624, 122633); (122635, 122654);
    (125184, 125251); (127280, 127305); (127312, 127337); (127344, 127369) ]%N.

(** The decimal digits (category Nd). *)
Definition decimal_ranges : list (N * N) :=
  [ (48, 57); (1632, 1641); (1776, 1785); (1984, 1993); (2406, 2415);
    (2534, 2543); (2662, 2671); (2790, 2799); (2918, 2927); (3046, 3055);
    (3174, 3183); (3302, 3311); (3430, 3439); (3558, 3567); (3664, 3673);
    (3792, 3801); (3872, 3881); (4160, 4169); (4240, 4249); (6112, 6121);
    (6160, 6169); (6470, 6479); (6608, 6617); (6784, 6793); (6800, 6809);
    (6992, 7001); (7088, 7097); (7232, 7241); (7248, 7257); (42528, 42537);
    (43216, 43225); (43264, 43273); (43472, 43481); (43504, 43513);
    (43600, 43609); (44016, 44025); (65296, 65305); (66720, 66729);
    (68912, 68921); (69734, 69743); (69872, 69881); (69942, 69951);
    (70096, 70105); (70384, 70393); (70736, 70745); (70864, 70873);
    (71248, 71257); (71360, 71369); (71472, 71481); (71904, 71913);
    (72016, 72025); (72784, 72793); (73040, 73049); (73120, 73129);
    (92768, 92777); (92864, 92873); (93008, 93017); (120782, 120831);
    (123200, 123209); (123632, 123641); (125264, 125273); (130032, 130041) ]%N.

(** A surrogate code point, U+D800 to U+DFFF. *)
Definition is_surrogate (c : N) : bool := ((55296 <=? c) && (c <=? 57343))%N.

(** [str.isdecimal()] on one code point. *)
Definition is_decimal (c : N) : bool := in_ranges decimal_ranges c.

(** ** [str.lower()]

    Every code point is replaced by its lower-case mapping. Two code
    points are special: U+0130 maps to the two code points U+0069 U+0307,
    and U+03A3 (capital sigma) maps to the final sigma U+03C2 when it ends
    a word and to U+03C3 otherwise. *)

Fixpoint lower_lookup (table : list (N * N * N * Z)) (c : N) : N :=
  match table with
  | [] => c
  | (lo, hi, step, delta) :: rest =>
      if (c <? lo)%N then c
      else if ((c <=? hi) && ((c - lo) mod step =? 0))%N
      then Z.to_N (Z.of_N c + delta)
      else lower_lookup rest c
  end.

Definition lower_char (c : N) : N := lower_lookup lower_table c.

Definition case_ignorable (c : N) : bool := in_ranges case_ignorable_ranges c.
Definition cased (c : N) : bool := in_ranges cased_ranges c.

(** The first code point of [s] that is not case-ignorable. *)
Fixpoint first_not_ignorable (s : str) : option N :=
  match s with
  | [] => None
  | c :: s' => if case_ignorable c then first_not_ignorable s' else Some c
  end.

(** The Final_Sigma condition for a capital sigma that stands after
    [before] (nearest code point first) and in front of [after]: a cased
    letter before it, none after it, case-ignorable code points passed
    over on both sides. *)
Definition final_sigma (before after : str) : bool :=
  match first_not_ignorable before with
  | Some c =>
      cased c &&
      match first_not_ignorable after with
      | Some c' => negb (cased c')
      | None => true
      end
  | None => false
  end.

Fixpoint lower_go (before s : str) : str :=
  match s with
  | [] => []
  | c :: s' =>
      (if (c =? 931)%N then [if final_sigma before s' then 962%N else 963%N]
       else if (c =? 304)%N then [105%N; 775%N]
       else [lower_char c])
      ++ lower_go (c :: before) s'
  end.

Definition lower (s : str) : str := lower_go [] s.

(** [str.isspace()] on one code point: the white-space set of the runtime. *)
Definition is_space (c : N) : bool :=
  (((9 <=? c) && (c <=? 13)) || ((28 <=? c) && (c <=? 32))
   || (c =? 133) || (c =? 160) || (c =? 5760)
   || ((8192 <=? c) && (c <=? 8202))
   || (c =? 8232) || (c =? 8233) || (c =? 8239) || (c =? 8287)
   || (c =? 12288))%N.

Fixpoint lstrip (s : str) : str :=
  match s with
  | c :: s' => if is_space c then lstrip s' else s
  | [] => []
  end.

Definition rstrip (s : str) : str := reverse (lstrip (reverse s)).

(** [s.strip()] *)
Definition strip (s : str) : str := rstrip (lstrip s).

(** [s.startswith(p)] *)
Fixpoint startswith (p s : str) : bool :=
  match p, s with
  | [], _ => true
  | a :: p', b :: s' => (a =? b)%N && startswith p' s'
  | _ :: _, [] => false
  end.

(** [p in s] for text. *)
Fixpoint contains (p s : str) : bool :=
  startswith p s ||
  match s with
  | [] => false
  | _ :: s' => contains p s'
  end.

(** [s.split(sep)] for a non-empty separator: [cur] holds the piece being
    read (reversed) and [skip] the characters of a separator still to be
    passed over. *)
Fixpoint split_go (sep s cur : str) (skip : nat) : list str :=
  match s with
  | [] => [reverse cur]
  | c :: s' =>
      match skip with
      | S k => split_go sep s' cur k
      | O =>
          if startswith sep s
          then reverse cur :: split_go sep s' [] (pred (length sep))
          else split_go sep s' (c :: cur) O
      end
  end.

Definition split (sep s : str) : list str := split_go sep s [] O.

(** [s.split(sep, 1)]: at most one cut, at the first occurrence. *)
Fixpoint split_first_go (sep s cur : str) : list str :=
  match s with
  | [] => [reverse cur]
  | c :: s' =>
      if startswith sep s
      then [reverse cur; drop (length sep) s]
      else split_first_go sep s' (c :: cur)
  end.

Definition split1 (sep s : str) : list str := split_first_go sep s [].

(** [s.split()]: the maximal runs of non-white-space characters. *)
Fixpoint words_go (s cur : str) : list str :=
  match s with
  | [] => match cur with [] => [] | _ => [reverse cur] end
  | c :: s' =>
      if is_space c
      then match cur with
           | [] => words_go s' []
           | _ => reverse cur :: words_go s' []
           end
      else words_go s' (c :: cur)
  end.

Definition words (s : str) : list str := words_go s [].

(** [sep.join(parts)] *)
Fixpoint join (sep : str) (parts : list str) : str :=
  match parts with
  | [] => []
  | [p] => p
  | p :: rest => p ++ sep ++ join sep rest
  end.

(** ** hashlib.sha256 and [str.encode()] *)

Module Sha256.

Definition w32 (x : Z) : Z := x mod 2 ^ 32.

Definition rotr (n x : Z) : Z :=
  Z.lor (Z.shiftr x n) (w32 (Z.shiftl x (32 - n))).

Definition ch (x y z : Z) : Z :=
  Z.lxor (Z.land x y) (Z.land (Z.lxor x 4294967295) z).
Definition maj (x y z : Z) : Z :=
  Z.lxor (Z.lxor (Z.land x y) (Z.land x z)) (Z.land y z).
Definition big_sigma0 (x : Z) : Z :=
  Z.lxor (Z.lxor (rotr 2 x) (rotr 13 x)) (rotr 22 x).
Definition big_sigma1 (x : Z) : Z :=
  Z.lxor (Z.lxor (rotr 6 x) (rotr 11 x)) (rotr 25 x).
Definition small_sigma0 (x : Z) : Z :=
  Z.lxor (Z.lxor (rotr 7 x) (rotr 18 x)) (Z.shiftr x 3).
Definition small_sigma1 (x : Z) : Z :=
  Z.lxor (Z.lxor (rotr 17 x) (rotr 19 x)) (Z.shiftr x 10).

Definition round_constants : list Z :=
  [ 1116352408; 1899447441; 3049323471; 3921009573; 961987163; 1508970993;
    2453635748; 2870763221; 3624381080; 310598401; 607225278; 1426881987;
    1925078388; 2162078206; 2614888103; 3248222580; 3835390401; 4022224774;
    264347078; 604807628; 770255983; 1249150122; 1555081692; 1996064986;
    2554220882; 2821834349; 2952996808; 3210313671; 3336571891; 3584528711;
    113926993; 338241895; 666307205; 773529912; 1294757372; 1396182291;
    1695183700; 1986661051; 2177026350; 2456956037; 2730485921; 2820302411;
    3259730800; 3345764771; 3516065817; 3600352804; 4094571909; 275423344;
    430227734; 506948616; 659060556; 883997877; 958139571; 1322822218;
    1537002063; 1747873779; 1955562222; 2024104815; 2227730452; 2361852424;
    2428436474; 2756734187; 3204031479; 3329325298 ].

(** The eight working words. *)
Record state := State {
  ha : Z; hb : Z; hc : Z; hd : Z; he : Z; hf : Z; hg : Z; hh : Z
}.

Definition initial : state :=
  State 1779033703 3144134277 1013904242 2773480762
        1359893119 2600822924 528734635 1541459225.

(** Message padding: a 1 bit, zeros up to 56 mod 64, the bit length on
    eight bytes (big endian). *)
Definition be_bytes (n : nat) (x : Z) : list Z :=
  map (fun i => Z.land (Z.shiftr x (8 * Z.of_nat i)) 255) (reverse (seq 0 n)).

Definition pad (msg : list Z) : list Z :=
  let len := Z.of_nat (length msg) in
  let zeros := Z.to_nat ((55 - len) mod 64) in
  msg ++ [128] ++ repeat 0 zeros ++ be_bytes 8 (8 * len).

Fixpoint be_words (n : nat) (bs : list Z) : list Z :=
  match n, bs with
  | S k, b0 :: b1 :: b2 :: b3 :: rest =>
      (b0 * 16777216 + b1 * 65536 + b2 * 256 + b3) :: be_words k rest
  | _, _ => []
  end.

(** The message schedule, most recent word first. *)
Fixpoint schedule (n : nat) (w : list Z) : list Z :=
  match n with
  | O => w
  | S k =>
      let nxt := w32 (small_sigma1 (nth 1 w 0) + nth 6 w 0
                      + small_sigma0 (nth 14 w 0) + nth 15 w 0) in
      schedule k (nxt :: w)
  end.

Definition round (s : state) (kw : Z * Z) : state :=
  let t1 := hh s + big_sigma1 (he s) + ch (he s) (hf s) (hg s)
            + fst kw + snd kw in
  let t2 := big_sigma0 (ha s) + maj (ha s) (hb s) (hc s) in
  State (w32 (t1 + t2)) (ha s) (hb s) (hc s)
        (w32 (hd s + t1)) (he s) (hf s) (hg s).

Definition compress (h : state) (block : list Z) : state :=
  let w := reverse (schedule 48 (reverse (be_words 16 block))) in
  let s := fold_left round (combine round_constants w) h in
  State (w32 (ha h + ha s)) (w32 (hb h + hb s)) (w32 (hc h + hc s))
        (w32 (hd h + hd s)) (w32 (he h + he s)) (w32 (hf h + hf s))
        (w32 (hg h + hg s)) (w32 (hh h + hh s)).

Fixpoint blocks (n : nat) (bs : list Z) (h : state) : state :=
  match n with
  | O => h
  | S k => blocks k (drop 64 bs) (compress h (take 64 bs))
  end.

Definition digest (msg : list Z) : state :=
  let p := pad msg in
  blocks (length p / 64)%nat p initial.

(** One hexadecimal digit, lower case, as a code point. *)
Definition hex_digit (x : Z) : N :=
  Z.to_N (if x <? 10 then 48 + x else 87 + x).

Definition hex_word (x : Z) : str :=
  map (fun i => hex_digit (Z.land (Z.shiftr x (4 * i)) 15))
      [7; 6; 5; 4; 3; 2; 1; 0].

(** [hashlib.sha256(msg).hexdigest()] *)
Definition hexdigest (msg : list Z) : str :=
  let s := digest msg in
  hex_word (ha s) ++ hex_word (hb s) ++ hex_word (hc s) ++ hex_word (hd s)
  ++ hex_word (he s) ++ hex_word (hf s) ++ hex_word (hg s) ++ hex_word (hh s).

End Sha256.

(** The UTF-8 bytes of a code point, one to four. *)
Definition utf8_char (c : N) : list Z :=
  let z := Z.of_N c in
  if z <? 128 then [z]
  else if z <? 2048 then [192 + Z.shiftr z 6; 128 + Z.land z 63]
  else if z <? 65536 then
    [224 + Z.shiftr z 12; 128 + Z.land (Z.shiftr z 6) 63; 128 + Z.land z 63]
  else
    [240 + Z.land (Z.shiftr z 18) 7; 128 + Z.land (Z.shiftr z 12) 63;
     128 + Z.land (Z.shiftr z 6) 63; 128 + Z.land z 63].

(** [s.encode()]: UTF-8. A surrogate code point cannot be encoded:
    [None] is the [UnicodeEncodeError] raised for text that holds one. *)
Definition encode (s : str) : option (list Z) :=
  if existsb is_surrogate s then None else Some (flat_map utf8_char s).

(** [sqlite3] encodes a text it binds to a statement in UTF-8, and raises
    [UnicodeEncodeError] on a surrogate: whether a text can be bound. *)
Definition bindable (s : str) : bool := negb (existsb is_surrogate s).

(** ** Identity generator (local_app.py) *)

(** [generate_job_id(url, title, company)]:
    [content = f"{url}:{title}:{company}".lower()], then
    [hashlib.sha256(content.encode()).hexdigest()[:16]]; [None] when the
    encoding raises. *)
Definition generate_job_id (url title company : str) : option str :=
  let content := lower (url ++ u ":" ++ title ++ u ":" ++ company) in
  match encode content with
  | Some data => Some (take 16 (Sha256.hexdigest data))
  | None => None
  end.

(** The identity generator as section 4.2 of the specification gives it:
    the lower-cased composite [url:title:company] is hashed and the hash
    cut to 16 hexadecimal characters, with the hash and the encoding of
    [local_app.generate_job_id]. The section gives it as a pure function
    of the triple and names no failure: it is total, a surrogate being
    encoded by the bit pattern of its code point. *)
Definition generate_id (url title company : str) : str :=
  let content := lower (url ++ u ":" ++ title ++ u ":" ++ company) in
  take 16 (Sha256.hexdigest (flat_map utf8_char content)).

(** A lower-case hexadecimal digit. *)
Definition is_hex (c : N) : bool :=
  (((48 <=? c) && (c <=? 57)) || ((97 <=? c) && (c <=? 102)))%N.

(** ** Loops whose body may raise *)

(** A [for] loop over [items] with the state [st]: the state after the
    last turn, or [None] as soon as a turn raises. *)
Fixpoint for_each {S L : Type} (body : S -> L -> option S) (items : list L)
    (st : S) : option S :=
  match items with
  | [] => Some st
  | x :: rest =>
      match body st x with
      | Some st' => for_each body rest st'
      | None => None
      end
  end.

(** What one turn of a loop that appends to a list does: it passes to the
    next item ([continue]), appends a record, or raises. *)
Inductive turn (J : Type) : Type :=
| Continue
| Append (j : J)
| Raise.

Arguments Continue {J}.
Arguments Append {J} j.
Arguments Raise {J}.

(** Such a loop inside a [try] whose handler goes on after the loop: the
    records appended before the turn that raises stay in the list. *)
Fixpoint collect {J L : Type} (body : L -> turn J) (items : list L) : list J :=
  match items with
  | [] => []
  | x :: rest =>
      match body x with
      | Continue => collect body rest
      | Append j => j :: collect body rest
      | Raise => []
      end
  end.

(** ** Regular expressions ([re])

    The patterns of the parsers, matched by derivatives. [re_match] is
    [pattern.match(s)] (a match starting at the first character) and
    [re_search] is [pattern.search(s)] (a match starting anywhere), both
    as truth values. *)

Inductive regex :=
| Nul
| Eps
| Sym (p : N -> bool)
| Cat (r1 r2 : regex)
| Alt (r1 r2 : regex)
| Star (r : regex).

Fixpoint nullable (r : regex) : bool :=
  match r with
  | Nul => false
  | Eps => true
  | Sym _ => false
  | Cat r1 r2 => nullable r1 && nullable r2
  | Alt r1 r2 => nullable r1 || nullable r2
  | Star _ => true
  end.

Fixpoint deriv (c : N) (r : regex) : regex :=
  match r with
  | Nul => Nul
  | Eps => Nul
  | Sym p => if p c then Eps else Nul
  | Cat r1 r2 =>
      if nullable r1 then Alt (Cat (deriv c r1) r2) (deriv c r2)
      else Cat (deriv c r1) r2
  | Alt r1 r2 => Alt (deriv c r1) (deriv c r2)
  | Star r1 => Cat (deriv c r1) (Star r1)
  end.

Fixpoint re_match (r : regex) (s : str) : bool :=
  nullable r ||
  match s with
  | [] => false
  | c :: s' => re_match (deriv c r) s'
  end.

Fixpoint re_search (r : regex) (s : str) : bool :=
  re_match r s ||
  match s with
  | [] => false
  | _ :: s' => re_search r s'
  end.

(** A literal, [.], the class [0-9] ([is_digit]), [\d], [\s], [r+], [r?].
    For a text pattern [\d] matches every decimal digit of Unicode and
    [\s] every white-space character. *)
Definition lit (s : str) : regex :=
  fold_right (fun c r => Cat (Sym (N.eqb c)) r) Eps s.
Definition any_char : regex := Sym (fun c => negb (c =? 10)%N).
Definition is_digit (c : N) : bool := ((48 <=? c) && (c <=? 57))%N.
Definition digit : regex := Sym is_decimal.
Definition space : regex := Sym is_space.
Definition plus (r : regex) : regex := Cat r (Star r).
Definition opt (r : regex) : regex := Alt r Eps.

(** ** The tree BeautifulSoup builds

    [Text] is a [NavigableString], [Tag] a tag with its attribute
    dictionary and its contents. Comments, scripts and style sheets, which
    [get_text] leaves out, are not represented. *)

Inductive node :=
| Text (s : str)
| Tag (name : str) (attrs : gmap str str) (contents : list node).

(** [tag.get(key, default)] *)
Definition attr_get (n : node) (key default : str) : str :=
  match n with
  | Tag _ a _ => match a !! key with Some v => v | None => default end
  | Text _ => default
  end.

(** The strings below a node, in document order. *)
Fixpoint strings (n : node) : list str :=
  match n with
  | Text s => [s]
  | Tag _ _ cs => flat_map strings cs
  end.

(** [tag.get_text(sep, strip=True)]: every string stripped, the empty ones
    dropped, the rest joined by [sep]. *)
Definition get_text_strip (sep : str) (n : node) : str :=
  join sep (filter (fun s => negb (str_eqb s [])) (map strip (strings n))).

(** [tag.get_text(sep)] *)
Definition get_text (sep : str) (n : node) : str :=
  join sep (strings n).

(** A tag found in the tree, with its ancestors (nearest first). *)
Record located := Located { ancestors : list node; here : node }.

Fixpoint descend (anc : list node) (n : node) : list located :=
  match n with
  | Text _ => []
  | Tag _ _ cs => Located anc n :: flat_map (descend (n :: anc)) cs
  end.

(** The tags below a node (the node itself left out). *)
Definition descendants (anc : list node) (n : node) : list located :=
  match n with
  | Text _ => []
  | Tag _ _ cs => flat_map (descend (n :: anc)) cs
  end.

Definition name_in (names : list str) (n : node) : bool :=
  match n with
  | Tag nm _ _ => existsb (str_eqb nm) names
  | Text _ => false
  end.

(** [soup.find_all('a', href=pattern)]: the [a] tags, in document order,
    that carry an [href] in which the pattern is found. *)
Definition href_matches (pattern : regex) (n : node) : bool :=
  match n with
  | Tag nm a _ =>
      str_eqb nm (u "a") &&
      match a !! u "href" with
      | Some v => re_search pattern v
      | None => false
      end
  | Text _ => false
  end.

Definition find_all_links (pattern : regex) (soup : list node) : list located :=
  filter (fun l => href_matches pattern (here l)) (flat_map (descend []) soup).

(** [tag.find(names)]: the first tag below [tag] with one of the names. *)
Definition find (names : list str) (l : located) : option node :=
  head (filter (name_in names) (map here (descendants [] (here l)))).

(** [tag.find_parent(names)]: the nearest ancestor with one of the names. *)
Definition find_parent (names : list str) (l : located) : option node :=
  head (filter (name_in names) (ancestors l)).

(** The line feed. *)
Definition newline : str := [10%N].

(** U+00B7 MIDDLE DOT. *)
Definition middle_dot : str := [183%N].

(** ** The tree ElementTree builds

    An element with its tag, its [text] (the character data before the
    first child, [None] when there is none) and its child elements. *)

Inductive element :=
| Element (tag : str) (text : option str) (children : list element).

Definition elem_tag (e : element) : str := let 'Element t _ _ := e in t.
Definition elem_text (e : element) : option str := let 'Element _ t _ := e in t.
Definition elem_children (e : element) : list element :=
  let 'Element _ _ cs := e in cs.

(** [e.find(tag)]: the first child with that tag. *)
Definition elem_find (tag : str) (e : element) : option element :=
  head (filter (fun c => str_eqb (elem_tag c) tag) (elem_children e)).

(** The elements below [e], in document order. *)
Fixpoint elem_descendants (e : element) : list element :=
  match e with
  | Element _ _ cs => flat_map (fun c => c :: elem_descendants c) cs
  end.

(** [e.findall('.//' + tag)] *)
Definition elem_findall (tag : str) (e : element) : list element :=
  filter (fun c => str_eqb (elem_tag c) tag) (elem_descendants e).

(** The truth value of an element, [bool(e)]: whether it has children. *)
Definition elem_bool (e : element) : bool :=
  match elem_children e with
  | [] => false
  | _ :: _ => true
  end.

(** ** datetime

    A naive [datetime] is a wall-clock reading, an aware one an instant
    with its UTC offset; both count microseconds. *)

Inductive datetime :=
| Naive (t : Z)
| Aware (t : Z) (utcoffset : Z).

(** [a < b]: [None] is the [TypeError] raised when a naive and an aware
    value are compared. *)
Definition datetime_lt (a b : datetime) : option bool :=
  match a, b with
  | Naive x, Naive y => Some (x <? y)
  | Aware x _, Aware y _ => Some (x <? y)
  | _, _ => None
  end.

(** [timedelta(days=n)] in microseconds. *)
Definition days (n : Z) : Z := n * 86400000000.

(** ** JSON bodies and responses of the Flask routes

    A JSON value as [json.loads] gives it: [None], a truth value, an
    integer, a float (of which the routes observe only whether it is
    zero), text, a list or a dictionary. *)

Inductive json :=
| JNull
| JBool (b : bool)
| JInt (n : Z)
| JFloat (zero : bool)
| JStr (s : str)
| JList (items : list json)
| JDict (members : gmap str json).

(** [bool(v)] *)
Definition truthy (v : json) : bool :=
  match v with
  | JNull => false
  | JBool b => b
  | JInt n => negb (n =? 0)
  | JFloat zero => negb zero
  | JStr s => negb (str_eqb s [])
  | JList items => match items with [] => false | _ :: _ => true end
  | JDict members => negb (size members =? 0)%nat
  end.

(** A value that [in] can search: a text, a list or a dictionary. *)
Definition container (v : json) : bool :=
  match v with
  | JStr _ | JList _ | JDict _ => true
  | JNull | JBool _ | JInt _ | JFloat _ => false
  end.

(** [needle in v] for a text [needle]: a substring of a text, an item of
    a list, a key of a dictionary; [None] is the [TypeError] raised for a
    value that is no container. *)
Definition json_in (needle : str) (v : json) : option bool :=
  match v with
  | JStr s => Some (contains needle s)
  | JList items =>
      Some (existsb (fun item => match item with
                                 | JStr s => str_eqb s needle
                                 | _ => false
                                 end) items)
  | JDict members => Some (bool_decide (is_Some (members !! needle)))
  | JNull | JBool _ | JInt _ | JFloat _ => None
  end.

Record response := Response {
  body : list (str * json);
  status_code : Z
}.

(** [jsonify(body)], with the default status. *)
Definition jsonify (b : list (str * json)) : response := Response b 200.

(** ** Gmail message payloads

    A payload (or a part of one) with its [mimeType], the [data] of its
    [body] ([None] when the body or its data is absent) and its [parts]
    ([None] when the key is absent). *)

Inductive payload :=
| Payload (mimeType : str) (data : option str) (parts : option (list payload)).

Definition payload_mime (p : payload) : str := let 'Payload m _ _ := p in m.
Definition payload_data (p : payload) : option str := let 'Payload _ d _ := p in d.
Definition payload_parts (p : payload) : option (list payload) :=
  let 'Payload _ _ ps := p in ps.

(** * local_app.py *)

Module local_app.

(** The dictionaries appended to [jobs]. The key ['description'] is set
    by the feed scan only: [None] when the key is absent, [Some None]
    when its value is Python's [None]. *)
Record job := Job {
  job_id : str;
  title : str;
  company : str;
  location : str;
  url : str;
  source : str;
  raw_text : str;
  description : option (option str);
  created_at : str
}.

(** The separator literal of [parse_linkedin_jobs] as the file has it:
    U+00AC NOT SIGN followed by U+2211 N-ARY SUMMATION. *)
Definition linkedin_separator : str := [172%N; 8721%N].

Definition linkedin_href : regex := lit (u "linkedin.com/comm/jobs/view").
Definition indeed_href : regex :=
  Cat (lit (u "indeed.com")) (Cat (Star any_char) (lit (u "jk="))).

Definition containers : list str := [u "td"; u "div"; u "tr"].

(** The feeds scanned by [fetch_wwr_jobs]. *)
Definition WWR_FEEDS : list str :=
  [ u "https://weworkremotely.com/categories/remote-programming-jobs.rss";
    u "https://weworkremotely.com/categories/remote-devops-sysadmin-jobs.rss";
    u "https://weworkremotely.com/categories/remote-full-stack-programming-jobs.rss";
    u "https://weworkremotely.com/remote-jobs.rss" ].

(** The columns of the [jobs] table as [init_db] creates it. *)
Definition jobs_columns : list str :=
  [ u "job_id"; u "title"; u "company"; u "location"; u "url"; u "source";
    u "status"; u "score"; u "analysis"; u "cover_letter"; u "notes";
    u "raw_text"; u "created_at"; u "updated_at" ].

(** A row of the table, one field for each column but the key; [None] is
    SQL's NULL. *)
Record row := Row {
  r_title : str;
  r_company : str;
  r_location : str;
  r_url : str;
  r_source : str;
  r_status : str;
  r_score : Z;
  r_analysis : option str;
  r_cover_letter : option str;
  r_notes : option str;
  r_raw_text : option str;
  r_created_at : str;
  r_updated_at : str
}.

(** [conn.execute(statement, parameters)] prepares the statement before
    it binds a parameter or touches a row, and raises
    [sqlite3.OperationalError] for a statement that names a column the
    table lacks: whether a statement that names [columns] can be
    prepared. *)
Definition prepares (columns : list str) : bool :=
  forallb (fun c => bool_decide (c ∈ jobs_columns)) columns.

(** The columns named by the [INSERT] of [api_scan], by the [INSERT] of
    [api_scan_wwr], and by the [UPDATE] and the [INSERT] of
    [api_capture]. *)
Definition scan_insert_columns : list str :=
  [ u "job_id"; u "title"; u "company"; u "location"; u "url"; u "source";
    u "raw_text"; u "created_at"; u "updated_at" ].

Definition wwr_insert_columns : list str :=
  [ u "job_id"; u "title"; u "company"; u "location"; u "url"; u "source";
    u "description"; u "raw_text"; u "created_at"; u "updated_at" ].

Definition capture_update_columns : list str :=
  [ u "description"; u "raw_text"; u "updated_at"; u "job_id" ].

Definition capture_insert_columns : list str :=
  [ u "job_id"; u "title"; u "company"; u "location"; u "url"; u "source";
    u "description"; u "raw_text"; u "created_at"; u "updated_at" ].

Section Program.

(** The libraries and services the program calls.

    [BeautifulSoup(html, 'html.parser')]: the top-level nodes of the
    tree the library builds for a document. *)
Variable BeautifulSoup : str -> list node.

(** [ET.fromstring] of what [urlopen] reads at a feed address; [None]
    when either raises. *)
Variable fetch_feed : str -> option element.

(** [email.utils.parsedate_to_datetime]; [None] when it raises. *)
Variable parsedate_to_datetime : str -> option datetime.

(** [datetime.isoformat] *)
Variable isoformat : datetime -> str.

(** The messages the Gmail service returns for a query, each as its
    date (ISO format) and its HTML body, up to the first request that
    raises. *)
Variable gmail : str -> list (str * str).

(** One turn of the loop of [parse_linkedin_jobs] over [job_links];
    the state is [(seen, jobs)], and [None] is the exception
    [generate_job_id] raises. *)
Definition linkedin_step (email_date : str)
    (st : gset str * list job) (link : located)
    : option (gset str * list job) :=
  let '(seen, jobs) := st in
  let url := attr_get (here link) (u "href") [] in
  if bool_decide (url ∈ seen) then Some st
  else
    let seen := seen ∪ {[ url ]} in
    let title :=
      match find [u "h2"; u "h3"; u "strong"; u "span"] link with
      | Some title_elem => get_text_strip [] title_elem
      | None => get_text_strip [] (here link)
      end in
    if str_eqb title [] || (length title <? 3)%nat then Some (seen, jobs)
    else
      let '(company, location, raw_text) :=
        match find_parent containers link with
        | Some parent =>
            let raw_text := get_text_strip (u " ") parent in
            let parts := split linkedin_separator raw_text in
            (if (1 <? length parts)%nat
             then take 100 (strip (nth 1 parts [])) else [],
             if (2 <? length parts)%nat
             then take 100 (strip (nth 2 parts [])) else [],
             raw_text)
        | None => ([], [], title)
        end in
      match generate_job_id url title company with
      | None => None
      | Some job_id =>
          Some (seen,
                jobs ++ [ {| job_id := job_id;
                             title := take 200 title;
                             company := company;
                             location := location;
                             url := url;
                             source := u "linkedin";
                             raw_text := take 1000 raw_text;
                             description := None;
                             created_at := email_date |} ])
      end.

(** [parse_linkedin_jobs(html, email_date)]; [None] when it raises. *)
Definition parse_linkedin_jobs (html email_date : str) : option (list job) :=
  let soup := BeautifulSoup html in
  let job_links := find_all_links linkedin_href soup in
  snd <$> for_each (linkedin_step email_date) job_links (∅, []).

(** One turn of the loop of [parse_indeed_jobs]. *)
Definition indeed_step (email_date : str)
    (st : gset str * list job) (link : located)
    : option (gset str * list job) :=
  let '(seen, jobs) := st in
  let url := attr_get (here link) (u "href") [] in
  if bool_decide (url ∈ seen) then Some st
  else
    let seen := seen ∪ {[ url ]} in
    let title := get_text_strip [] (here link) in
    if str_eqb title [] || (length title <? 3)%nat then Some (seen, jobs)
    else
      let '(company, location, raw_text) :=
        match find_parent containers link with
        | Some parent =>
            let raw_text := get_text_strip (u " ") parent in
            let lines :=
              filter (fun l => negb (str_eqb (strip l) []))
                     (split newline
                            (get_text newline parent)) in
            let lines := map strip lines in
            (if (1 <? length lines)%nat
             then take 100 (nth 1 lines []) else [],
             if (2 <? length lines)%nat
             then take 100 (nth 2 lines []) else [],
             raw_text)
        | None => ([], [], title)
        end in
      match generate_job_id url title company with
      | None => None
      | Some job_id =>
          Some (seen,
                jobs ++ [ {| job_id := job_id;
                             title := take 200 title;
                             company := company;
                             location := location;
                             url := url;
                             source := u "indeed";
                             raw_text := take 1000 raw_text;
                             description := None;
                             created_at := email_date |} ])
      end.

(** [parse_indeed_jobs(html, email_date)]; [None] when it raises. *)
Definition parse_indeed_jobs (html email_date : str) : option (list job) :=
  let soup := BeautifulSoup html in
  let job_links := find_all_links indeed_href soup in
  snd <$> for_each (indeed_step email_date) job_links (∅, []).

(** *** WeWorkRemotely RSS *)

(** [x or ''] for an optional text. *)
Definition or_empty (x : option str) : str :=
  match x with
  | Some t => t
  | None => []
  end.

(** "Parse company from title": the company and the job title. *)
Definition parse_company (title : str) : str * str :=
  if contains (u ":") title
  then let parts := split1 (u ":") title in
       (strip (nth 0 parts []), strip (nth 1 parts []))
  else ([], title).

(** "Parse date": [None] when the item is older than the cutoff
    ([continue]), the value of [pub_date] otherwise. [now] is the
    reading of [datetime.now()]; the bare [except] swallows what the
    parser or the comparison raises. *)
Definition parse_date (cutoff : datetime) (now : Z)
    (pub_date_elem : option element) : option str :=
  match pub_date_elem with
  | Some p =>
      match elem_text p with
      | Some (c :: t) =>
          match parsedate_to_datetime (c :: t) with
          | Some dt =>
              match datetime_lt dt cutoff with
              | Some true => None
              | Some false => Some (isoformat dt)
              | None => Some (isoformat (Naive now))
              end
          | None => Some (isoformat (Naive now))
          end
      | _ => Some (isoformat (Naive now))
      end
  | None => Some (isoformat (Naive now))
  end.

(** "Clean description HTML" *)
Definition clean_description (description : option str) : option str :=
  match description with
  | Some (c :: t) =>
      let soup := BeautifulSoup (c :: t) in
      Some (take 2000
              (get_text_strip (u " ") (Tag (u "[document]") ∅ soup)))
  | other => other
  end.

(** [description or title] *)
Definition description_or (description : option str) (title : str) : str :=
  match description with
  | Some (c :: t) => c :: t
  | _ => title
  end.

(** The body of the loop of [fetch_wwr_jobs] over the items of a feed:
    the item is passed over ([continue]), a dictionary is appended to
    [jobs], or [generate_job_id] raises. *)
Definition wwr_item (cutoff : datetime) (now : Z) (item : element)
    : turn job :=
  let title_elem := elem_find (u "title") item in
  let link_elem := elem_find (u "link") item in
  let desc_elem := elem_find (u "description") item in
  let pub_date_elem := elem_find (u "pubDate") item in
  match title_elem, link_elem with
  | Some title_elem, Some link_elem =>
      if negb (elem_bool title_elem) || negb (elem_bool link_elem)
      then Continue
      else
        let title := or_empty (elem_text title_elem) in
        let url := or_empty (elem_text link_elem) in
        let description :=
          match desc_elem with
          | Some d => elem_text d
          | None => Some []
          end in
        let company := (parse_company title).1 in
        let job_title := (parse_company title).2 in
        match parse_date cutoff now pub_date_elem with
        | None => Continue
        | Some pub_date =>
            let description := clean_description description in
            match generate_job_id url job_title company with
            | None => Raise
            | Some job_id =>
                Append {| job_id := job_id;
                          title := take 200 job_title;
                          company := take 100 company;
                          location := u "Remote";
                          url := url;
                          source := u "weworkremotely";
                          raw_text := description_or description title;
                          description := Some description;
                          created_at := pub_date |}
            end
        end
  | _, _ => Continue
  end.

(** [fetch_wwr_jobs(days_back)]; the [try] of each feed encloses the
    request and the loop over the items. *)
Definition fetch_wwr_jobs (days_back now : Z) : list job :=
  let cutoff := Naive (now - days days_back) in
  flat_map
    (fun feed_url =>
       match fetch_feed feed_url with
       | Some root =>
           collect (wwr_item cutoff now) (elem_findall (u "item") root)
       | None => []
       end)
    WWR_FEEDS.

(** *** Gmail *)

(** The loop of [scan_emails] over the messages of one query. The [try]
    encloses the whole loop: when a parser raises, the jobs of the
    messages before stay in [all_jobs] and the messages after are not
    read. *)
Fixpoint scan_query (parse : str -> str -> option (list job))
    (messages : list (str * str)) : list job :=
  match messages with
  | [] => []
  | (email_date, html) :: rest =>
      match parse html email_date with
      | Some jobs => jobs ++ scan_query parse rest
      | None => []
      end
  end.

(** [scan_emails]; [after_date] is the [strftime] of the look-back
    date. *)
Definition scan_emails (after_date : str) : list job :=
  let queries :=
    [ u "from:jobs-noreply@linkedin.com after:" ++ after_date;
      u "from:jobalerts-noreply@linkedin.com after:" ++ after_date;
      u "from:noreply@indeed.com subject:job after:" ++ after_date ] in
  flat_map
    (fun query =>
       scan_query
         (if contains (u "linkedin") query
          then parse_linkedin_jobs
          else parse_indeed_jobs)
         (gmail query))
    queries.

(** *** Flask routes

    The [jobs] table is a map from its primary key [job_id] to the
    rest of the row. *)

(** One turn of the loop of [api_scan]: [SELECT 1 ... WHERE job_id = ?]
    and, when no row answers, the [INSERT], which names [job_id], [title],
    [company], [location], [url], [source], [raw_text], [created_at] and
    [updated_at]; [status], [score] and the other columns take their
    defaults. Either statement raises ([None]) when a text of the job it
    binds cannot be bound; [now] is [datetime.now().isoformat()], a text
    of digits and punctuation. *)
Definition scan_step (now : str)
    (st : gmap str row * Z) (j : job) : option (gmap str row * Z) :=
  let '(conn, new_count) := st in
  if negb (bindable (job_id j)) then None
  else
    match conn !! job_id j with
    | Some existing => Some st
    | None =>
        if forallb bindable [ title j; company j; location j; url j;
                              source j; raw_text j; created_at j ]
        then
          Some (<[ job_id j :=
                     {| r_title := title j; r_company := company j;
                        r_location := location j; r_url := url j;
                        r_source := source j; r_status := u "new";
                        r_score := 0;
                        r_analysis := None; r_cover_letter := None;
                        r_notes := None; r_raw_text := Some (raw_text j);
                        r_created_at := created_at j;
                        r_updated_at := now |} ]> conn,
                new_count + 1)
        else None
    end.

(** The merge of [api_scan] over the jobs found, with the one [commit]
    after the loop. The response is [None] when an exception leaves the
    view (Flask answers 500); the connection is then dropped without a
    commit and the table is as it was. *)
Definition scan_merge (now : str) (jobs : list job) (conn : gmap str row)
    : gmap str row * option response :=
  match for_each (scan_step now) jobs (conn, 0) with
  | Some (conn', new_count) =>
      (conn',
       Some (jsonify [ (u "found", JInt (Z.of_nat (length jobs)));
                       (u "new", JInt new_count) ]))
  | None => (conn, None)
  end.

(** [POST /api/scan] *)
Definition api_scan (after_date now : str) (conn : gmap str row)
    : gmap str row * option response :=
  scan_merge now (scan_emails after_date) conn.

(** One turn of the loop of [api_scan_wwr]: [SELECT 1 ... WHERE job_id = ?]
    and, when no row answers, the [INSERT]. That statement names
    [description], a column the table lacks ([wwr_insert_columns]): it
    cannot be prepared and raises [sqlite3.OperationalError], which is
    [None] here. *)
Definition wwr_step (now : str)
    (st : gmap str row * Z) (j : job) : option (gmap str row * Z) :=
  let '(conn, new_count) := st in
  if negb (bindable (job_id j)) then None
  else
    match conn !! job_id j with
    | Some existing => Some st
    | None => None
    end.

(** [POST /api/wwr]; the response is [None] when an exception leaves the
    view, and the table is then as it was. *)
Definition api_scan_wwr (clock : Z) (now : str) (conn : gmap str row)
    : gmap str row * option response :=
  let jobs := fetch_wwr_jobs 7 clock in
  match for_each (wwr_step now) jobs (conn, 0) with
  | Some (conn', new_count) =>
      (conn',
       Some (jsonify [ (u "found", JInt (Z.of_nat (length jobs)));
                       (u "new", JInt new_count) ]))
  | None => (conn, None)
  end.

End Program.

(** *** Browser extension endpoint *)

Section Capture.

(** [str(v)], as an f-string formats a value that is not text. *)
Variable str_of : json -> str.

Definition format (v : json) : str :=
  match v with
  | JStr s => s
  | _ => str_of v
  end.

(** [data.get(key, default)] on a dictionary. *)
Definition data_get (data : gmap str json) (key : str) (default : json)
    : json :=
  match data !! key with
  | Some v => v
  | None => default
  end.

(** The [if]/[elif] chain of [api_capture] that detects the source from
    the address, as the table of its tests ([x in url or y in url] is two
    of them); [None] is the [TypeError] of the first test when [url] is no
    container. *)
Definition capture_markers : list (str * str) :=
  [ (u "linkedin.com", u "linkedin");
    (u "indeed.com", u "indeed");
    (u "weworkremotely.com", u "weworkremotely");
    (u "greenhouse.io", u "greenhouse");
    (u "lever.co", u "lever");
    (u "glassdoor.com", u "glassdoor");
    (u "wellfound.com", u "wellfound");
    (u "angel.co", u "wellfound") ].

Fixpoint first_marker (markers : list (str * str)) (url source : json)
    : option json :=
  match markers with
  | [] => Some source
  | (marker, name) :: rest =>
      match json_in marker url with
      | None => None
      | Some true => Some (JStr name)
      | Some false => first_marker rest url source
      end
  end.

Definition capture_source (url source : json) : option json :=
  first_marker capture_markers url source.

(** [POST /api/capture]; [data] is [request.json] and [now] the reading
    of the clock. The response is [None] when an exception leaves the view
    (Flask answers 500): [data] is no dictionary and has no [get], the
    first test of the chain raises [TypeError], or [generate_job_id]
    raises [UnicodeEncodeError]. After the [SELECT] the view executes the
    [UPDATE] (a row has the id) or the [INSERT] (none has it); both name
    [description], a column the table lacks ([capture_update_columns],
    [capture_insert_columns]), so that whichever is executed raises, if
    the slice of one of its parameters has not raised before. *)
Definition api_capture (data : json) (now : str) (conn : gmap str row)
    : gmap str row * option response :=
  match data with
  | JDict data =>
      let url := data_get data (u "url") (JStr []) in
      let title := data_get data (u "title") (JStr []) in
      let company := data_get data (u "company") (JStr []) in
      let location := data_get data (u "location") (JStr (u "Remote")) in
      let description := data_get data (u "description") (JStr []) in
      let source := data_get data (u "source") (JStr (u "extension")) in
      match capture_source url source with
      | None => (conn, None)
      | Some source =>
          if negb (truthy url) || negb (truthy title) then
            (conn,
             Some (Response
                     [ (u "error", JStr (u "url and title required")) ] 400))
          else
            match generate_job_id (format url) (format title)
                    (format company) with
            | None => (conn, None)
            | Some job_id =>
                match conn !! job_id with
                | Some existing => (conn, None)
                | None => (conn, None)
                end
            end
      end
  | _ => (conn, None)
  end.

End Capture.

(** *** Message bodies *)

Section Bodies.

(** [base64.urlsafe_b64decode(data).decode('utf-8')]; [None] when it
    raises. *)
Variable decode : str -> option str.

Section Parts.

(** The call of [get_email_body] on a nested part. *)
Variable nested : payload -> option str.

(** The loop of [get_email_body] over [payload['parts']]: the first part
    that is [text/html] with data ends it, and so does a nested part whose
    body is not empty. *)
Fixpoint parts_loop (parts : list payload) : option str :=
  match parts with
  | [] => Some []
  | part :: rest =>
      match str_eqb (payload_mime part) (u "text/html"),
            payload_data part with
      | true, Some d => decode d
      | _, _ =>
          match payload_parts part with
          | Some _ =>
              match nested part with
              | Some (c :: t) => Some (c :: t)
              | Some [] => parts_loop rest
              | None => None
              end
          | None => parts_loop rest
          end
      end
  end.

End Parts.

(** [get_email_body(payload)]; [None] when the decoder raises. *)
Fixpoint get_email_body (message : payload) : option str :=
  match message with
  | Payload _ data parts =>
      match data with
      | Some (c :: t) => decode (c :: t)
      | _ =>
          match parts with
          | Some parts => parts_loop get_email_body parts
          | None => Some []
          end
      end
  end.

End Bodies.

(** *** Scoring and cover letters *)

(** What [analyze_job] returns, as far as [api_analyze] reads it:
    [analysis.get('qualification_score', 0)], the truth value of
    [analysis.get('should_apply')] and [json.dumps(analysis)]. The score is
    taken to be an integer, as the prompt asks and as the column is
    declared ([score INTEGER DEFAULT 0]); the column then never holds NULL
    and [score IS NULL] selects no row. *)
Record analysis := Analysis {
  qualification_score : Z;
  should_apply : bool;
  dumps : str
}.

Section Scoring.

(** [analyze_job(job, resume_text)] and
    [generate_cover_letter(job, resume_text)], on the row selected under a
    job id. Both are taken as total: each catches what the model call
    raises, and what it does before the call (building the client, reading
    the stored analysis, which is NULL or the JSON text [api_analyze]
    wrote) is taken to succeed. *)
Variable analyze_job : str -> row -> str -> analysis.
Variable generate_cover_letter : str -> row -> str -> str.

(** The [UPDATE] of [api_analyze] on one row. *)
Definition analysed (now resume_text job_id : str) (r : row) : row :=
  let a := analyze_job job_id r resume_text in
  {| r_title := r_title r; r_company := r_company r;
     r_location := r_location r; r_url := r_url r; r_source := r_source r;
     r_status := if should_apply a then u "interested" else u "new";
     r_score := qualification_score a;
     r_analysis := Some (dumps a);
     r_cover_letter := r_cover_letter r; r_notes := r_notes r;
     r_raw_text := r_raw_text r;
     r_created_at := r_created_at r; r_updated_at := now |}.

(** [POST /api/analyze]; [resume_text] is what [load_resumes()] returns.
    The rows selected are those whose score is 0; each is updated under
    its own key. The [UPDATE] binds the score, the text of [json.dumps]
    (which escapes what is not ASCII), a literal, the time and the id read
    from the row. *)
Definition api_analyze (resume_text now : str) (conn : gmap str row)
    : gmap str row * response :=
  if str_eqb resume_text [] then
    (conn, Response [ (u "error", JStr (u "No resumes found")) ] 400)
  else
    let jobs := filter (fun kr : str * row => r_score kr.2 = 0) conn in
    (map_imap (fun job_id r =>
                 Some (if r_score r =? 0
                       then analysed now resume_text job_id r else r))
              conn,
     jsonify [ (u "analyzed", JInt (Z.of_nat (size jobs))) ]).

(** [POST /api/jobs/<job_id>/cover-letter]; the response is [None] when
    an exception leaves the view: the [SELECT] cannot bind the id, no row
    has the id and [dict(None)] raises, or the [UPDATE] cannot bind the
    letter. *)
Definition api_cover_letter (job_id resume_text now : str)
    (conn : gmap str row) : gmap str row * option response :=
  if negb (bindable job_id) then (conn, None)
  else
    match conn !! job_id with
    | None => (conn, None)
    | Some job =>
        let cover_letter := generate_cover_letter job_id job resume_text in
        if bindable cover_letter then
          (<[ job_id :=
                {| r_title := r_title job; r_company := r_company job;
                   r_location := r_location job; r_url := r_url job;
                   r_source := r_source job; r_status := r_status job;
                   r_score := r_score job; r_analysis := r_analysis job;
                   r_cover_letter := Some cover_letter;
                   r_notes := r_notes job;
                   r_raw_text := r_raw_text job;
                   r_created_at := r_created_at job;
                   r_updated_at := now |} ]> conn,
           Some (jsonify [ (u "cover_letter", JStr cover_letter) ]))
        else (conn, None)
    end.

End Scoring.

End local_app.

(** * shared (the package of the Lambda functions)

    The module [shared/utils.py] is not among the sources; what the
    handlers import from it is modelled here. *)

Module shared.

(** Modelled from the spec: [shared.generate_job_id], the identity
    generator of section 4.2. *)
Definition generate_job_id (url title company : str) : str :=
  generate_id url title company.

(** Modelled from the spec: [shared.JobStatus], the life cycle of
    section 3. *)
Inductive JobStatus :=
| NEW | INTERESTED | APPLIED | INTERVIEWING | PASSED | REJECTED.

End shared.

(** * functions/email_scanner/handler.py *)

Module email_scanner.

Record job := Job {
  job_id : str;
  title : str;
  company : str;
  location : str;
  url : str;
  source : str;
  email_date : str;
  raw_text : str;
  status : shared.JobStatus;
  score : Z
}.

Definition linkedin_href : regex := lit (u "linkedin.com/comm/jobs/view").
Definition indeed_href : regex :=
  Alt (Cat (lit (u "indeed.com")) (Cat (Star any_char) (lit (u "jk="))))
      (Cat (lit (u "indeed.com")) (Cat (Star any_char) (lit (u "vjk=")))).

Definition containers : list str := [u "td"; u "div"; u "tr"].

(** Modelled from the spec: [shared.JobModel], the persistent store of
    section 6 ([get(id)], insert keyed by the job identity), here keyed
    by the user and the job. [job_exists] answers whether a record is
    stored under the key, [put_job] stores the record under it. *)
Definition job_exists (table : gmap (str * str) job) (user_id job_id : str)
    : bool :=
  bool_decide (is_Some (table !! (user_id, job_id))).

Definition put_job (table : gmap (str * str) job) (user_id : str) (j : job)
    : gmap (str * str) job :=
  <[ (user_id, job_id j) := j ]> table.

Section Program.

Variable BeautifulSoup : str -> list node.

(** [get_gmail_service()]: the service, as the messages it returns for
    a query, each with its date and its HTML body (the messages whose
    request raises left out), or the message of the exception raised. *)
Variable get_gmail_service : (str -> list (str * str)) + str.

(** One turn of the loop of [parse_linkedin_jobs]. *)
Definition linkedin_step (email_date : str)
    (st : gset str * list job) (link : located) : gset str * list job :=
  let '(seen_urls, jobs) := st in
  let url := attr_get (here link) (u "href") [] in
  if bool_decide (url ∈ seen_urls) then st
  else
    let seen_urls := seen_urls ∪ {[ url ]} in
    let title :=
      match find [u "h2"; u "h3"; u "strong"; u "span"] link with
      | Some title_elem => get_text_strip [] title_elem
      | None => get_text_strip [] (here link)
      end in
    if str_eqb title [] || (length title <? 3)%nat then (seen_urls, jobs)
    else
      let '(company, location, raw_text) :=
        match find_parent containers link with
        | Some parent =>
            let raw_text := get_text_strip (u " ") parent in
            let parts := split middle_dot raw_text in
            (if (2 <=? length parts)%nat
             then take 100 (strip (nth 1 parts [])) else [],
             if (3 <=? length parts)%nat
             then take 100 (strip (nth 2 parts [])) else [],
             raw_text)
        | None => ([], [], title)
        end in
      let job_id := shared.generate_job_id url title company in
      (seen_urls,
       jobs ++ [ {| job_id := job_id;
                    title := take 200 title;
                    company := company;
                    location := location;
                    url := url;
                    source := u "linkedin";
                    email_date := email_date;
                    raw_text := take 1000 raw_text;
                    status := shared.NEW;
                    score := 0 |} ]).

Definition parse_linkedin_jobs (html email_date : str) : list job :=
  let soup := BeautifulSoup html in
  let job_links := find_all_links linkedin_href soup in
  snd (fold_left (linkedin_step email_date) job_links (∅, [])).

(** One turn of the loop of [parse_indeed_jobs]. *)
Definition indeed_step (email_date : str)
    (st : gset str * list job) (link : located) : gset str * list job :=
  let '(seen_urls, jobs) := st in
  let url := attr_get (here link) (u "href") [] in
  if bool_decide (url ∈ seen_urls) then st
  else
    let seen_urls := seen_urls ∪ {[ url ]} in
    let title := get_text_strip [] (here link) in
    if str_eqb title [] || (length title <? 3)%nat then (seen_urls, jobs)
    else
      let '(company, location, raw_text) :=
        match find_parent containers link with
        | Some parent =>
            let raw_text := get_text_strip (u " ") parent in
            let lines :=
              map strip
                (filter (fun l => negb (str_eqb (strip l) []))
                        (split newline (get_text newline parent))) in
            (if (2 <=? length lines)%nat
             then take 100 (nth 1 lines []) else [],
             if (3 <=? length lines)%nat
             then take 100 (nth 2 lines []) else [],
             raw_text)
        | None => ([], [], title)
        end in
      let job_id := shared.generate_job_id url title company in
      (seen_urls,
       jobs ++ [ {| job_id := job_id;
                    title := take 200 title;
                    company := company;
                    location := location;
                    url := url;
                    source := u "indeed";
                    email_date := email_date;
                    raw_text := take 1000 raw_text;
                    status := shared.NEW;
                    score := 0 |} ]).

Definition parse_indeed_jobs (html email_date : str) : list job :=
  let soup := BeautifulSoup html in
  let job_links := find_all_links indeed_href soup in
  snd (fold_left (indeed_step email_date) job_links (∅, [])).

(** [scan_emails(service, days_back)]; [after_date] is the [strftime]
    of the look-back date. *)
Definition scan_emails (service : str -> list (str * str))
    (after_date : str) : list job :=
  let queries :=
    [ u "from:jobs-noreply@linkedin.com after:" ++ after_date;
      u "from:jobalerts-noreply@linkedin.com after:" ++ after_date;
      u "from:noreply@indeed.com subject:job after:" ++ after_date;
      u "from:alert@indeed.com after:" ++ after_date ] in
  flat_map
    (fun query =>
       flat_map
         (fun m : str * str =>
            let '(email_date, html) := m in
            if str_eqb html [] then []
            else if contains (u "linkedin") query
            then parse_linkedin_jobs html email_date
            else parse_indeed_jobs html email_date)
         (service query))
    queries.

(** One turn of the storing loop of [lambda_handler]. *)
Definition store_step (user_id : str)
    (st : gmap (str * str) job * Z) (j : job) : gmap (str * str) job * Z :=
  let '(table, new_count) := st in
  if negb (job_exists table user_id (job_id j))
  then (put_job table user_id j, new_count + 1)
  else st.

(** [lambda_handler(event, context)], with the [user_id] and the
    look-back date read from the event. *)
Definition lambda_handler (user_id after_date : str)
    (table : gmap (str * str) job) : gmap (str * str) job * response :=
  match get_gmail_service with
  | inl service =>
      let jobs := scan_emails service after_date in
      let '(table, new_count) :=
        fold_left (store_step user_id) jobs (table, 0) in
      (table,
       Response [ (u "jobs_found", JInt (Z.of_nat (length jobs)));
                  (u "new_jobs_stored", JInt new_count);
                  (u "user_id", JStr user_id) ] 200)
  | inr e => (table, Response [ (u "error", JStr e) ] 500)
  end.

End Program.

(** *** Message bodies *)

Section Bodies.

Variable decode : str -> option str.

Section Parts.

Variable nested : payload -> option str.

(** The loop of [get_email_body] over [payload['parts']], with the value
    of [body] so far: a [text/html] part with data ends it, a [text/plain]
    part sets the body while it is empty, a nested part replaces it. *)
Fixpoint parts_loop (parts : list payload) (body : str) : option str :=
  match parts with
  | [] => Some body
  | part :: rest =>
      if str_eqb (payload_mime part) (u "text/html") then
        match payload_data part with
        | Some d => decode d
        | None => parts_loop rest body
        end
      else if str_eqb (payload_mime part) (u "text/plain")
              && str_eqb body [] then
        match payload_data part with
        | Some d =>
            match decode d with
            | Some b => parts_loop rest b
            | None => None
            end
        | None => parts_loop rest body
        end
      else
        match payload_parts part with
        | Some _ =>
            match nested part with
            | Some (c :: t) => Some (c :: t)
            | Some [] => parts_loop rest []
            | None => None
            end
        | None => parts_loop rest body
        end
  end.

End Parts.

(** [get_email_body(payload)] *)
Fixpoint get_email_body (message : payload) : option str :=
  match message with
  | Payload _ data parts =>
      match data with
      | Some (c :: t) => decode (c :: t)
      | _ =>
          match parts with
          | Some parts => parts_loop get_email_body parts []
          | None => Some []
          end
      end
  end.

End Bodies.

End email_scanner.

(** * app/parsers *)

Module app_parsers.

Record job := Job {
  job_id : str;
  title : str;
  company : str;
  location : str;
  url : str;
  source : str;
  raw_text : str;
  created_at : str;
  email_date : str
}.

(** Modelled from the spec: [BaseParser.generate_job_id]
    ([app/parsers/base.py] is not among the sources), the identity
    generator of section 4.2. *)
Definition generate_job_id (url title company : str) : str :=
  generate_id url title company.

(** Modelled from the spec: [BaseParser.clean_text_field], the
    [cleanText] of section 4.3: runs of white space collapse to single
    spaces and the ends are trimmed. *)
Definition clean_text_field (text : str) : str :=
  join (u " ") (words text).

(** The parser classes of [PARSER_REGISTRY]. *)
Inductive parser :=
| LinkedInParser
| IndeedParser
| GreenhouseParser
| WellfoundParser
| WeWorkRemotelyParser.

Definition PARSER_REGISTRY : gmap str parser :=
  {[ u "linkedin" := LinkedInParser;
     u "indeed" := IndeedParser;
     u "greenhouse" := GreenhouseParser;
     u "wellfound" := WellfoundParser;
     u "weworkremotely" := WeWorkRemotelyParser ]}.

(** The table of [detect_source]. *)
Definition patterns : list (str * str) :=
  [ (u "linkedin.com/jobs/view", u "linkedin");
    (u "linkedin.com/comm/jobs", u "linkedin");
    (u "indeed.com/viewjob", u "indeed");
    (u "indeed.com/rc/clk", u "indeed");
    (u "greenhouse.io", u "greenhouse");
    (u "boards.greenhouse.io", u "greenhouse");
    (u "wellfound.com", u "wellfound");
    (u "angel.co", u "wellfound") ].

(** [detect_source(html)] *)
Definition detect_source (html : str) : option str :=
  let html_lower := lower html in
  option_map snd
    (head (filter (fun p : str * str => contains (fst p) html_lower)
                  patterns)).

(** [get_parser(source)]; [instances] is the module's cache
    [_parser_instances], returned with the instance. *)
Definition get_parser (source : str) (instances : gmap str parser)
    : option parser * gmap str parser :=
  match PARSER_REGISTRY !! source with
  | None => (None, instances)
  | Some cls =>
      let instances :=
        match instances !! source with
        | None => <[ source := cls ]> instances
        | Some _ => instances
        end in
      (instances !! source, instances)
  end.

(** *** IndeedParser *)

Module Indeed.

Definition href : regex :=
  Cat (lit (u "indeed.com"))
    (Cat (Star any_char)
       (Cat (Alt (lit (u "jk=")) (lit (u "vjk=")))
            (plus (Sym (fun c => ((97 <=? c) && (c <=? 102))%N
                                 || is_digit c))))).

(** [^\d+\.?\d*\s*\d], the shape of a rating line. *)
Definition rating : regex :=
  Cat (plus digit)
    (Cat (opt (lit (u ".")))
       (Cat (Star digit) (Cat (Star space) digit))).

Definition exclude_keywords : list str :=
  [ u "unsubscribe"; u "help"; u "view all"; u "see all"; u "homepage";
    u "messages"; u "notifications"; u "easily apply";
    u "responsive employer" ].

(** The first index of [range(lo, hi)] whose line satisfies [p]. *)
Definition first_index (p : nat -> str -> bool) (lines : list str)
    (lo hi : nat) : option nat :=
  head (filter (fun i => p i (nth i lines [])) (seq lo (hi - lo))).

Definition is_location (potential_location : str) : bool :=
  contains (u "remote") (lower potential_location)
  || contains (u ",") potential_location
  || existsb (fun state => contains state potential_location)
             [u "CA"; u "NY"; u "TX"; u "FL"].

(** The nested loops over [lines] that look for the company line and
    the location line. *)
Definition company_location (title : str) (lines : list str) : str * str :=
  let n := length lines in
  match first_index
          (fun i line => negb (re_match rating line)
                         && contains title line && (i + 1 <? n)%nat)
          lines 0 n with
  | None => ([], [])
  | Some i =>
      match first_index
              (fun _ potential_company =>
                 negb (re_match rating potential_company)
                 && negb (contains (u "$") potential_company))
              lines (i + 1) (Nat.min (i + 4) n) with
      | None => ([], [])
      | Some j =>
          (take 100 (nth j lines []),
           match first_index (fun _ l => is_location l)
                             lines (j + 1) (Nat.min (j + 3) n) with
           | Some k => take 100 (nth k lines [])
           | None => []
           end)
      end
  end.

End Indeed.

Section Program.

Variable BeautifulSoup : str -> list node.

(** [BaseParser.clean_job_url], of [app/parsers/base.py], which is
    not among the sources. *)
Variable clean_job_url : str -> str.

(** The [parse] methods of the parser classes whose modules are not
    among the sources. *)
Variable LinkedInParser_parse : str -> str -> list job.
Variable GreenhouseParser_parse : str -> str -> list job.
Variable WellfoundParser_parse : str -> str -> list job.
Variable WeWorkRemotelyParser_parse : str -> str -> list job.

(** One turn of the loop of [IndeedParser.parse]. *)
Definition indeed_step (email_date : str)
    (st : gset str * list job) (link : located) : gset str * list job :=
  let '(seen, jobs) := st in
  let url := clean_job_url (attr_get (here link) (u "href") []) in
  if str_eqb url [] || bool_decide (url ∈ seen) then st
  else
    let full_text := get_text_strip (u " ") (here link) in
    let full_text := join (u " ") (words full_text) in
    if existsb (fun keyword => contains keyword (lower full_text))
               Indeed.exclude_keywords
    then st
    else if str_eqb full_text [] || (length full_text <? 5)%nat then st
    else
      let seen := seen ∪ {[ url ]} in
      let title := full_text in
      let '(company, location, raw_text) :=
        match find_parent [u "td"; u "div"; u "li"] link with
        | Some parent =>
            let text := get_text_strip newline parent in
            let lines :=
              map strip
                (filter (fun l => negb (str_eqb (strip l) [])
                                  && (2 <? length (strip l))%nat)
                        (split newline text)) in
            let '(company, location) :=
              Indeed.company_location title lines in
            (company, location, take 1000 (join (u " ") (take 6 lines)))
        | None => ([], [], full_text)
        end in
      let title := clean_text_field title in
      let company :=
        if str_eqb company [] then u "Unknown"
        else clean_text_field company in
      let location := clean_text_field location in
      (seen,
       jobs ++ [ {| job_id := generate_job_id url title company;
                    title := take 200 title;
                    company := take 100 company;
                    location := take 100 location;
                    url := url;
                    source := u "indeed";
                    raw_text := raw_text;
                    created_at := email_date;
                    email_date := email_date |} ]).

(** [IndeedParser.parse(html, email_date)] *)
Definition IndeedParser_parse (html email_date : str) : list job :=
  let soup := BeautifulSoup html in
  let job_links := find_all_links Indeed.href soup in
  snd (fold_left (indeed_step email_date) job_links (∅, [])).

(** [parser.parse(html, email_date)] *)
Definition parse (p : parser) : str -> str -> list job :=
  match p with
  | LinkedInParser => LinkedInParser_parse
  | IndeedParser => IndeedParser_parse
  | GreenhouseParser => GreenhouseParser_parse
  | WellfoundParser => WellfoundParser_parse
  | WeWorkRemotelyParser => WeWorkRemotelyParser_parse
  end.

(** [parse_email(html, email_date, source)]; the cache of parser
    instances is threaded through. *)
Definition parse_email (html email_date : str) (source : option str)
    (instances : gmap str parser) : list job * gmap str parser :=
  let source :=
    match source with
    | None => detect_source html
    | Some _ => source
    end in
  match source with
  | None => ([], instances)
  | Some source =>
      match get_parser source instances with
      | (None, instances) => ([], instances)
      | (Some parser, instances) => (parse parser html email_date, instances)
      end
  end.

End Program.

End app_parsers.

(** * Sample inputs *)

(** The tree html.parser builds for text without markup. *)
Definition plain_text_soup (s : str) : list node :=
  match s with
  | [] => []
  | _ => [Text s]
  end.

(** A parser that finds nothing. *)
Definition no_jobs (html email_date : str) : list app_parsers.job := [].

(** A French title and company, in capitals and in small letters: E with
    acute accent is U+00C9, e with acute accent U+00E9. *)
Definition title_capitals : str := u "D" ++ [201%N] ++ u "VELOPPEUR Senior".
Definition title_small : str := u "d" ++ [233%N] ++ u "veloppeur senior".
Definition company_capitals : str :=
  u "SOCI" ++ [201%N] ++ u "T" ++ [201%N] ++ u " G" ++ [233%N] ++ u "n"
  ++ [233%N] ++ u "rale".
Definition company_small : str :=
  u "soci" ++ [233%N] ++ u "t" ++ [233%N] ++ u " g" ++ [233%N] ++ u "n"
  ++ [233%N] ++ u "rale".

(** The LinkedIn alert of section 8 of the specification: one anchor to a
    job view, inside a cell whose text is
    [Senior Backend Engineer · Acme Corp · Remote]. *)
Definition scenario_url : str := u "https://www.linkedin.com/comm/jobs/view/123".

Definition scenario_html : str :=
  u "<td><a href=" ++ [34%N] ++ scenario_url ++ [34%N]
  ++ u ">Senior Backend Engineer</a> " ++ middle_dot ++ u " Acme Corp "
  ++ middle_dot ++ u " Remote</td>".

Definition scenario_soup : list node :=
  [Tag (u "td") ∅
     [Tag (u "a") {[ u "href" := scenario_url ]}
          [Text (u "Senior Backend Engineer")];
      Text (u " " ++ middle_dot ++ u " Acme Corp " ++ middle_dot ++ u " Remote")]].

(** A mailbox with that one alert, received from LinkedIn. *)
Definition scenario_gmail (query : str) : list (str * str) :=
  if str_eqb query (u "from:jobs-noreply@linkedin.com after:2026/01/01")
  then [(u "2026-01-05T09:00:00", scenario_html)]
  else [].

(** What a user and the scoring stage do to a row between two scans. *)
Definition mark_applied (r : local_app.row) : local_app.row :=
  {| local_app.r_title := local_app.r_title r;
     local_app.r_company := local_app.r_company r;
     local_app.r_location := local_app.r_location r;
     local_app.r_url := local_app.r_url r;
     local_app.r_source := local_app.r_source r;
     local_app.r_status := u "applied";
     local_app.r_score := 85;
     local_app.r_analysis := Some (u "{}");
     local_app.r_cover_letter := Some (u "Dear team");
     local_app.r_notes := local_app.r_notes r;
     local_app.r_raw_text := local_app.r_raw_text r;
     local_app.r_created_at := local_app.r_created_at r;
     local_app.r_updated_at := u "2026-01-06T10:00:00" |}.

(** An RSS item with a title, a link and a publication date. With
    [child], the title and link elements carry a child element besides
    their text. *)
Definition rss_item (child : bool) (title link : str) (pub_date : option str)
    : element :=
  let cs := if child then [Element (u "b") None []] else [] in
  Element (u "item") None
    ([ Element (u "title") (Some title) cs; Element (u "link") (Some link) cs ]
     ++ match pub_date with
        | Some d => [Element (u "pubDate") (Some d) []]
        | None => []
        end).

(** A feed document with the given items. *)
Definition rss (items : list element) : element :=
  Element (u "rss") None
    [Element (u "channel") None
       (Element (u "title") (Some (u "We Work Remotely")) [] :: items)].

(** A network on which the first feed answers with [root] and the others
    fail. *)
Definition one_feed (root : element) (feed_url : str) : option element :=
  if str_eqb feed_url
       (u "https://weworkremotely.com/categories/remote-programming-jobs.rss")
  then Some root
  else None.

(** Noon of 4 November 2026, the clock of the examples, one day before
    and ten days before, in microseconds. *)
Definition sample_now : Z := 1793793600000000.
Definition one_day_ago : Z := 1793707200000000.
Definition ten_days_ago : Z := 1792929600000000.

(** [parsedate_to_datetime] and [isoformat] on the dates of the examples. *)
Definition sample_parsedate (s : str) : option datetime :=
  if str_eqb s (u "Tue, 03 Nov 2026 12:00:00 +0000")
  then Some (Aware one_day_ago 0)
  else if str_eqb s (u "Sun, 25 Oct 2026 12:00:00 +0000")
  then Some (Aware ten_days_ago 0)
  else if str_eqb s (u "Tue, 03 Nov 2026 12:00:00 -0000")
  then Some (Naive one_day_ago)
  else if str_eqb s (u "Sun, 25 Oct 2026 12:00:00 -0000")
  then Some (Naive ten_days_ago)
  else None.

Definition sample_isoformat (dt : datetime) : str :=
  match dt with
  | Naive t =>
      if t =? sample_now then u "2026-11-04T12:00:00"
      else if t =? one_day_ago then u "2026-11-03T12:00:00"
      else u "2026-10-25T12:00:00"
  | Aware t _ =>
      if t =? one_day_ago then u "2026-11-03T12:00:00+00:00"
      else u "2026-10-25T12:00:00+00:00"
  end.

(** The feed item of section 8 of the specification, as ElementTree
    builds it, published one day ago. *)
Definition scenario_item : element :=
  rss_item false (u "Acme Corp: Backend Engineer")
    (u "https://weworkremotely.com/remote-jobs/acme-corp-backend-engineer")
    (Some (u "Tue, 03 Nov 2026 12:00:00 +0000")).

(** The same item with a child element in its title and in its link. *)
Definition marked_item : element :=
  rss_item true (u "Acme Corp: Backend Engineer")
    (u "https://weworkremotely.com/remote-jobs/acme-corp-backend-engineer")
    (Some (u "Tue, 03 Nov 2026 12:00:00 -0000")).

(** The record the scan builds for [marked_item]. *)
Definition marked_job : local_app.job :=
  {| local_app.job_id := u "b5e4869a65e2496e";
     local_app.title := u "Backend Engineer";
     local_app.company := u "Acme Corp";
     local_app.location := u "Remote";
     local_app.url :=
       u "https://weworkremotely.com/remote-jobs/acme-corp-backend-engineer";
     local_app.source := u "weworkremotely";
     local_app.raw_text := u "Acme Corp: Backend Engineer";
     local_app.description := Some (Some []);
     local_app.created_at := u "2026-11-03T12:00:00" |}.




(** A LinkedIn alert whose anchor has no enclosing cell, block or row:
    [<a href=".../comm/jobs/view/123">Backend Engineer</a>]. *)
Definition bare_link_html : str :=
  u "<a href=" ++ [34%N] ++ scenario_url ++ [34%N] ++ u ">Backend Engineer</a>".

Definition bare_link_soup : list node :=
  [Tag (u "a") {[ u "href" := scenario_url ]} [Text (u "Backend Engineer")]].

(** A LinkedIn alert whose anchor text ends in the character reference
    of a lone surrogate, [<a href=".../comm/jobs/view/123">Engineer
    &#xD83D;</a>]; the tree holds the code point U+D83D in the text of the
    anchor. *)
Definition surrogate_link_html : str :=
  u "<a href=" ++ [34%N] ++ scenario_url ++ [34%N]
  ++ u ">Engineer &#xD83D;</a>".

Definition surrogate_link_soup : list node :=
  [Tag (u "a") {[ u "href" := scenario_url ]}
       [Text (u "Engineer " ++ [55357%N])]].

(** The alert of the scenario with such a reference after the anchor
    instead of the company and the location,
    [<td><a href="...">Senior Backend Engineer</a> &#xD83D;</td>]: the text
    of the cell holds U+D83D. *)
Definition surrogate_cell_html : str :=
  u "<td><a href=" ++ [34%N] ++ scenario_url ++ [34%N]
  ++ u ">Senior Backend Engineer</a> &#xD83D;</td>".

Definition surrogate_cell_soup : list node :=
  [Tag (u "td") ∅
     [Tag (u "a") {[ u "href" := scenario_url ]}
          [Text (u "Senior Backend Engineer")];
      Text (u " " ++ [55357%N])]].

(** The trees of the sample alerts. *)
Definition sample_BeautifulSoup (html : str) : list node :=
  if str_eqb html scenario_html then scenario_soup
  else if str_eqb html surrogate_link_html then surrogate_link_soup
  else if str_eqb html surrogate_cell_html then surrogate_cell_soup
  else if str_eqb html bare_link_html then bare_link_soup
  else plain_text_soup html.

(** A mailbox with that one alert, received from LinkedIn. *)
Definition surrogate_gmail (query : str) : list (str * str) :=
  if str_eqb query (u "from:jobs-noreply@linkedin.com after:2026/01/01")
  then [(u "2026-01-05T09:00:00", surrogate_cell_html)]
  else [].

(** The record [local_app.parse_linkedin_jobs] builds for the alert of
    the scenario, received on 5 January 2026. *)
Definition scenario_local_job : local_app.job :=
  {| local_app.job_id := u "9677f89a7ab4989b";
     local_app.title := u "Senior Backend Engineer";
     local_app.company := [];
     local_app.location := [];
     local_app.url := scenario_url;
     local_app.source := u "linkedin";
     local_app.raw_text :=
       u "Senior Backend Engineer " ++ middle_dot ++ u " Acme Corp "
       ++ middle_dot ++ u " Remote";
     local_app.description := None;
     local_app.created_at := u "2026-01-05T09:00:00" |}.

(** A capture of the job of the scenario from its page. *)
Definition capture_request : json :=
  JDict {[ u "url" := JStr scenario_url;
           u "title" := JStr (u "Senior Backend Engineer");
           u "company" := JStr (u "Acme Corp");
           u "description" := JStr (u "We build payment systems.") ]}.

(** [str] on the JSON values that are not text and hold none: [None],
    the truth values and the integers up to 9 (the other values are not
    used in the examples). *)
Definition sample_str_of (v : json) : str :=
  match v with
  | JNull => u "None"
  | JBool true => u "True"
  | JBool false => u "False"
  | JInt n => if (0 <=? n) && (n <=? 9) then [Z.to_N (48 + n)] else u "?"
  | _ => u "?"
  end.

(** The table after the scan of the scenario and a user's edit. *)
Definition scanned_table : gmap str local_app.row :=
  mark_applied
  <$> (local_app.api_scan (fun _ => scenario_soup) scenario_gmail
         (u "2026/01/01") (u "2026-01-05T12:00:00") ∅).1.

(** A multipart message: a plain-text part, then an HTML part, each
    with its data in URL-safe base64. *)
Definition alternative_message : payload :=
  Payload (u "multipart/alternative") None
    (Some [ Payload (u "text/plain") (Some (u "cGxhaW4=")) None;
            Payload (u "text/html") (Some (u "PGI-aHRtbDwvYj4=")) None ]).

(** The decoder on the two data of [alternative_message], which encode
    [plain] and [<b>html</b>]; no other data is used in the examples. *)
Definition sample_decode (data : str) : option str :=
  if str_eqb data (u "cGxhaW4=") then Some (u "plain")
  else if str_eqb data (u "PGI-aHRtbDwvYj4=") then Some (u "<b>html</b>")
  else None.

(** The record the e-mail scanner builds for the alert of the scenario. *)
Definition scenario_scanner_job : email_scanner.job :=
  {| email_scanner.job_id := u "e80df59dadccbcde";
     email_scanner.title := u "Senior Backend Engineer";
     email_scanner.company := u "Acme Corp";
     email_scanner.location := u "Remote";
     email_scanner.url := scenario_url;
     email_scanner.source := u "linkedin";
     email_scanner.email_date := u "2026-01-05T09:00:00";
     email_scanner.raw_text :=
       u "Senior Backend Engineer " ++ middle_dot ++ u " Acme Corp "
       ++ middle_dot ++ u " Remote";
     email_scanner.status := shared.NEW;
     email_scanner.score := 0 |}.

(** * Predicates of the properties *)

(** An entry of [lower_table] that maps no code point to or from a
    surrogate. *)
Definition entry_ok (e : N * N * N * Z) : bool :=
  let '(lo, hi, step, delta) := e in
  ((hi <? 55296)%N && (Z.of_N hi + delta <? 55296) && (0 <=? Z.of_N lo + delta))
  || ((57343 <? lo)%N && (57343 <? Z.of_N lo + delta)).

(** The field bounds of a record of [local_app]'s e-mail parsers. *)
Definition local_bounded (j : local_app.job) : Prop :=
  (length (local_app.title j) <= 200)%nat
  /\ (length (local_app.company j) <= 100)%nat
  /\ (length (local_app.location j) <= 100)%nat
  /\ (length (local_app.raw_text j) <= 1000)%nat.

(** The field bounds of a record of the e-mail scanner. *)
Definition scanner_bounded (j : email_scanner.job) : Prop :=
  (length (email_scanner.title j) <= 200)%nat
  /\ (length (email_scanner.company j) <= 100)%nat
  /\ (length (email_scanner.location j) <= 100)%nat
  /\ (length (email_scanner.raw_text j) <= 1000)%nat.





(** The lines of the block around an anchor as the Indeed parsers of
    [local_app.py] and of the e-mail scanner read them. *)
Definition block_lines (parent : node) : list str :=
  map strip
    (filter (fun l => negb (str_eqb (strip l) []))
            (split newline (get_text newline parent))).


Section Defaults.

(** A record type with its address, company and location. *)
Context {J : Type}.
Variables (url company location : J -> str).

(** The company and the location of a record that a LinkedIn e-mail
    parser builds from one of the anchors [links], where nothing is
    resolved: both are empty when no cell, block or row encloses the
    anchor; the company is empty when the text of the block has no second
    segment, the location when it has no third. *)
Definition linkedin_defaults (containers : list str) (separator : str)
    (links : list located) (j : J) : Prop :=
  exists link,
    link ∈ links
    /\ url j = attr_get (here link) (u "href") []
    /\ match find_parent containers link with
       | None => company j = [] /\ location j = []
       | Some parent =>
           let parts := split separator (get_text_strip (u " ") parent) in
           ((length parts <= 1)%nat -> company j = [])
           /\ ((length parts <= 2)%nat -> location j = [])
       end.

(** The same for an Indeed e-mail parser, which reads the company off the
    second line of the block and the location off the third. *)
Definition indeed_defaults (containers : list str)
    (links : list located) (j : J) : Prop :=
  exists link,
    link ∈ links
    /\ url j = attr_get (here link) (u "href") []
    /\ match find_parent containers link with
       | None => company j = [] /\ location j = []
       | Some parent =>
           let lines := block_lines parent in
           ((length lines <= 1)%nat -> company j = [])
           /\ ((length lines <= 2)%nat -> location j = [])
       end.

End Defaults.


(** The turn the merge loops share: look the key up, insert and count
    when no record answers. *)
Definition insert_if_absent `{Countable K} {J V : Type}
    (key : J -> K) (mk : J -> V) (st : gmap K V * Z) (j : J) : gmap K V * Z :=
  match st.1 !! key j with
  | Some _ => st
  | None => (<[ key j := mk j ]> st.1, st.2 + 1)
  end.

(** Whether the statements of [api_scan] can bind the texts of a job. *)
Definition scan_binds (j : local_app.job) : bool :=
  bindable (local_app.job_id j)
  && forallb bindable
       [ local_app.title j; local_app.company j; local_app.location j;
         local_app.url j; local_app.source j; local_app.raw_text j;
         local_app.created_at j ].

(** The row [api_scan] inserts for a job. *)
Definition scan_row (now : str) (j : local_app.job) : local_app.row :=
  {| local_app.r_title := local_app.title j;
     local_app.r_company := local_app.company j;
     local_app.r_location := local_app.location j;
     local_app.r_url := local_app.url j;
     local_app.r_source := local_app.source j;
     local_app.r_status := u "new";
     local_app.r_score := 0;
     local_app.r_analysis := None;
     local_app.r_cover_letter := None;
     local_app.r_notes := None;
     local_app.r_raw_text := Some (local_app.raw_text j);
     local_app.r_created_at := local_app.created_at j;
     local_app.r_updated_at := now |}.

(** What every record of an e-mail parser of [local_app.py] carries: an
    address in which the parser's link pattern is found, the parser's
    source tag, the date of the e-mail, no description, a title of at
    least three characters, and the id of its address, its full title and
    its company. *)
Definition local_shaped (pattern : regex) (tag email_date : str)
    (j : local_app.job) : Prop :=
  re_search pattern (local_app.url j) = true
  /\ local_app.source j = tag
  /\ local_app.created_at j = email_date
  /\ local_app.description j = None
  /\ (3 <= length (local_app.title j))%nat
  /\ exists full,
       local_app.title j = take 200 full
       /\ generate_job_id (local_app.url j) full (local_app.company j)
          = Some (local_app.job_id j).

(** The same for the e-mail scanner, whose records start with the status
    [NEW] and the score 0. *)
Definition scanner_shaped (pattern : regex) (tag email_date : str)
    (j : email_scanner.job) : Prop :=
  re_search pattern (email_scanner.url j) = true
  /\ email_scanner.source j = tag
  /\ email_scanner.email_date j = email_date
  /\ email_scanner.status j = shared.NEW
  /\ email_scanner.score j = 0
  /\ (3 <= length (email_scanner.title j))%nat
  /\ exists full,
       email_scanner.title j = take 200 full
       /\ email_scanner.job_id j
          = shared.generate_job_id (email_scanner.url j) full
              (email_scanner.company j).

(** Two rows that agree on every column but [status], [score],
    [analysis] and [updated_at]. *)
Definition same_but_scoring (r r' : local_app.row) : Prop :=
  local_app.r_title r' = local_app.r_title r
  /\ local_app.r_company r' = local_app.r_company r
  /\ local_app.r_location r' = local_app.r_location r
  /\ local_app.r_url r' = local_app.r_url r
  /\ local_app.r_source r' = local_app.r_source r
  /\ local_app.r_cover_letter r' = local_app.r_cover_letter r
  /\ local_app.r_notes r' = local_app.r_notes r
  /\ local_app.r_raw_text r' = local_app.r_raw_text r
  /\ local_app.r_created_at r' = local_app.r_created_at r.

(** Two rows that agree on every column but [cover_letter] and
    [updated_at]. *)
Definition same_but_letter (r r' : local_app.row) : Prop :=
  local_app.r_title r' = local_app.r_title r
  /\ local_app.r_company r' = local_app.r_company r
  /\ local_app.r_location r' = local_app.r_location r
  /\ local_app.r_url r' = local_app.r_url r
  /\ local_app.r_source r' = local_app.r_source r
  /\ local_app.r_status r' = local_app.r_status r
  /\ local_app.r_score r' = local_app.r_score r
  /\ local_app.r_analysis r' = local_app.r_analysis r
  /\ local_app.r_notes r' = local_app.r_notes r
  /\ local_app.r_raw_text r' = local_app.r_raw_text r
  /\ local_app.r_created_at r' = local_app.r_created_at r.

(** A part without nested parts. *)
Definition flat_part (part : payload) : Prop := payload_parts part = None.

(** A part that is not a [text/html] part with data. *)
Definition not_html_data (part : payload) : Prop :=
  str_eqb (payload_mime part) (u "text/html") = false
  \/ payload_data part = None.

(** What every record of [IndeedParser.parse] carries: an address that is
    not empty and is the cleaned [href] of an anchor the link pattern
    matches, the source tag and the date of the e-mail. *)
Definition indeed_shaped (clean_job_url : str -> str) (email_date : str)
    (j : app_parsers.job) : Prop :=
  app_parsers.url j <> []
  /\ (exists href, re_search app_parsers.Indeed.href href = true
                   /\ app_parsers.url j = clean_job_url href)
  /\ app_parsers.source j = u "indeed"
  /\ app_parsers.created_at j = email_date
  /\ app_parsers.email_date j = email_date.

(** * Properties *)

(** ** Library models on known values *)

Example sha256_abc :
  Sha256.hexdigest <$> encode (u "abc")
  = Some (u "ba7816bf8f01cfea414140de5dae2223b00361a396177a9cb410ff61f20015ad").
Proof. vm_compute. reflexivity. Qed.

Example sha256_two_blocks :
  Sha256.hexdigest (repeat 97 100)
  = u "2816597888e4a0d3a36b82b83316ab32680eb8f00f8cd3b904d681246d285a0e".
Proof. vm_compute. reflexivity. Qed.

Example sha256_pad_boundaries :
  map (fun n => take 16 (Sha256.hexdigest (repeat 97 n))) [55; 56; 64]%nat
  = [u "9f4390f8d30c2dd9"; u "b35439a4ac6f0948"; u "ffe054fe7ae0cb6d"].
Proof. vm_compute. reflexivity. Qed.

(** [str.lower()] on DEVELOPPEUR with an acute accent, on two Greek words
    that end in a capital sigma, on a word that starts with the dotted
    capital I, and on a marker spelt with the Kelvin sign. *)
Example lower_demo :
  lower [68; 201; 86; 69; 76; 79; 80; 80; 69; 85; 82]%N = [100; 233; 118; 101; 108; 111; 112; 112; 101; 117; 114]%N
  /\ lower [927; 916; 927; 931; 32; 931; 913; 931]%N = [959; 948; 959; 962; 32; 963; 945; 962]%N
  /\ lower [304; 115; 116; 97; 110; 98; 117; 108]%N = [105; 775; 115; 116; 97; 110; 98; 117; 108]%N
  /\ lower [108; 105; 110; 8490; 101; 100; 105; 110; 46; 99; 111; 109; 47; 106; 111; 98; 115; 47; 118; 105; 101; 119; 47; 49]%N = [108; 105; 110; 107; 101; 100; 105; 110; 46; 99; 111; 109; 47; 106; 111; 98; 115; 47; 118; 105; 101; 119; 47; 49]%N.
Proof. vm_compute. repeat split; reflexivity. Qed.

(** [\d] matches the decimal digits of every script, [[0-9]] the ASCII
    ones; [\s] and [str.strip] take the no-break space as white space. *)
Example classes_demo :
  map is_decimal [51; 1635; 2411; 65; 178]%N = [true; true; true; false; false]
  /\ map is_digit [51; 1635; 2411; 65; 178]%N = [true; false; false; false; false]
  /\ strip ([160%N] ++ u " a b" ++ [160; 8195]%N) = u "a b".
Proof. vm_compute. repeat split; reflexivity. Qed.

Example soup_demo :
  let a := Tag (u "a") {[ u "href" := u "https://www.linkedin.com/comm/jobs/view/1" ]}
               [Tag (u "span") ∅ [Text (u " Dev ")]; Text (u "x")] in
  let soup := [Tag (u "td") ∅ [a; Text (u " | Acme ")]] in
  map (fun l => (attr_get (here l) (u "href") [],
                 find [u "h2"; u "span"] l,
                 option_map (get_text_strip (u " ")) (find_parent [u "td"] l)))
      (find_all_links (lit (u "linkedin.com/comm/jobs/view")) soup)
  = [(u "https://www.linkedin.com/comm/jobs/view/1",
      Some (Tag (u "span") ∅ [Text (u " Dev ")]),
      Some (u "Dev x | Acme"))].
Proof. vm_compute. reflexivity. Qed.

Example split_demo :
  split middle_dot (u "a " ++ middle_dot ++ u " b " ++ middle_dot) = [u "a "; u " b "; []]
  /\ split1 (u ":") (u "a:b:c") = [u "a"; u "b:c"]
  /\ split1 (u ":") (u "abc") = [u "abc"]
  /\ words (u "  a  b c ") = [u "a"; u "b"; u "c"]
  /\ strip (u "  a b  ") = u "a b"
  /\ re_match app_parsers.Indeed.rating (u "4.5 12 reviews") = true
  /\ re_match app_parsers.Indeed.rating (u "4 stars") = false
  /\ re_match app_parsers.Indeed.rating ([1636; 46; 1637; 32; 1633; 1634]%N ++ u " reviews") = true.
Proof. vm_compute. repeat split; reflexivity. Qed.

(** The statements of [api_scan] name columns the table has; the
    [INSERT] of [api_scan_wwr] and the [UPDATE] and the [INSERT] of
    [api_capture] name [description], which it lacks, and cannot be
    prepared. *)
Example statements_prepared :
  local_app.prepares local_app.scan_insert_columns = true
  /\ local_app.prepares local_app.wwr_insert_columns = false
  /\ local_app.prepares local_app.capture_update_columns = false
  /\ local_app.prepares local_app.capture_insert_columns = false
  /\ (u "description" ∉ local_app.jobs_columns).
Proof.
  split; [vm_compute; reflexivity |]. split; [vm_compute; reflexivity |].
  split; [vm_compute; reflexivity |]. split; [vm_compute; reflexivity |].
  intros H. apply (bool_decide_pack _) in H. vm_compute in H. exact H.
Qed.

(** ** Identity generator *)

Lemma hex_word_length (x : Z) : length (Sha256.hex_word x) = 8%nat.
Proof. reflexivity. Qed.

Lemma hexdigest_length (msg : list Z) : length (Sha256.hexdigest msg) = 64%nat.
Proof.
  unfold Sha256.hexdigest. cbv zeta.
  repeat rewrite length_app. repeat rewrite hex_word_length. reflexivity.
Qed.

Lemma nibble_range (x : Z) : 0 <= Z.land x 15 < 16.
Proof.
  change 15 with (Z.ones 4). rewrite Z.land_ones by lia.
  apply Z.mod_pos_bound. lia.
Qed.

Lemma hex_digit_is_hex (x : Z) : 0 <= x < 16 -> is_hex (Sha256.hex_digit x) = true.
Proof.
  intros Hx. unfold Sha256.hex_digit, is_hex.
  destruct (x <? 10) eqn:E.
  - apply Z.ltb_lt in E.
    assert (H : (48 <= Z.to_N (48 + x) <= 57)%N) by lia.
    destruct H as [H1 H2].
    apply N.leb_le in H1. apply N.leb_le in H2. rewrite H1, H2. reflexivity.
  - apply Z.ltb_ge in E.
    assert (H : (97 <= Z.to_N (87 + x) <= 102)%N) by lia.
    destruct H as [H1 H2].
    apply N.leb_le in H1. apply N.leb_le in H2. rewrite H1, H2.
    apply orb_true_r.
Qed.

Lemma hex_word_is_hex (x : Z) : Forall (fun c => is_hex c = true) (Sha256.hex_word x).
Proof.
  unfold Sha256.hex_word.
  apply Forall_forall. intros c Hc.
  apply list_elem_of_In in Hc. apply in_map_iff in Hc.
  destruct Hc as [i [<- _]]. apply hex_digit_is_hex, nibble_range.
Qed.

Lemma hexdigest_is_hex (msg : list Z) :
  Forall (fun c => is_hex c = true) (Sha256.hexdigest msg).
Proof.
  unfold Sha256.hexdigest. cbv zeta.
  repeat (apply Forall_app; split); apply hex_word_is_hex.
Qed.

(** Lower-casing neither makes nor removes a surrogate. *)
Lemma lower_lookup_surrogate (table : list (N * N * N * Z)) (c : N) :
  forallb entry_ok table = true ->
  is_surrogate (lower_lookup table c) = is_surrogate c.
Proof.
  induction table as [| [[[lo hi] step] delta] table IH]; intros H;
    [reflexivity |].
  cbn [forallb] in H. apply andb_prop in H. destruct H as [He H].
  cbn [lower_lookup].
  destruct (c <? lo)%N eqn:E1; [reflexivity |].
  destruct ((c <=? hi) && ((c - lo) mod step =? 0))%N eqn:E2; [| apply IH, H].
  apply andb_prop in E2. destruct E2 as [E2 _].
  apply N.ltb_ge in E1. apply N.leb_le in E2.
  unfold entry_ok in He. unfold is_surrogate.
  apply orb_prop in He. destruct He as [He | He].
  - apply andb_prop in He. destruct He as [He H3].
    apply andb_prop in He. destruct He as [H1 H2].
    apply N.ltb_lt in H1. apply Z.ltb_lt in H2. apply Z.leb_le in H3.
    assert (A : (Z.to_N (Z.of_N c + delta) <= 57343)%N) by lia.
    assert (B : (c <= 57343)%N) by lia.
    apply N.leb_le in A. apply N.leb_le in B. rewrite A, B, !andb_true_r.
    assert (A' : (Z.to_N (Z.of_N c + delta) < 55296)%N) by lia.
    assert (B' : (c < 55296)%N) by lia.
    apply N.leb_gt in A'. apply N.leb_gt in B'. rewrite A', B'. reflexivity.
  - apply andb_prop in He. destruct He as [H1 H2].
    apply N.ltb_lt in H1. apply Z.ltb_lt in H2.
    assert (A : (57343 < Z.to_N (Z.of_N c + delta))%N) by lia.
    assert (B : (57343 < c)%N) by lia.
    apply N.leb_gt in A. apply N.leb_gt in B. rewrite A, B, !andb_false_r.
    reflexivity.
Qed.

Lemma lower_char_surrogate (c : N) :
  is_surrogate (lower_char c) = is_surrogate c.
Proof. apply lower_lookup_surrogate. vm_compute. reflexivity. Qed.

Lemma lower_go_surrogate (before s : str) :
  existsb is_surrogate (lower_go before s) = existsb is_surrogate s.
Proof.
  revert before. induction s as [| c s IH]; intros before; [reflexivity |].
  cbn [lower_go]. rewrite existsb_app, IH. cbn [existsb]. f_equal.
  destruct (c =? 931)%N eqn:E1.
  { apply N.eqb_eq in E1. subst c. destruct (final_sigma before s); reflexivity. }
  destruct (c =? 304)%N eqn:E2.
  { apply N.eqb_eq in E2. subst c. reflexivity. }
  cbn [existsb]. rewrite orb_false_r. apply lower_char_surrogate.
Qed.

Lemma existsb_Exists {A : Type} (p : A -> bool) (l : list A) :
  existsb p l = true <-> Exists (fun x => p x = true) l.
Proof.
  rewrite existsb_exists, Exists_exists. split; intros (x & Hx & Hp);
    exists x; (split; [apply list_elem_of_In, Hx | exact Hp]).
Qed.

(** [generate_job_id] raises exactly when one of the three strings holds
    a surrogate. *)
Lemma generate_job_id_raises (url title company : str) :
  generate_job_id url title company = None
  <-> Exists (fun c => is_surrogate c = true) (url ++ title ++ company).
Proof.
  unfold generate_job_id, encode, lower. cbv zeta.
  rewrite lower_go_surrogate, <- existsb_Exists.
  rewrite !existsb_app. change (existsb is_surrogate (u ":")) with false.
  rewrite !orb_false_l.
  destruct (existsb is_surrogate url || (existsb is_surrogate title
            || existsb is_surrogate company)); split; congruence.
Qed.

(** What [generate_job_id] returns is what the generator of the
    specification gives. *)
Lemma generate_job_id_identity (url title company id : str) :
  generate_job_id url title company = Some id ->
  id = generate_id url title company.
Proof.
  unfold generate_job_id, generate_id, encode. cbv zeta.
  destruct (existsb is_surrogate _); [discriminate |]. intros [= <-]. reflexivity.
Qed.

(** C2 (as amended). [generate_job_id] is a function of the three strings
    alone. It raises when one of them holds a surrogate code point, which
    UTF-8 cannot encode, and only then. Otherwise it returns the first 16
    characters of the hexadecimal SHA-256 digest of the UTF-8 encoding of
    the lower-cased composite [url:title:company]: 16 lower-case
    hexadecimal digits, the id the generator of the specification gives,
    and the id of every triple with the same lower-cased composite. On the
    job of the scenario, on a French title and company in capitals and in
    small letters, and on two triples that differ in where the colons
    fall, it gives the ids [hashlib] gives. *)
Theorem generate_job_id_deterministic (url title company : str) :
  let content := lower (url ++ u ":" ++ title ++ u ":" ++ company) in
  (generate_job_id url title company = None
   <-> Exists (fun c => is_surrogate c = true) (url ++ title ++ company))
  /\ (forall id,
        generate_job_id url title company = Some id ->
        (exists data,
           encode content = Some data
           /\ id = take 16 (Sha256.hexdigest data))
        /\ length id = 16%nat
        /\ Forall (fun c => is_hex c = true) id
        /\ id = generate_id url title company
        /\ forall url' title' company',
             lower (url' ++ u ":" ++ title' ++ u ":" ++ company') = content ->
             generate_job_id url' title' company' = Some id)
  /\ generate_job_id scenario_url (u "Senior Backend Engineer") (u "Acme Corp")
     = Some (u "e80df59dadccbcde")
  /\ generate_job_id (u "HTTPS://Example.COM/Jobs/42") title_capitals
       company_capitals
     = Some (u "446ce17f4bcb335e")
  /\ generate_job_id (u "https://example.com/jobs/42") title_small
       company_small
     = Some (u "446ce17f4bcb335e")
  /\ generate_job_id (u "a:b") (u "c") (u "d") = Some (u "d252cd6d29660d0e")
  /\ generate_job_id (u "a") (u "b:c") (u "d") = Some (u "d252cd6d29660d0e").
Proof.
  cbv zeta. split; [apply generate_job_id_raises |].
  split;
    [| split; [| split; [| split; [| split]]]; vm_compute; reflexivity].
  intros id H. pose proof (generate_job_id_identity _ _ _ _ H) as Hid.
  unfold generate_job_id in H. cbv zeta in H.
  destruct (encode (lower (url ++ u ":" ++ title ++ u ":" ++ company)))
    as [data |] eqn:E; [| discriminate].
  apply (f_equal (fun o => match o with Some x => x | None => [] end)) in H.
  cbv beta iota in H. subst id.
  split; [exists data; split; reflexivity |].
  split; [rewrite length_take, hexdigest_length; reflexivity |].
  split; [apply Forall_take, hexdigest_is_hex |].
  split; [exact Hid |].
  intros url' title' company' H'. unfold generate_job_id. cbv zeta.
  rewrite H', E. reflexivity.
Qed.

(** C2, counterexample. A title that holds the lone surrogate U+D83D
    (half of an emoji, as a JSON escape gives it) has no id: the encoding
    raises. *)
Lemma generate_job_id_rejects_surrogate :
  generate_job_id (u "https://example.com/jobs/1") (u "Engineer " ++ [55357%N])
    (u "Acme")
  = None.
Proof. vm_compute. reflexivity. Qed.

Example generate_job_id_mixed :
  generate_job_id (u "https://WeWorkRemotely.com/jobs/1") (u "Backend Engineer")
                  (u "Acme Corp" ++ [183; 8721]%N)
  = Some (u "b8ebf50a58076c8e").
Proof. vm_compute. reflexivity. Qed.

(** ** Capture endpoint *)

Lemma first_marker_container (markers : list (str * str)) (url source : json) :
  container url = true ->
  exists s, local_app.first_marker markers url source = Some s.
Proof.
  intros Hc. induction markers as [| [marker name] markers IH].
  - exists source. reflexivity.
  - cbn [local_app.first_marker].
    destruct url; try discriminate; cbn [json_in].
    + destruct (contains marker s); eauto.
    + destruct (existsb _ items); eauto.
    + destruct (bool_decide _); eauto.
Qed.

Lemma first_marker_no_container (url source : json) :
  container url = false -> local_app.capture_source url source = None.
Proof. destruct url; try discriminate; reflexivity. Qed.

(** C10, at the failing input. [api_capture] returns the table as it was
    whatever the request. A request whose [url] is absent, a text, a list
    or a dictionary, and whose [url] or [title] is missing or empty, is
    answered with the error body and status 400. But the tests that
    detect the source run before that guard and search [url]: when [url]
    is [null], a truth value or a number the first of them raises
    [TypeError], and the request is answered 500 even though its title is
    missing. *)
Theorem api_capture_rejects_incomplete
    (str_of : json -> str) (now : str) (conn : gmap str local_app.row) :
  (forall data, (local_app.api_capture str_of data now conn).1 = conn)
  /\ (forall members : gmap str json,
        let url := local_app.data_get members (u "url") (JStr []) in
        let title := local_app.data_get members (u "title") (JStr []) in
        container url = true ->
        truthy url = false \/ truthy title = false ->
        (local_app.api_capture str_of (JDict members) now conn).2
        = Some (Response [ (u "error", JStr (u "url and title required")) ]
                         400))
  /\ (forall (members : gmap str json) (url : json),
        members !! u "url" = Some url ->
        container url = false ->
        (local_app.api_capture str_of (JDict members) now conn).2 = None)
  /\ local_app.api_capture str_of (JDict {[ u "url" := JNull ]}) now conn
     = (conn, None).
Proof.
  split; [| split; [| split]].
  - intros data. unfold local_app.api_capture.
    destruct data; try reflexivity. cbv zeta.
    destruct (local_app.capture_source _ _); [| reflexivity].
    destruct (negb _ || negb _); [reflexivity |].
    destruct (generate_job_id _ _ _) as [job_id |]; [| reflexivity].
    destruct (conn !! job_id); reflexivity.
  - intros members. cbv zeta. intros Hc Hm. unfold local_app.api_capture.
    cbv zeta.
    destruct (first_marker_container local_app.capture_markers _
                (local_app.data_get members (u "source") (JStr (u "extension")))
                Hc) as [s Hs].
    unfold local_app.capture_source. rewrite Hs.
    assert (E : negb (truthy (local_app.data_get members (u "url") (JStr [])))
                || negb (truthy (local_app.data_get members (u "title") (JStr [])))
                = true).
    { destruct Hm as [-> | ->]; [reflexivity | apply orb_true_r]. }
    rewrite E. reflexivity.
  - intros members url Hu Hc. unfold local_app.api_capture. cbv zeta.
    assert (E : local_app.data_get members (u "url") (JStr []) = url)
      by (unfold local_app.data_get; rewrite Hu; reflexivity).
    rewrite E, (first_marker_no_container _ _ Hc). reflexivity.
  - reflexivity.
Qed.

(** ** Source resolution *)

(** C5 (as amended). When no source hint is given and the detector matches
    no marker, or the hint given is not a registered source, [parse_email]
    returns the empty list, the value of a parse that found no job, and
    leaves the cache of parser instances as it was. *)
Theorem parse_email_unrecognized_is_empty
    (BeautifulSoup : str -> list node) (clean_job_url : str -> str)
    (linkedin greenhouse wellfound wwr : str -> str -> list app_parsers.job)
    (html email_date : str) (source : option str)
    (instances : gmap str app_parsers.parser) :
  (source = None /\ app_parsers.detect_source html = None)
  \/ (exists hint, source = Some hint
                   /\ app_parsers.PARSER_REGISTRY !! hint = None) ->
  app_parsers.parse_email BeautifulSoup clean_job_url
    linkedin greenhouse wellfound wwr html email_date source instances
  = ([], instances).
Proof.
  intros [[-> Hd] | [hint [-> Hr]]]; unfold app_parsers.parse_email.
  - rewrite Hd. reflexivity.
  - unfold app_parsers.get_parser. rewrite Hr. reflexivity.
Qed.

Lemma parse_email_unrecognized_is_empty_witness :
  app_parsers.parse_email plain_text_soup id no_jobs no_jobs no_jobs no_jobs
    (u "Your weekly digest") (u "2026-01-01T00:00:00") (Some (u "monster")) ∅
  = ([], ∅).
Proof.
  apply parse_email_unrecognized_is_empty.
  right. exists (u "monster"). split; [reflexivity |]. vm_compute. reflexivity.
Defined.

(** C5, counterexample. An e-mail no marker matches and an Indeed e-mail
    without job links give the caller the same value, the empty list: the
    unrecognised source is not told apart from a parse that found nothing. *)
Lemma parse_email_unrecognized_not_distinguished :
  let run html source :=
    fst (app_parsers.parse_email plain_text_soup id
           no_jobs no_jobs no_jobs no_jobs
           html (u "2026-01-01T00:00:00") source ∅) in
  app_parsers.detect_source (u "Your weekly digest") = None
  /\ app_parsers.detect_source (u "Nothing new on indeed.com/viewjob today")
     = Some (u "indeed")
  /\ run (u "Your weekly digest") None
     = run (u "Nothing new on indeed.com/viewjob today") None
  /\ run (u "Your weekly digest") (Some (u "monster"))
     = run (u "Nothing new on indeed.com/viewjob today") None.
Proof. vm_compute. repeat split; reflexivity. Qed.

(** ** Merge against the stored jobs *)

Section InsertIfAbsent.

Context `{Countable K} {J V : Type}.
Variable key : J -> K.
Variable mk : J -> V.

#[local] Abbreviation merge := (fold_left (insert_if_absent key mk)).

Lemma merge_cons (j : J) (jobs : list J) (st : gmap K V * Z) :
  merge (j :: jobs) st = merge jobs (insert_if_absent key mk st j).
Proof. reflexivity. Qed.

Lemma merge_frame (jobs : list J) (st : gmap K V * Z) (i : K) (v : V) :
  st.1 !! i = Some v -> (merge jobs st).1 !! i = Some v.
Proof.
  revert st. induction jobs as [| j jobs IH]; intros st Hi; [exact Hi |].
  rewrite merge_cons. apply IH. unfold insert_if_absent.
  destruct (st.1 !! key j) eqn:E; [exact Hi |].
  cbn [fst]. rewrite lookup_insert_ne; [exact Hi |]. congruence.
Qed.

Lemma merge_dom (jobs : list J) (st : gmap K V * Z) :
  dom (merge jobs st).1 = dom st.1 ∪ list_to_set (key <$> jobs).
Proof.
  revert st. induction jobs as [| j jobs IH]; intros st.
  - cbn. set_solver.
  - rewrite merge_cons, IH. unfold insert_if_absent.
    destruct (st.1 !! key j) eqn:E; cbn [fst fmap list_fmap list_to_set].
    + assert (key j ∈ dom st.1) by (apply elem_of_dom; eauto). set_solver.
    + rewrite dom_insert_L. set_solver.
Qed.



(** A record the loop adds comes from the first job of the batch that has
    its key. *)
Lemma merge_first (jobs : list J) (st : gmap K V * Z) (i : K) (v : V) :
  st.1 !! i = None ->
  (merge jobs st).1 !! i = Some v ->
  exists before j after,
    jobs = before ++ j :: after
    /\ key j = i
    /\ Forall (fun j' => key j' <> i) before
    /\ v = mk j.
Proof.
  revert st. induction jobs as [| j jobs IH]; intros st Hn Hv.
  - cbn in Hv. congruence.
  - rewrite merge_cons in Hv.
    destruct (decide (key j = i)) as [E | E].
    + exists [], j, jobs. split; [reflexivity |]. split; [exact E |].
      split; [constructor |].
      assert (Hi : (insert_if_absent key mk st j).1 !! i = Some (mk j)).
      { unfold insert_if_absent. rewrite E, Hn. cbn [fst].
        apply lookup_insert_eq. }
      rewrite (merge_frame _ _ _ _ Hi) in Hv. congruence.
    + destruct (IH (insert_if_absent key mk st j)) as (b & j' & a & -> & Hk & Hb & ->).
      * unfold insert_if_absent. destruct (st.1 !! key j); [exact Hn |].
        cbn [fst]. rewrite lookup_insert_ne; [exact Hn | exact E].
      * exact Hv.
      * exists (j :: b), j', a. split; [reflexivity |]. split; [exact Hk |].
        split; [constructor; assumption | reflexivity].
Qed.

Lemma merge_ext (step : gmap K V * Z -> J -> gmap K V * Z) :
  (forall st j, step st j = insert_if_absent key mk st j) ->
  forall jobs st, fold_left step jobs st = merge jobs st.
Proof.
  intros Hs jobs. induction jobs as [| j jobs IH]; intros st; [reflexivity |].
  cbn [fold_left]. rewrite Hs. apply IH.
Qed.

End InsertIfAbsent.


(** The turns of the loop of [api_scan] that return. *)
Lemma scan_step_returns (now : str) st j st' :
  local_app.scan_step now st j = Some st' ->
  st' = insert_if_absent local_app.job_id (scan_row now) st j
  /\ bindable (local_app.job_id j) = true.
Proof.
  destruct st as [conn k]. unfold local_app.scan_step, insert_if_absent.
  cbn [fst snd].
  destruct (bindable (local_app.job_id j)); [| discriminate]. cbn [negb].
  destruct (conn !! local_app.job_id j).
  - intros [= <-]. split; reflexivity.
  - destruct (forallb _ _); [| discriminate].
    intros [= <-]. split; reflexivity.
Qed.

Lemma scan_loop_returns (now : str) (jobs : list local_app.job) st st' :
  for_each (local_app.scan_step now) jobs st = Some st' ->
  st' = fold_left (insert_if_absent local_app.job_id (scan_row now)) jobs st
  /\ Forall (fun j => bindable (local_app.job_id j) = true) jobs.
Proof.
  revert st. induction jobs as [| j jobs IH]; intros st H.
  - injection H as <-. split; [reflexivity | constructor].
  - cbn [for_each] in H.
    destruct (local_app.scan_step now st j) as [s1 |] eqn:E; [| discriminate].
    apply scan_step_returns in E. destruct E as [-> Hb].
    destruct (IH _ H) as [-> Hbs]. split; [reflexivity |].
    constructor; assumption.
Qed.

(** The loop returns when the texts of every job can be bound. *)
Lemma scan_loop_binds (now : str) (jobs : list local_app.job) st :
  Forall (fun j => scan_binds j = true) jobs ->
  is_Some (for_each (local_app.scan_step now) jobs st).
Proof.
  revert st. induction jobs as [| j jobs IH]; intros st H; [eexists; reflexivity |].
  apply Forall_cons in H. destruct H as [Hj H]. cbn [for_each].
  assert (E : is_Some (local_app.scan_step now st j)).
  { destruct st as [conn k]. unfold local_app.scan_step.
    unfold scan_binds in Hj. apply andb_prop in Hj. destruct Hj as [-> ->].
    cbn [negb]. destruct (conn !! local_app.job_id j); eexists; reflexivity. }
  destruct E as [s1 ->]. apply IH, H.
Qed.

(** The loop over jobs that are all stored changes nothing. *)
Lemma scan_loop_present (now : str) (jobs : list local_app.job)
    (conn : gmap str local_app.row) (k : Z) :
  Forall (fun j => bindable (local_app.job_id j) = true) jobs ->
  Forall (fun j => local_app.job_id j ∈ dom conn) jobs ->
  for_each (local_app.scan_step now) jobs (conn, k) = Some (conn, k).
Proof.
  induction jobs as [| j jobs IH]; intros Hb Hd; [reflexivity |].
  apply Forall_cons in Hb. destruct Hb as [Hj Hb].
  apply Forall_cons in Hd. destruct Hd as [Hi Hd].
  cbn [for_each].
  assert (E : local_app.scan_step now (conn, k) j = Some (conn, k)).
  { unfold local_app.scan_step. rewrite Hj. cbn [negb].
    apply elem_of_dom in Hi. destruct Hi as [r ->]. reflexivity. }
  rewrite E. apply IH; assumption.
Qed.

Lemma scan_step_unfold (now : str) (conn : gmap str local_app.row) (k : Z)
    (j : local_app.job) :
  local_app.scan_step now (conn, k) j
  = if negb (bindable (local_app.job_id j)) then None
    else match conn !! local_app.job_id j with
         | Some _ => Some (conn, k)
         | None =>
             if forallb bindable
                  [ local_app.title j; local_app.company j;
                    local_app.location j; local_app.url j;
                    local_app.source j; local_app.raw_text j;
                    local_app.created_at j ]
             then Some (<[ local_app.job_id j := scan_row now j ]> conn, k + 1)
             else None
         end.
Proof. reflexivity. Qed.

(** Whether the loop raises does not depend on the time of the scan nor
    on the rows of the table, only on the ids the table holds. *)
Lemma scan_loop_raises (now now' : str) (jobs : list local_app.job)
    (conn conn' : gmap str local_app.row) (k k' : Z) :
  dom conn = dom conn' ->
  for_each (local_app.scan_step now) jobs (conn, k) = None ->
  for_each (local_app.scan_step now') jobs (conn', k') = None.
Proof.
  revert conn conn' k k'.
  induction jobs as [| j jobs IH]; intros conn conn' k k' Hd H; [discriminate |].
  cbn [for_each] in *. rewrite scan_step_unfold in *.
  destruct (bindable (local_app.job_id j)); [| reflexivity]. cbn [negb] in *.
  assert (Hi : is_Some (conn !! local_app.job_id j)
               <-> is_Some (conn' !! local_app.job_id j))
    by (rewrite <- !elem_of_dom, Hd; reflexivity).
  destruct (conn !! local_app.job_id j) as [r |] eqn:E;
    destruct (conn' !! local_app.job_id j) as [r' |] eqn:E'.
  - apply (IH conn conn' k k' Hd H).
  - destruct (proj1 Hi (ex_intro _ r eq_refl)); discriminate.
  - destruct (proj2 Hi (ex_intro _ r' eq_refl)); discriminate.
  - destruct (forallb _ _); [| reflexivity].
    refine (IH _ _ _ _ _ H). rewrite !dom_insert_L, Hd. reflexivity.
Qed.

(** What [api_scan] returns, by the outcome of its loop. *)
Lemma api_scan_outcome (BeautifulSoup : str -> list node)
    (gmail : str -> list (str * str)) (after_date now : str)
    (conn : gmap str local_app.row) :
  let jobs := local_app.scan_emails BeautifulSoup gmail after_date in
  let r := local_app.api_scan BeautifulSoup gmail after_date now conn in
  (r = (conn, None)
   /\ for_each (local_app.scan_step now) jobs (conn, 0) = None)
  \/ (exists new_count,
        r = ((fold_left (insert_if_absent local_app.job_id (scan_row now))
                jobs (conn, 0)).1,
             Some (jsonify [ (u "found", JInt (Z.of_nat (length jobs)));
                             (u "new", JInt new_count) ]))
        /\ new_count
           = (fold_left (insert_if_absent local_app.job_id (scan_row now))
                jobs (conn, 0)).2
        /\ Forall (fun j => bindable (local_app.job_id j) = true) jobs).
Proof.
  cbv zeta. unfold local_app.api_scan, local_app.scan_merge.
  destruct (for_each _ _ (conn, 0)) as [[c k] |] eqn:E.
  - right. apply scan_loop_returns in E. destruct E as [E Hb].
    exists k. rewrite <- E. repeat split. exact Hb.
  - left. split; reflexivity.
Qed.

Section Merge.

Variable user_id : str.

Lemma store_fold_frame (jobs : list email_scanner.job)
    (table : gmap (str * str) email_scanner.job) (k : Z)
    (key : str * str) (r : email_scanner.job) :
  table !! key = Some r ->
  (fold_left (email_scanner.store_step user_id) jobs (table, k)).1 !! key
  = Some r.
Proof.
  revert table k. induction jobs as [| j jobs IH]; intros table k H; [exact H |].
  cbn [fold_left]. unfold email_scanner.store_step at 2, email_scanner.job_exists.
  destruct (table !! (user_id, email_scanner.job_id j)) eqn:E.
  - rewrite bool_decide_eq_true_2 by eauto. apply IH, H.
  - rewrite bool_decide_eq_false_2 by (intros [? ?]; discriminate).
    apply IH. unfold email_scanner.put_job.
    rewrite lookup_insert_ne; [exact H |].
    intros Heq. rewrite Heq in E. congruence.
Qed.

Lemma store_fold_stores (jobs : list email_scanner.job)
    (table : gmap (str * str) email_scanner.job) (k : Z) :
  Forall (fun j => (user_id, email_scanner.job_id j)
                   ∈ dom (fold_left (email_scanner.store_step user_id) jobs
                                    (table, k)).1)
         jobs.
Proof.
  revert table k. induction jobs as [| j jobs IH]; intros table k; [constructor |].
  cbn [fold_left]. constructor.
  - apply elem_of_dom.
    unfold email_scanner.store_step at 2, email_scanner.job_exists.
    destruct (table !! (user_id, email_scanner.job_id j)) as [r |] eqn:E.
    + rewrite bool_decide_eq_true_2 by eauto.
      exists r. apply store_fold_frame, E.
    + rewrite bool_decide_eq_false_2 by (intros [? ?]; discriminate).
      eexists. apply store_fold_frame. apply lookup_insert_eq.
  - destruct (email_scanner.store_step user_id (table, k) j). apply IH.
Qed.

Lemma store_fold_present (jobs : list email_scanner.job)
    (table : gmap (str * str) email_scanner.job) (k : Z) :
  Forall (fun j => (user_id, email_scanner.job_id j) ∈ dom table) jobs ->
  fold_left (email_scanner.store_step user_id) jobs (table, k) = (table, k).
Proof.
  induction 1 as [| j jobs Hj _ IH]; [reflexivity |].
  cbn [fold_left]. unfold email_scanner.store_step at 2, email_scanner.job_exists.
  apply elem_of_dom in Hj. rewrite bool_decide_eq_true_2 by exact Hj.
  exact IH.
Qed.

End Merge.

(** C1. Ingestion never touches a record that is already stored, and
    ingesting the same content again inserts nothing: once [api_scan] (or
    [lambda_handler]) has answered, a second run over the same messages, on
    any table that still holds the records of the first (whatever [status],
    [score], [analysis] and [cover_letter] they have been given since),
    reports zero new records and returns that table unchanged. [api_scan]
    answers whenever [sqlite3] can bind the texts of the records found,
    that is when none holds a surrogate; when it raises it has stored
    nothing, and a second run on the table it left stores nothing
    either. *)
Theorem reingestion_is_noop
    (BeautifulSoup : str -> list node) (gmail : str -> list (str * str))
    (after_date now now' user_id : str) :
  (forall conn : gmap str local_app.row,
     let first := local_app.api_scan BeautifulSoup gmail after_date now conn in
     let stored := first.1 in
     (forall id r, conn !! id = Some r -> stored !! id = Some r)
     /\ (Forall (fun j => scan_binds j = true)
           (local_app.scan_emails BeautifulSoup gmail after_date) ->
         is_Some first.2)
     /\ (first.2 = None -> stored = conn)
     /\ (local_app.api_scan BeautifulSoup gmail after_date now' stored).1
        = stored
     /\ forall conn' : gmap str local_app.row,
          is_Some first.2 ->
          dom stored ⊆ dom conn' ->
          local_app.api_scan BeautifulSoup gmail after_date now' conn'
          = (conn',
             Some (jsonify
                     [ (u "found",
                        JInt (Z.of_nat
                                (length (local_app.scan_emails BeautifulSoup
                                           gmail after_date))));
                       (u "new", JInt 0) ])))
  /\ (forall table : gmap (str * str) email_scanner.job,
        let stored :=
          (email_scanner.lambda_handler BeautifulSoup (inl gmail)
             user_id after_date table).1 in
        (forall key r, table !! key = Some r -> stored !! key = Some r)
        /\ forall table' : gmap (str * str) email_scanner.job,
             dom stored ⊆ dom table' ->
             email_scanner.lambda_handler BeautifulSoup (inl gmail)
               user_id after_date table'
             = (table',
                Response
                  [ (u "jobs_found",
                     JInt (Z.of_nat
                             (length (email_scanner.scan_emails BeautifulSoup
                                        gmail after_date))));
                    (u "new_jobs_stored", JInt 0);
                    (u "user_id", JStr user_id) ] 200)).
Proof.
  split.
  - intros conn first stored. subst first stored.
    set (jobs := local_app.scan_emails BeautifulSoup gmail after_date).
    assert (Again : forall conn' : gmap str local_app.row,
              is_Some (local_app.api_scan BeautifulSoup gmail after_date now
                         conn).2 ->
              dom (local_app.api_scan BeautifulSoup gmail after_date now
                     conn).1 ⊆ dom conn' ->
              local_app.api_scan BeautifulSoup gmail after_date now' conn'
              = (conn',
                 Some (jsonify [ (u "found", JInt (Z.of_nat (length jobs)));
                                 (u "new", JInt 0) ]))).
    { intros conn' Hs Hsub.
      destruct (api_scan_outcome BeautifulSoup gmail after_date now conn)
        as [[E _] | (k & E & _ & Hb)]; rewrite E in Hs, Hsub;
        [destruct Hs; discriminate |].
      cbn [fst] in Hsub. fold jobs in Hsub, Hb.
      rewrite (merge_dom local_app.job_id (scan_row now) jobs (conn, 0)) in Hsub.
      unfold local_app.api_scan, local_app.scan_merge. fold jobs.
      rewrite scan_loop_present; [reflexivity | exact Hb |].
      apply Forall_forall. intros j Hj. apply Hsub.
      apply elem_of_union_r, elem_of_list_to_set, list_elem_of_fmap.
      exists j. split; [reflexivity | exact Hj]. }
    split; [| split; [| split; [| split]]].
    + intros id r H.
      destruct (api_scan_outcome BeautifulSoup gmail after_date now conn)
        as [[-> _] | (k & -> & _ & _)]; [exact H |].
      apply merge_frame, H.
    + intros Hb. unfold local_app.api_scan, local_app.scan_merge.
      destruct (scan_loop_binds now jobs (conn, 0) Hb) as [[c k] E].
      fold jobs. rewrite E. eexists. reflexivity.
    + unfold local_app.api_scan, local_app.scan_merge.
      destruct (for_each _ _ (conn, 0)) as [[c k] |]; [discriminate |].
      reflexivity.
    + destruct (api_scan_outcome BeautifulSoup gmail after_date now conn)
        as [[E Hn] | (k & E & _ & _)].
      * rewrite E. cbn [fst]. fold jobs in Hn.
        unfold local_app.api_scan, local_app.scan_merge. fold jobs.
        rewrite (scan_loop_raises now now' jobs conn conn 0 0 eq_refl Hn).
        reflexivity.
      * rewrite Again; [reflexivity | rewrite E; eexists; reflexivity
                       | reflexivity].
    + exact Again.
  - intros table stored. subst stored.
    unfold email_scanner.lambda_handler.
    set (jobs := email_scanner.scan_emails BeautifulSoup gmail after_date).
    split.
    + intros key r H.
      pose proof (store_fold_frame user_id jobs table 0 key r H) as F.
      destruct (fold_left (email_scanner.store_step user_id) jobs (table, 0)).
      exact F.
    + intros table' Hsub.
      pose proof (store_fold_stores user_id jobs table 0) as S.
      destruct (fold_left (email_scanner.store_step user_id) jobs (table, 0))
        as [t1 k1].
      simpl in Hsub, S.
      rewrite store_fold_present; [reflexivity |].
      eapply Forall_impl; [exact S |]. intros j Hj. apply Hsub, Hj.
Qed.

Lemma reingestion_is_noop_witness :
  let scan :=
    local_app.api_scan (fun _ => scenario_soup) scenario_gmail (u "2026/01/01") in
  let stored := (scan (u "2026-01-05T12:00:00") ∅).1 in
  let edited := mark_applied <$> stored in
  scan (u "2026-01-07T12:00:00") edited
  = (edited, Some (jsonify [ (u "found", JInt 1); (u "new", JInt 0) ])).
Proof.
  cbv zeta.
  apply (proj2 (proj2 (proj2 (proj2 (proj1 (reingestion_is_noop
                         (fun _ => scenario_soup) scenario_gmail
                         (u "2026/01/01") (u "2026-01-05T12:00:00")
                         (u "2026-01-07T12:00:00") []) ∅))))).
  - vm_compute. eauto.
  - rewrite dom_fmap_L. reflexivity.
Defined.

(** A scan that raises: the raw text of the one job found holds a surrogate,
    which the [INSERT] cannot bind. *)
Example api_scan_raises_on_surrogate :
  local_app.api_scan sample_BeautifulSoup surrogate_gmail
    (u "2026/01/01") (u "2026-01-05T12:00:00") ∅
  = (∅, None)
  /\ length (local_app.scan_emails sample_BeautifulSoup surrogate_gmail
               (u "2026/01/01")) = 1%nat.
Proof. split; vm_compute; reflexivity. Qed.


(** ** The loops of the e-mail parsers *)

Lemma fold_left_invariant {S L : Type} (I : S -> Prop) (step : S -> L -> S) :
  (forall s l, I s -> I (step s l)) ->
  forall ls s, I s -> I (fold_left step ls s).
Proof.
  intros Hstep ls. induction ls as [| l ls IH]; intros s Hs; [exact Hs |].
  simpl. apply IH, Hstep, Hs.
Qed.

Lemma fold_left_invariant_on {S L : Type} (I : S -> Prop) (P : L -> Prop)
    (step : S -> L -> S) :
  (forall s l, P l -> I s -> I (step s l)) ->
  forall ls s, Forall P ls -> I s -> I (fold_left step ls s).
Proof.
  intros Hstep ls. induction ls as [| l ls IH]; intros s Hls Hs; [exact Hs |].
  apply Forall_cons in Hls. destruct Hls as [Hl Hls].
  simpl. apply IH; [exact Hls |]. apply Hstep; assumption.
Qed.

(** The same for a loop whose body may raise: an invariant of the turns
    that return holds of the state the loop returns. *)
Lemma for_each_invariant_on {S L : Type} (I : S -> Prop) (P : L -> Prop)
    (body : S -> L -> option S) :
  (forall s l s', P l -> I s -> body s l = Some s' -> I s') ->
  forall ls s s', Forall P ls -> I s -> for_each body ls s = Some s' -> I s'.
Proof.
  intros Hbody ls. induction ls as [| l ls IH]; intros s s' Hls Hs H.
  - injection H as <-. exact Hs.
  - apply Forall_cons in Hls. destruct Hls as [Hl Hls].
    cbn [for_each] in H. destruct (body s l) as [s1 |] eqn:E; [| discriminate].
    apply (IH s1 s' Hls); [| exact H]. apply (Hbody s l); assumption.
Qed.


(** What a parser returns is the list of the final state of its loop. *)
Lemma returned_jobs {S J L : Type} (body : S * list J -> L -> option (S * list J))
    (links : list L) (st : S * list J) (jobs : list J) :
  snd <$> for_each body links st = Some jobs ->
  exists seen, for_each body links st = Some (seen, jobs).
Proof.
  destruct (for_each body links st) as [[seen jobs'] |]; [| discriminate].
  intros [= <-]. exists seen. reflexivity.
Qed.

(** An invariant of the list a parser builds holds of the list it
    returns. *)
Lemma parser_invariant_on {J L : Type} (P : list J -> Prop) (Q : L -> Prop)
    (body : gset str * list J -> L -> option (gset str * list J))
    (links : list L) (jobs : list J) :
  (forall st l st', Q l -> P st.2 -> body st l = Some st' -> P st'.2) ->
  Forall Q links ->
  P [] ->
  snd <$> for_each body links (∅, []) = Some jobs ->
  P jobs.
Proof.
  intros Hbody Hq H0 H. apply returned_jobs in H. destruct H as [seen H].
  apply (for_each_invariant_on (fun st => P st.2) Q body Hbody links
           (∅, []) (seen, jobs) Hq H0 H).
Qed.

Lemma parser_invariant {J L : Type} (P : list J -> Prop)
    (body : gset str * list J -> L -> option (gset str * list J))
    (links : list L) (jobs : list J) :
  (forall st l st', P st.2 -> body st l = Some st' -> P st'.2) ->
  P [] ->
  snd <$> for_each body links (∅, []) = Some jobs ->
  P jobs.
Proof.
  intros Hbody. apply (parser_invariant_on P (fun _ => True)).
  - intros st l st' _. apply Hbody.
  - apply Forall_forall. intros; exact Logic.I.
Qed.


Lemma take_le {A : Type} (n : nat) (l : list A) : (length (take n l) <= n)%nat.
Proof. rewrite length_take. lia. Qed.

Lemma ite_take_le {A : Type} (b : bool) (n : nat) (l : list A) :
  (length (if b then take n l else []) <= n)%nat.
Proof. destruct b; [apply take_le | simpl; lia]. Qed.

(** The turns of the loops of [local_app.py]: the link is passed over and
    the list stays as it is, or a record is appended to it. *)
Ltac local_turn H :=
  match goal with
  | |- context [bool_decide ?P] =>
      destruct (bool_decide P) eqn:?; [intros [= <-]; exact H |]
  end;
  cbv zeta;
  match goal with
  | |- context [if ?b then _ else _] =>
      destruct b eqn:?; [intros [= <-]; exact H |]
  end.

Lemma local_linkedin_step_bounded (d : str) st link st' :
  Forall local_bounded st.2 ->
  local_app.linkedin_step d st link = Some st' ->
  Forall local_bounded st'.2.
Proof.
  destruct st as [seen jobs]. intros H. unfold local_app.linkedin_step.
  local_turn H.
  destruct (find_parent local_app.containers link);
    (destruct (generate_job_id _ _ _); [| discriminate]);
    intros [= <-]; cbn [snd];
    (apply Forall_app; split; [exact H |]);
    (constructor; [| constructor]); unfold local_bounded;
    cbn [local_app.title local_app.company local_app.location
         local_app.raw_text];
    repeat split; try apply take_le; try apply ite_take_le;
    try (cbn [length]; lia).
Qed.

Lemma local_indeed_step_bounded (d : str) st link st' :
  Forall local_bounded st.2 ->
  local_app.indeed_step d st link = Some st' ->
  Forall local_bounded st'.2.
Proof.
  destruct st as [seen jobs]. intros H. unfold local_app.indeed_step.
  local_turn H.
  destruct (find_parent local_app.containers link);
    (destruct (generate_job_id _ _ _); [| discriminate]);
    intros [= <-]; cbn [snd];
    (apply Forall_app; split; [exact H |]);
    (constructor; [| constructor]); unfold local_bounded;
    cbn [local_app.title local_app.company local_app.location
         local_app.raw_text];
    repeat split; try apply take_le; try apply ite_take_le;
    try (cbn [length]; lia).
Qed.

Lemma scanner_linkedin_step_bounded (d : str) st link :
  Forall scanner_bounded st.2 ->
  Forall scanner_bounded (email_scanner.linkedin_step d st link).2.
Proof.
  destruct st as [seen jobs]. intros H. unfold email_scanner.linkedin_step.
  destruct (bool_decide (attr_get (here link) (u "href") [] ∈ seen)); [exact H |].
  cbv zeta.
  match goal with |- context [if ?b then _ else _] => destruct b end; [exact H |].
  destruct (find_parent email_scanner.containers link); cbn [snd];
    (apply Forall_app; split; [exact H |]);
    (constructor; [| constructor]); unfold scanner_bounded;
    cbn [email_scanner.title email_scanner.company email_scanner.location
         email_scanner.raw_text];
    repeat split; try apply take_le; try apply ite_take_le;
    try (cbn [length]; lia).
Qed.

Lemma scanner_indeed_step_bounded (d : str) st link :
  Forall scanner_bounded st.2 ->
  Forall scanner_bounded (email_scanner.indeed_step d st link).2.
Proof.
  destruct st as [seen jobs]. intros H. unfold email_scanner.indeed_step.
  destruct (bool_decide (attr_get (here link) (u "href") [] ∈ seen)); [exact H |].
  cbv zeta.
  match goal with |- context [if ?b then _ else _] => destruct b end; [exact H |].
  destruct (find_parent email_scanner.containers link); cbn [snd];
    (apply Forall_app; split; [exact H |]);
    (constructor; [| constructor]); unfold scanner_bounded;
    cbn [email_scanner.title email_scanner.company email_scanner.location
         email_scanner.raw_text];
    repeat split; try apply take_le; try apply ite_take_le;
    try (cbn [length]; lia).
Qed.


(** ** The feed scan *)

Lemma split_first_go_char (c : N) (s cur : str) :
  contains [c] s = true ->
  exists before after,
    s = before ++ c :: after
    /\ (c ∉ before)
    /\ split_first_go [c] s cur = [reverse cur ++ before; after].
Proof.
  revert cur. induction s as [| x s IH]; intros cur H.
  - discriminate.
  - cbn [contains startswith split_first_go] in *.
    destruct (c =? x)%N eqn:E.
    + apply N.eqb_eq in E. subst x.
      exists [], s. rewrite app_nil_r. cbn [length drop].
      split; [reflexivity |]. split; [apply not_elem_of_nil | reflexivity].
    + cbn [andb orb] in *.
      destruct (IH (x :: cur) H) as (before & after & -> & Hn & Hs).
      exists (x :: before), after.
      split; [reflexivity |]. split.
      * apply not_elem_of_cons. split; [| exact Hn].
        apply N.eqb_neq in E. exact E.
      * rewrite Hs, reverse_cons, <- app_assoc. reflexivity.
Qed.

Lemma parse_company_colon (title : str) :
  contains (u ":") title = true ->
  exists before after,
    title = before ++ u ":" ++ after
    /\ (58%N ∉ before)
    /\ local_app.parse_company title = (strip before, strip after).
Proof.
  intros H. unfold local_app.parse_company. rewrite H. cbv zeta.
  destruct (split_first_go_char 58 title [] H) as (before & after & E & Hn & Hs).
  exists before, after. split; [exact E |]. split; [exact Hn |].
  unfold split1. change (u ":") with [58%N]. rewrite Hs. reflexivity.
Qed.

Lemma parse_company_plain (title : str) :
  contains (u ":") title = false ->
  local_app.parse_company title = ([], title).
Proof. intros H. unfold local_app.parse_company. rewrite H. reflexivity. Qed.

(** A record of a loop under [try] was appended by a turn of it. *)
Lemma collect_from {J L : Type} (body : L -> turn J) (items : list L) (j : J) :
  j ∈ collect body items ->
  exists item, item ∈ items /\ body item = Append j.
Proof.
  induction items as [| x items IH]; cbn [collect]; intros H.
  - apply elem_of_nil in H. destruct H.
  - destruct (body x) as [| j' |] eqn:E.
    + destruct (IH H) as (item & Hi & Hb).
      exists item. split; [right; exact Hi | exact Hb].
    + apply elem_of_cons in H. destruct H as [-> | H].
      * exists x. split; [left | exact E].
      * destruct (IH H) as (item & Hi & Hb).
        exists item. split; [right; exact Hi | exact Hb].
    + apply elem_of_nil in H. destruct H.
Qed.

Section Feed.

Variable BeautifulSoup : str -> list node.
Variable fetch_feed : str -> option element.
Variable parsedate_to_datetime : str -> option datetime.
Variable isoformat : datetime -> str.

#[local] Abbreviation wwr_item :=
  (local_app.wwr_item BeautifulSoup parsedate_to_datetime isoformat).
#[local] Abbreviation fetch_wwr_jobs :=
  (local_app.fetch_wwr_jobs BeautifulSoup fetch_feed parsedate_to_datetime
     isoformat).

(** Every record of the scan is built by the loop body from an item of
    one of the feeds. *)
Lemma fetch_wwr_jobs_from_item (days_back now : Z) (j : local_app.job) :
  j ∈ fetch_wwr_jobs days_back now ->
  exists feed_url root item,
    feed_url ∈ local_app.WWR_FEEDS
    /\ fetch_feed feed_url = Some root
    /\ item ∈ elem_findall (u "item") root
    /\ wwr_item (Naive (now - days days_back)) now item = Append j.
Proof.
  unfold local_app.fetch_wwr_jobs. cbv zeta. intros H.
  apply list_elem_of_In, in_flat_map in H.
  destruct H as (feed_url & Hf & Hj).
  destruct (fetch_feed feed_url) as [root |] eqn:E; [| destruct Hj].
  apply list_elem_of_In, collect_from in Hj.
  destruct Hj as (item & Hi & Hw).
  exists feed_url, root, item.
  split; [apply list_elem_of_In, Hf |]. split; [exact E |].
  split; [exact Hi | exact Hw].
Qed.

(** What the loop body puts in the record it builds. *)
Lemma wwr_item_record (cutoff : datetime) (now : Z) (item : element)
    (j : local_app.job) :
  wwr_item cutoff now item = Append j ->
  exists title_elem link_elem,
    elem_find (u "title") item = Some title_elem
    /\ elem_find (u "link") item = Some link_elem
    /\ elem_bool title_elem = true
    /\ elem_bool link_elem = true
    /\ let title := local_app.or_empty (elem_text title_elem) in
       local_app.title j = take 200 (local_app.parse_company title).2
       /\ local_app.company j = take 100 (local_app.parse_company title).1
       /\ local_app.location j = u "Remote"
       /\ local_app.url j = local_app.or_empty (elem_text link_elem)
       /\ local_app.source j = u "weworkremotely"
       /\ generate_job_id (local_app.url j) (local_app.parse_company title).2
            (local_app.parse_company title).1
          = Some (local_app.job_id j)
       /\ exists d,
            local_app.description j = Some d
            /\ local_app.raw_text j = local_app.description_or d title
            /\ (d = None \/ d = Some []
                \/ exists t, d = Some t /\ (length t <= 2000)%nat).
Proof.
  unfold local_app.wwr_item. cbv zeta.
  destruct (elem_find (u "title") item) as [title_elem |]; [| discriminate].
  destruct (elem_find (u "link") item) as [link_elem |]; [| discriminate].
  destruct (elem_bool title_elem) eqn:Ht; [| discriminate].
  destruct (elem_bool link_elem) eqn:Hl; [| discriminate].
  cbn [negb orb].
  destruct (local_app.parse_date _ _ _ _ _) as [pub_date |]; [| discriminate].
  destruct (generate_job_id _ _ _) as [job_id |] eqn:Eid; [| discriminate].
  intros [= <-].
  exists title_elem, link_elem. repeat (split; [reflexivity |]).
  split; [exact Ht |]. split; [exact Hl |].
  repeat (split; [reflexivity |]).
  cbn [local_app.description local_app.raw_text local_app.url
       local_app.job_id].
  split; [exact Eid |].
  eexists. split; [reflexivity |]. split; [reflexivity |].
  destruct (elem_find (u "description") item) as [d |].
  - destruct (elem_text d) as [[| c t] |]; cbn [local_app.clean_description].
    + right. left. reflexivity.
    + right. right. eexists. split; [reflexivity |]. apply take_le.
    + left. reflexivity.
  - right. left. reflexivity.
Qed.

(** An item whose title element has no child element is passed over. *)
Lemma wwr_item_text_only (cutoff : datetime) (now : Z)
    (item title_elem : element) :
  elem_find (u "title") item = Some title_elem ->
  elem_children title_elem = [] ->
  wwr_item cutoff now item = Continue.
Proof.
  intros Hf Hc. unfold local_app.wwr_item. cbv zeta. rewrite Hf.
  destruct (elem_find (u "link") item); [| reflexivity].
  unfold elem_bool at 1. rewrite Hc. reflexivity.
Qed.

End Feed.

(** C6, at the failing input. The split of the title is as the claim has
    it in every record the scan returns: the location is ["Remote"], the
    company is the part of the item's title before the first colon and
    the job title the part after it (each trimmed, and cut to 100 and 200
    characters), and a title without a colon is the job title beside an
    empty company. But the scan returns a record only for an item whose
    title element and link element have a child element: an item whose
    title holds text only is passed over before its title is read, so the
    item of the scenario, published one day ago, gives no record at all. *)
Theorem wwr_title_split_unreached
    (BeautifulSoup : str -> list node) (fetch_feed : str -> option element)
    (parsedate_to_datetime : str -> option datetime)
    (isoformat : datetime -> str) (days_back now : Z) :
  (forall cutoff item title_elem,
     elem_find (u "title") item = Some title_elem ->
     elem_children title_elem = [] ->
     local_app.wwr_item BeautifulSoup parsedate_to_datetime isoformat
       cutoff now item
     = Continue)
  /\ local_app.fetch_wwr_jobs BeautifulSoup (one_feed (rss [scenario_item]))
       parsedate_to_datetime isoformat days_back now = []
  /\ (forall j,
        j ∈ local_app.fetch_wwr_jobs BeautifulSoup fetch_feed
              parsedate_to_datetime isoformat days_back now ->
        local_app.location j = u "Remote"
        /\ exists feed_url root item title_elem,
             feed_url ∈ local_app.WWR_FEEDS
             /\ fetch_feed feed_url = Some root
             /\ item ∈ elem_findall (u "item") root
             /\ elem_find (u "title") item = Some title_elem
             /\ elem_children title_elem <> []
             /\ let title := local_app.or_empty (elem_text title_elem) in
                (contains (u ":") title = true ->
                 exists before after,
                   title = before ++ u ":" ++ after
                   /\ (58%N ∉ before)
                   /\ local_app.company j = take 100 (strip before)
                   /\ local_app.title j = take 200 (strip after))
                /\ (contains (u ":") title = false ->
                    local_app.company j = []
                    /\ local_app.title j = take 200 title)).
Proof.
  split; [| split].
  - intros cutoff item title_elem. apply wwr_item_text_only.
  - reflexivity.
  - intros j H.
    apply fetch_wwr_jobs_from_item in H.
    destruct H as (feed_url & root & item & Hf & Hr & Hi & Hw).
    apply wwr_item_record in Hw.
    destruct Hw as (title_elem & link_elem & Ht & _ & Hb & _ & Hrec).
    cbv zeta in Hrec. destruct Hrec as (Htitle & Hcompany & Hloc & _).
    split; [exact Hloc |].
    exists feed_url, root, item, title_elem.
    repeat (split; [assumption |]).
    split.
    { intros Hc. unfold elem_bool in Hb. rewrite Hc in Hb. discriminate. }
    cbv zeta. split.
    + intros Hc. destruct (parse_company_colon _ Hc) as (b & a & E & Hn & Hp).
      exists b, a. rewrite Htitle, Hcompany, Hp. auto.
    + intros Hc. rewrite Htitle, Hcompany, (parse_company_plain _ Hc). auto.
Qed.

(** C7, at the failing inputs. A feed item whose title and link elements
    hold text only is passed over whatever its date, so the item of the
    scenario, published one day ago, is not returned; and an item that
    reaches the date test with an aware publication date is never passed
    over, whatever the date, since the comparison with the naive cutoff
    raises and the exception is swallowed: its record, if its id can be
    computed, carries the time of the scan. *)
Theorem wwr_lookback_slips
    (BeautifulSoup : str -> list node)
    (parsedate_to_datetime : str -> option datetime)
    (isoformat : datetime -> str) (days_back now : Z) :
  (forall title link pub_date,
     local_app.wwr_item BeautifulSoup parsedate_to_datetime isoformat
       (Naive (now - days days_back)) now (rss_item false title link pub_date)
     = Continue)
  /\ local_app.fetch_wwr_jobs BeautifulSoup (one_feed (rss [scenario_item]))
       parsedate_to_datetime isoformat days_back now = []
  /\ (forall published utcoffset title link c text,
        match
          local_app.wwr_item BeautifulSoup
            (fun _ => Some (Aware published utcoffset)) isoformat
            (Naive (now - days days_back)) now
            (rss_item true title link (Some (c :: text)))
        with
        | Append j => local_app.created_at j = isoformat (Naive now)
        | Raise =>
            generate_job_id link (local_app.parse_company title).2
              (local_app.parse_company title).1
            = None
        | Continue => False
        end).
Proof.
  split; [| split].
  - intros title link pub_date. destruct pub_date; reflexivity.
  - reflexivity.
  - intros published utcoffset title link c text.
    unfold local_app.wwr_item, rss_item. cbv zeta.
    change (elem_find (u "title") _)
      with (Some (Element (u "title") (Some title) [Element (u "b") None []])).
    change (elem_find (u "link") _)
      with (Some (Element (u "link") (Some link) [Element (u "b") None []])).
    change (elem_find (u "pubDate") _)
      with (Some (Element (u "pubDate") (Some (c :: text)) [])).
    cbn [elem_bool elem_children negb orb local_app.or_empty elem_text
         local_app.parse_date datetime_lt].
    destruct (generate_job_id _ _ _); reflexivity.
Qed.

Example marked_item_scanned :
  local_app.fetch_wwr_jobs plain_text_soup (one_feed (rss [marked_item]))
    sample_parsedate sample_isoformat 7 sample_now
  = [marked_job].
Proof. vm_compute. reflexivity. Qed.

(** ** Field bounds *)



(** ** URLs within one parse *)













(** ** The LinkedIn scenario *)

(** C8, at the failing input. On the alert of the scenario, the parser of
    [local_app.py], whose separator literal is not the middle dot, returns
    one job with an empty company and an empty location; the parser of the
    e-mail scanner, which splits on the middle dot, returns the job of the
    scenario. *)
Theorem linkedin_scenario_separator (email_date : str) :
  map (fun j => (local_app.title j, local_app.company j,
                 local_app.location j, local_app.source j))
      <$> local_app.parse_linkedin_jobs (fun _ => scenario_soup)
            scenario_html email_date
  = Some [ (u "Senior Backend Engineer", [], [], u "linkedin") ]
  /\ map (fun j => (email_scanner.title j, email_scanner.company j,
                    email_scanner.location j, email_scanner.source j))
         (email_scanner.parse_linkedin_jobs (fun _ => scenario_soup)
            scenario_html email_date)
     = [ (u "Senior Backend Engineer", u "Acme Corp", u "Remote",
          u "linkedin") ].
Proof. split; vm_compute; reflexivity. Qed.

(** ** Defaults of unresolved fields *)










Lemma str_eqb_false (a b : str) : str_eqb a b = false -> a <> b.
Proof. unfold str_eqb. intros H. apply bool_decide_eq_false in H. exact H. Qed.

#[local] Abbreviation local_linkedin_defaults :=
  (linkedin_defaults local_app.url local_app.company local_app.location
     local_app.containers local_app.linkedin_separator).
#[local] Abbreviation local_indeed_defaults :=
  (indeed_defaults local_app.url local_app.company local_app.location
     local_app.containers).
#[local] Abbreviation scanner_linkedin_defaults :=
  (linkedin_defaults email_scanner.url email_scanner.company
     email_scanner.location email_scanner.containers middle_dot).
#[local] Abbreviation scanner_indeed_defaults :=
  (indeed_defaults email_scanner.url email_scanner.company
     email_scanner.location email_scanner.containers).








(** * Further properties *)

(** ** The merge loops *)

Lemma store_step_insert (user_id : str) st j :
  email_scanner.store_step user_id st j
  = insert_if_absent (fun j => (user_id, email_scanner.job_id j)) id st j.
Proof.
  destruct st as [table k].
  unfold email_scanner.store_step, email_scanner.job_exists,
    email_scanner.put_job, insert_if_absent.
  cbn [fst snd]. destruct (table !! (user_id, email_scanner.job_id j)) eqn:E.
  - rewrite bool_decide_eq_true_2 by eauto. reflexivity.
  - rewrite bool_decide_eq_false_2 by (intros [? ?]; discriminate). reflexivity.
Qed.


(** X2. After an e-mail merge the table holds exactly the keys it held
    before and the ids of the records found: nothing is deleted and
    nothing else is added. When [api_scan] raises the table is as it
    was. *)
Theorem merge_stores_found_ids
    (BeautifulSoup : str -> list node) (gmail : str -> list (str * str))
    (after_date now user_id : str) :
  (forall conn : gmap str local_app.row,
     let r := local_app.api_scan BeautifulSoup gmail after_date now conn in
     r = (conn, None)
     \/ (is_Some r.2
         /\ dom r.1
            = dom conn
              ∪ list_to_set (local_app.job_id
                               <$> local_app.scan_emails BeautifulSoup gmail
                                     after_date)))
  /\ (forall table : gmap (str * str) email_scanner.job,
        dom (email_scanner.lambda_handler BeautifulSoup (inl gmail)
               user_id after_date table).1
        = dom table
          ∪ list_to_set ((fun j => (user_id, email_scanner.job_id j))
                           <$> email_scanner.scan_emails BeautifulSoup gmail
                                 after_date)).
Proof.
  split.
  - intros conn. cbv zeta.
    destruct (api_scan_outcome BeautifulSoup gmail after_date now conn)
      as [[E _] | (k & E & _ & _)]; [left; exact E | right].
    rewrite E. cbn [fst snd]. split; [eexists; reflexivity |].
    apply (merge_dom local_app.job_id (scan_row now) _ (conn, 0)).
  - intros table. unfold email_scanner.lambda_handler.
    rewrite (merge_ext _ _ _ (store_step_insert user_id)).
    pose proof (merge_dom (fun j => (user_id, email_scanner.job_id j)) id
                  (email_scanner.scan_emails BeautifulSoup gmail after_date)
                  (table, 0)) as D.
    destruct (fold_left _ _ (table, 0)) as [c k]. exact D.
Qed.

(** ** What the e-mail parsers return *)

Lemma find_all_links_match (pattern : regex) (soup : list node) :
  Forall (fun l => href_matches pattern (here l) = true)
         (find_all_links pattern soup).
Proof.
  apply Forall_forall. intros l Hl. unfold find_all_links in Hl.
  apply list_elem_of_filter in Hl. destruct Hl as [Hl _].
  destruct (href_matches pattern (here l)); [reflexivity | contradiction].
Qed.

Lemma href_matches_search (pattern : regex) (n : node) :
  href_matches pattern n = true ->
  re_search pattern (attr_get n (u "href") []) = true.
Proof.
  destruct n as [t | nm a cs]; [discriminate |].
  unfold href_matches, attr_get.
  destruct (a !! u "href"); [| rewrite andb_false_r; discriminate].
  intros H. apply andb_prop in H. apply H.
Qed.

Lemma take_min_length {A : Type} (full : list A) :
  (length full <? 3)%nat = false -> (3 <= length (take 200 full))%nat.
Proof. intros H. apply Nat.ltb_ge in H. rewrite length_take. lia. Qed.

Ltac shaped_fields Hm :=
  repeat (split; [first [exact (href_matches_search _ _ Hm) | reflexivity
                         | apply take_min_length; assumption] |]).

Ltac local_shaped_step H Hm :=
  local_turn H;
  match goal with
  | E : _ || _ = false |- _ => apply orb_false_elim in E; destruct E as [_ E]
  end;
  match goal with
  | |- context [find_parent ?c ?l] => destruct (find_parent c l)
  end;
  (destruct (generate_job_id _ _ _) eqn:Eid; [| discriminate]);
  intros [= <-]; cbn [snd]; (apply Forall_app; split; [exact H |]);
  (constructor; [| constructor]);
  shaped_fields Hm;
  eexists; (split; [reflexivity | exact Eid]).

Ltac shaped_step H Hm :=
  match goal with
  | |- context [bool_decide ?P] => destruct (bool_decide P); [exact H |]
  end;
  cbv zeta;
  match goal with
  | |- context [if ?a || ?b then _ else _] =>
      destruct a; [exact H |]; destruct b eqn:?; [exact H |]
  end;
  cbn [orb];
  match goal with
  | |- context [find_parent ?c ?l] => destruct (find_parent c l)
  end;
  cbn [snd]; (apply Forall_app; split; [exact H |]);
  (constructor; [| constructor]);
  shaped_fields Hm;
  eexists; split; reflexivity.

Lemma local_linkedin_step_shaped (d : str) st link st' :
  href_matches local_app.linkedin_href (here link) = true ->
  Forall (local_shaped local_app.linkedin_href (u "linkedin") d) st.2 ->
  local_app.linkedin_step d st link = Some st' ->
  Forall (local_shaped local_app.linkedin_href (u "linkedin") d) st'.2.
Proof.
  destruct st as [seen jobs]. intros Hm H. unfold local_app.linkedin_step.
  local_shaped_step H Hm.
Qed.

Lemma local_indeed_step_shaped (d : str) st link st' :
  href_matches local_app.indeed_href (here link) = true ->
  Forall (local_shaped local_app.indeed_href (u "indeed") d) st.2 ->
  local_app.indeed_step d st link = Some st' ->
  Forall (local_shaped local_app.indeed_href (u "indeed") d) st'.2.
Proof.
  destruct st as [seen jobs]. intros Hm H. unfold local_app.indeed_step.
  local_shaped_step H Hm.
Qed.

Lemma scanner_linkedin_step_shaped (d : str) st link :
  href_matches email_scanner.linkedin_href (here link) = true ->
  Forall (scanner_shaped email_scanner.linkedin_href (u "linkedin") d) st.2 ->
  Forall (scanner_shaped email_scanner.linkedin_href (u "linkedin") d)
         (email_scanner.linkedin_step d st link).2.
Proof.
  destruct st as [seen jobs]. intros Hm H. unfold email_scanner.linkedin_step.
  shaped_step H Hm.
Qed.

Lemma scanner_indeed_step_shaped (d : str) st link :
  href_matches email_scanner.indeed_href (here link) = true ->
  Forall (scanner_shaped email_scanner.indeed_href (u "indeed") d) st.2 ->
  Forall (scanner_shaped email_scanner.indeed_href (u "indeed") d)
         (email_scanner.indeed_step d st link).2.
Proof.
  destruct st as [seen jobs]. intros Hm H. unfold email_scanner.indeed_step.
  shaped_step H Hm.
Qed.

Section ParsedRecords.

Variable BeautifulSoup : str -> list node.
Variables html email_date : str.

Lemma local_linkedin_jobs_shaped (jobs : list local_app.job) :
  local_app.parse_linkedin_jobs BeautifulSoup html email_date = Some jobs ->
  Forall (local_shaped local_app.linkedin_href (u "linkedin") email_date) jobs.
Proof.
  apply (parser_invariant_on (Forall (local_shaped _ _ email_date))
           (fun l => href_matches local_app.linkedin_href (here l) = true)
           _ _ _
           (fun st l st' => local_linkedin_step_shaped email_date st l st')
           (find_all_links_match _ _) (Forall_nil_2 _)).
Qed.

Lemma local_indeed_jobs_shaped (jobs : list local_app.job) :
  local_app.parse_indeed_jobs BeautifulSoup html email_date = Some jobs ->
  Forall (local_shaped local_app.indeed_href (u "indeed") email_date) jobs.
Proof.
  apply (parser_invariant_on (Forall (local_shaped _ _ email_date))
           (fun l => href_matches local_app.indeed_href (here l) = true)
           _ _ _
           (fun st l st' => local_indeed_step_shaped email_date st l st')
           (find_all_links_match _ _) (Forall_nil_2 _)).
Qed.

Lemma scanner_linkedin_jobs_shaped :
  Forall (scanner_shaped email_scanner.linkedin_href (u "linkedin") email_date)
         (email_scanner.parse_linkedin_jobs BeautifulSoup html email_date).
Proof.
  apply (fold_left_invariant_on
           (fun st => Forall (scanner_shaped _ _ email_date) st.2)
           (fun l => href_matches email_scanner.linkedin_href (here l) = true));
    [intros s l; apply scanner_linkedin_step_shaped
    | apply find_all_links_match | constructor].
Qed.

Lemma scanner_indeed_jobs_shaped :
  Forall (scanner_shaped email_scanner.indeed_href (u "indeed") email_date)
         (email_scanner.parse_indeed_jobs BeautifulSoup html email_date).
Proof.
  apply (fold_left_invariant_on
           (fun st => Forall (scanner_shaped _ _ email_date) st.2)
           (fun l => href_matches email_scanner.indeed_href (here l) = true));
    [intros s l; apply scanner_indeed_step_shaped
    | apply find_all_links_match | constructor].
Qed.

Lemma local_linkedin_jobs_bounded (jobs : list local_app.job) :
  local_app.parse_linkedin_jobs BeautifulSoup html email_date = Some jobs ->
  Forall local_bounded jobs.
Proof.
  apply (parser_invariant (Forall local_bounded) _ _ _
           (local_linkedin_step_bounded email_date) (Forall_nil_2 _)).
Qed.

Lemma local_indeed_jobs_bounded (jobs : list local_app.job) :
  local_app.parse_indeed_jobs BeautifulSoup html email_date = Some jobs ->
  Forall local_bounded jobs.
Proof.
  apply (parser_invariant (Forall local_bounded) _ _ _
           (local_indeed_step_bounded email_date) (Forall_nil_2 _)).
Qed.

Lemma scanner_linkedin_jobs_bounded :
  Forall scanner_bounded
         (email_scanner.parse_linkedin_jobs BeautifulSoup html email_date).
Proof.
  apply (fold_left_invariant (fun st => Forall scanner_bounded st.2));
    [apply scanner_linkedin_step_bounded | constructor].
Qed.

Lemma scanner_indeed_jobs_bounded :
  Forall scanner_bounded
         (email_scanner.parse_indeed_jobs BeautifulSoup html email_date).
Proof.
  apply (fold_left_invariant (fun st => Forall scanner_bounded st.2));
    [apply scanner_indeed_step_bounded | constructor].
Qed.

End ParsedRecords.

(** X3. Every record the LinkedIn and Indeed parsers of [local_app.py] and
    of the e-mail scanner return has an address in which the parser's link
    pattern is found, the parser's source tag, the date of the e-mail, a
    title of at least three characters, and as id the identity of its
    address, its title before the cut to 200 characters, and its company. *)
Theorem email_parsers_record_shape
    (BeautifulSoup : str -> list node) (html email_date : str) :
  (forall jobs,
     local_app.parse_linkedin_jobs BeautifulSoup html email_date = Some jobs ->
     Forall (local_shaped local_app.linkedin_href (u "linkedin") email_date)
            jobs)
  /\ (forall jobs,
        local_app.parse_indeed_jobs BeautifulSoup html email_date = Some jobs ->
        Forall (local_shaped local_app.indeed_href (u "indeed") email_date)
               jobs)
  /\ Forall (scanner_shaped email_scanner.linkedin_href (u "linkedin") email_date)
            (email_scanner.parse_linkedin_jobs BeautifulSoup html email_date)
  /\ Forall (scanner_shaped email_scanner.indeed_href (u "indeed") email_date)
            (email_scanner.parse_indeed_jobs BeautifulSoup html email_date).
Proof.
  split; [apply local_linkedin_jobs_shaped |].
  split; [apply local_indeed_jobs_shaped |].
  split; [apply scanner_linkedin_jobs_shaped | apply scanner_indeed_jobs_shaped].
Qed.







(** ** From the parsers to the table *)

Lemma Forall_flat_map_intro {A B : Type} (P : B -> Prop) (f : A -> list B)
    (l : list A) :
  (forall x, x ∈ l -> Forall P (f x)) -> Forall P (flat_map f l).
Proof.
  induction l as [| x l IH]; intros H; [constructor |].
  cbn [flat_map]. apply Forall_app. split.
  - apply H. left.
  - apply IH. intros y Hy. apply H. right. exact Hy.
Qed.

Lemma scan_query_records (P : local_app.job -> Prop)
    (parse : str -> str -> option (list local_app.job))
    (messages : list (str * str)) :
  (forall html email_date jobs,
     parse html email_date = Some jobs -> Forall P jobs) ->
  Forall P (local_app.scan_query parse messages).
Proof.
  intros Hp. induction messages as [| [email_date html] rest IH];
    [constructor |].
  cbn [local_app.scan_query].
  destruct (parse html email_date) as [jobs |] eqn:E; [| constructor].
  apply Forall_app. split; [apply (Hp _ _ _ E) | exact IH].
Qed.

Lemma scan_emails_records
    (BeautifulSoup : str -> list node) (gmail : str -> list (str * str))
    (after_date : str) :
  Forall (fun j => local_bounded j
                   /\ (local_app.source j = u "linkedin"
                       \/ local_app.source j = u "indeed"))
         (local_app.scan_emails BeautifulSoup gmail after_date).
Proof.
  unfold local_app.scan_emails. cbv zeta.
  apply Forall_flat_map_intro. intros query _.
  apply scan_query_records. intros html email_date jobs Hj.
  destruct (contains (u "linkedin") query).
  - pose proof (local_linkedin_jobs_bounded BeautifulSoup html email_date _ Hj) as B.
    pose proof (local_linkedin_jobs_shaped BeautifulSoup html email_date _ Hj) as Sh.
    rewrite Forall_forall in *. intros j Hin. split; [apply B, Hin |].
    left. apply (Sh j Hin).
  - pose proof (local_indeed_jobs_bounded BeautifulSoup html email_date _ Hj) as B.
    pose proof (local_indeed_jobs_shaped BeautifulSoup html email_date _ Hj) as Sh.
    rewrite Forall_forall in *. intros j Hin. split; [apply B, Hin |].
    right. apply (Sh j Hin).
Qed.

(** X5. A row [api_scan] adds under an id comes from the first record of
    the batch with that id (a later record with the same id is passed
    over); it copies that record's fields, starts with the status ["new"],
    the score 0 and no analysis, cover letter or notes, and keeps the
    parsers' bounds and source tags. *)
Theorem api_scan_inserts_first_record
    (BeautifulSoup : str -> list node) (gmail : str -> list (str * str))
    (after_date now : str) (conn : gmap str local_app.row)
    (id : str) (r : local_app.row) :
  conn !! id = None ->
  (local_app.api_scan BeautifulSoup gmail after_date now conn).1 !! id = Some r ->
  exists before j after,
    local_app.scan_emails BeautifulSoup gmail after_date = before ++ j :: after
    /\ local_app.job_id j = id
    /\ Forall (fun j' => local_app.job_id j' <> id) before
    /\ r = scan_row now j
    /\ local_bounded j
    /\ (local_app.source j = u "linkedin" \/ local_app.source j = u "indeed").
Proof.
  intros Hn Hr.
  destruct (api_scan_outcome BeautifulSoup gmail after_date now conn)
    as [[E _] | (k & E & _ & _)]; rewrite E in Hr; cbn [fst] in Hr;
    [congruence |].
  destruct (merge_first local_app.job_id (scan_row now)
              (local_app.scan_emails BeautifulSoup gmail after_date)
              (conn, 0) id r Hn Hr)
    as (before & j & after & E' & Hk & Hb & ->).
  clear E. rename E' into E.
  exists before, j, after. repeat (split; [assumption || reflexivity |]).
  pose proof (scan_emails_records BeautifulSoup gmail after_date) as R.
  rewrite E in R. apply Forall_app in R. destruct R as [_ R].
  apply Forall_cons in R. destruct R as [[Rb Rs] _]. split; assumption.
Qed.

Lemma api_scan_inserts_first_record_witness :
  exists before j after,
    local_app.scan_emails (fun _ => scenario_soup) scenario_gmail (u "2026/01/01")
    = before ++ j :: after
    /\ local_app.job_id j = local_app.job_id scenario_local_job
    /\ Forall (fun j' => local_app.job_id j'
                         <> local_app.job_id scenario_local_job) before
    /\ scan_row (u "2026-01-05T12:00:00") scenario_local_job
       = scan_row (u "2026-01-05T12:00:00") j
    /\ local_bounded j
    /\ (local_app.source j = u "linkedin" \/ local_app.source j = u "indeed").
Proof.
  apply (api_scan_inserts_first_record (fun _ => scenario_soup) scenario_gmail
           (u "2026/01/01") (u "2026-01-05T12:00:00") ∅
           (local_app.job_id scenario_local_job)
           (scan_row (u "2026-01-05T12:00:00") scenario_local_job)).
  - reflexivity.
  - vm_compute. reflexivity.
Defined.

(** ** The feed scan, further *)






(** The scan of a feed with one fresh item into an empty table raises. *)
Example wwr_scan_raises_on_new_job :
  local_app.api_scan_wwr plain_text_soup (one_feed (rss [marked_item]))
    sample_parsedate sample_isoformat sample_now (u "2026-11-04T12:00:00") ∅
  = (∅, None).
Proof. vm_compute. reflexivity. Qed.

(** X7. The look-back test works for a naive publication date: an item
    whose [pubDate] parses to a naive datetime is returned only when that
    date is not before the cutoff, and the record then carries that date. *)
Theorem wwr_naive_date_filtered
    (BeautifulSoup : str -> list node)
    (parsedate_to_datetime : str -> option datetime)
    (isoformat : datetime -> str) (cutoff now published : Z)
    (item pub_date_elem : element) (c : N) (text : str) (j : local_app.job) :
  elem_find (u "pubDate") item = Some pub_date_elem ->
  elem_text pub_date_elem = Some (c :: text) ->
  parsedate_to_datetime (c :: text) = Some (Naive published) ->
  local_app.wwr_item BeautifulSoup parsedate_to_datetime isoformat
    (Naive cutoff) now item = Append j ->
  cutoff <= published
  /\ local_app.created_at j = isoformat (Naive published).
Proof.
  intros Hf Ht Hp. unfold local_app.wwr_item. cbv zeta.
  destruct (elem_find (u "title") item) as [title_elem |]; [| discriminate].
  destruct (elem_find (u "link") item) as [link_elem |]; [| discriminate].
  destruct (negb (elem_bool title_elem) || negb (elem_bool link_elem));
    [discriminate |].
  rewrite Hf. unfold local_app.parse_date. rewrite Ht, Hp.
  cbn [datetime_lt]. destruct (published <? cutoff) eqn:E; [discriminate |].
  destruct (generate_job_id _ _ _); [| discriminate].
  intros [= <-]. apply Z.ltb_ge in E. split; [exact E | reflexivity].
Qed.

Lemma wwr_naive_date_filtered_witness :
  sample_now - days 7 <= one_day_ago
  /\ local_app.created_at marked_job = sample_isoformat (Naive one_day_ago).
Proof.
  apply (wwr_naive_date_filtered plain_text_soup sample_parsedate sample_isoformat
           (sample_now - days 7) sample_now one_day_ago marked_item
           (Element (u "pubDate") (Some (u "Tue, 03 Nov 2026 12:00:00 -0000")) [])
           84%N (u "ue, 03 Nov 2026 12:00:00 -0000") marked_job);
    vm_compute; reflexivity.
Defined.

Lemma sublist_flat_map {A B : Type} (f g : A -> list B) (l : list A) :
  (forall x, sublist (f x) (g x)) -> sublist (flat_map f l) (flat_map g l).
Proof.
  intros H. induction l as [| x l IH]; [constructor |].
  cbn [flat_map]. apply sublist_app; [apply H | exact IH].
Qed.

(** X8. A feed that fails costs only its own records: when some feeds of
    a network fail and the others answer as before, the scan returns a
    sublist of what it returned before, in the same order; when every feed
    fails it returns the empty list. *)
Theorem wwr_failing_feed_drops_only_its_jobs
    (BeautifulSoup : str -> list node)
    (parsedate_to_datetime : str -> option datetime)
    (isoformat : datetime -> str) (days_back now : Z)
    (fetch_feed degraded : str -> option element) :
  (forall feed_url, degraded feed_url = None
                    \/ degraded feed_url = fetch_feed feed_url) ->
  sublist
    (local_app.fetch_wwr_jobs BeautifulSoup degraded parsedate_to_datetime
       isoformat days_back now)
    (local_app.fetch_wwr_jobs BeautifulSoup fetch_feed parsedate_to_datetime
       isoformat days_back now)
  /\ local_app.fetch_wwr_jobs BeautifulSoup (fun _ => None)
       parsedate_to_datetime isoformat days_back now = [].
Proof.
  intros H. split; [| reflexivity].
  unfold local_app.fetch_wwr_jobs. cbv zeta.
  apply sublist_flat_map. intros feed_url.
  destruct (H feed_url) as [-> | ->]; [apply sublist_nil_l | reflexivity].
Qed.

Lemma wwr_failing_feed_drops_only_its_jobs_witness :
  sublist
    (local_app.fetch_wwr_jobs plain_text_soup (fun _ => None) sample_parsedate
       sample_isoformat 7 sample_now)
    (local_app.fetch_wwr_jobs plain_text_soup (one_feed (rss [marked_item]))
       sample_parsedate sample_isoformat 7 sample_now)
  /\ local_app.fetch_wwr_jobs plain_text_soup (fun _ => None)
       sample_parsedate sample_isoformat 7 sample_now = [].
Proof.
  apply (wwr_failing_feed_drops_only_its_jobs plain_text_soup sample_parsedate
           sample_isoformat 7 sample_now (one_feed (rss [marked_item]))
           (fun _ => None)).
  intros feed_url. left. reflexivity.
Defined.

(** ** Source detection and the registry *)

Lemma get_parser_registered (source : str) (cls : app_parsers.parser)
    (instances : gmap str app_parsers.parser) :
  app_parsers.PARSER_REGISTRY !! source = Some cls ->
  instances ⊆ app_parsers.PARSER_REGISTRY ->
  app_parsers.get_parser source instances
  = (Some cls, <[ source := cls ]> instances).
Proof.
  intros Hr Hsub. unfold app_parsers.get_parser. rewrite Hr.
  destruct (instances !! source) as [c |] eqn:E.
  - pose proof (lookup_weaken _ _ _ _ E Hsub) as Hc.
    rewrite Hr in Hc. injection Hc as <-.
    rewrite E, insert_id by exact E. reflexivity.
  - rewrite lookup_insert_eq. reflexivity.
Qed.

(** X9. [get_parser] keeps one instance per source: for a registered source
    it returns the instance of the registered class and the cache gains
    that entry only, staying within the registry; a second call returns
    the same instance and leaves the cache as it is; for a source that is
    not registered it returns [None] and leaves the cache untouched. *)
Theorem get_parser_caches_registered
    (source : str) (instances : gmap str app_parsers.parser) :
  instances ⊆ app_parsers.PARSER_REGISTRY ->
  match app_parsers.PARSER_REGISTRY !! source with
  | Some cls =>
      let first := app_parsers.get_parser source instances in
      first = (Some cls, <[ source := cls ]> instances)
      /\ first.2 ⊆ app_parsers.PARSER_REGISTRY
      /\ (forall other, other <> source -> first.2 !! other = instances !! other)
      /\ app_parsers.get_parser source first.2 = (Some cls, first.2)
  | None => app_parsers.get_parser source instances = (None, instances)
  end.
Proof.
  intros Hsub.
  destruct (app_parsers.PARSER_REGISTRY !! source) as [cls |] eqn:Hr.
  - cbv zeta. rewrite (get_parser_registered _ _ _ Hr Hsub). cbn [snd].
    assert (Hsub' : <[ source := cls ]> instances ⊆ app_parsers.PARSER_REGISTRY)
      by (apply insert_subseteq_l; assumption).
    split; [reflexivity |]. split; [exact Hsub' |]. split.
    + intros other Ho. apply lookup_insert_ne. congruence.
    + rewrite (get_parser_registered _ _ _ Hr Hsub'), insert_insert_eq.
      reflexivity.
  - unfold app_parsers.get_parser. rewrite Hr. reflexivity.
Qed.

Lemma get_parser_caches_registered_witness :
  let first := app_parsers.get_parser (u "indeed") ∅ in
  first = (Some app_parsers.IndeedParser,
           <[ u "indeed" := app_parsers.IndeedParser ]> ∅)
  /\ first.2 ⊆ app_parsers.PARSER_REGISTRY
  /\ (forall other, other <> u "indeed" ->
      first.2 !! other = (∅ : gmap str app_parsers.parser) !! other)
  /\ app_parsers.get_parser (u "indeed") first.2
     = (Some app_parsers.IndeedParser, first.2).
Proof.
  cbv zeta.
  apply (get_parser_caches_registered (u "indeed") ∅).
  apply map_empty_subseteq.
Defined.

Lemma head_filter_cons {A : Type} (P : A -> Prop) `{forall x, Decision (P x)}
    (x : A) (l : list A) :
  head (filter P (x :: l))
  = if decide (P x) then Some x else head (filter P l).
Proof. rewrite filter_cons. destruct (decide (P x)); reflexivity. Qed.

Lemma detect_source_chain (html : str) :
  let has (marker : string) := contains (u marker) (lower html) in
  app_parsers.detect_source html
  = (if has "linkedin.com/jobs/view"%string || has "linkedin.com/comm/jobs"%string
     then Some (u "linkedin")
     else if has "indeed.com/viewjob"%string || has "indeed.com/rc/clk"%string
     then Some (u "indeed")
     else if has "greenhouse.io"%string || has "boards.greenhouse.io"%string
     then Some (u "greenhouse")
     else if has "wellfound.com"%string || has "angel.co"%string
     then Some (u "wellfound")
     else None).
Proof.
  cbv zeta. unfold app_parsers.detect_source, app_parsers.patterns. cbv zeta.
  generalize (lower html). intros h.
  do 8 (rewrite head_filter_cons; cbn [fst];
        match goal with
        | |- context [decide (Is_true (contains ?m h))] =>
            destruct (contains m h);
            [ rewrite decide_True by exact I; reflexivity
            | rewrite decide_False by (intros []) ]
        end).
  reflexivity.
Qed.

(** X11. A source the detector names always has a parser: the detector
    answers with one of the four e-mail sources, each registered, so
    [parse_email] without a hint returns what the parser of the detected
    source returns; with a hint that is registered it returns what the
    parser of the hint returns, whatever the markers in the text. In both
    cases the cache gains the instance used and nothing else. *)
Theorem parse_email_dispatches
    (BeautifulSoup : str -> list node) (clean_job_url : str -> str)
    (linkedin greenhouse wellfound wwr : str -> str -> list app_parsers.job)
    (html email_date : str) (instances : gmap str app_parsers.parser) :
  instances ⊆ app_parsers.PARSER_REGISTRY ->
  let run := app_parsers.parse_email BeautifulSoup clean_job_url
               linkedin greenhouse wellfound wwr html email_date in
  let parse := app_parsers.parse BeautifulSoup clean_job_url
                 linkedin greenhouse wellfound wwr in
  (forall source,
     app_parsers.detect_source html = Some source ->
     source ∈ [u "linkedin"; u "indeed"; u "greenhouse"; u "wellfound"]
     /\ exists cls,
          app_parsers.PARSER_REGISTRY !! source = Some cls
          /\ run None instances
             = (parse cls html email_date, <[ source := cls ]> instances))
  /\ (forall hint cls,
        app_parsers.PARSER_REGISTRY !! hint = Some cls ->
        run (Some hint) instances
        = (parse cls html email_date, <[ hint := cls ]> instances)).
Proof.
  intros Hsub. cbv zeta. split.
  - intros source Hd.
    assert (Hin : source ∈ [u "linkedin"; u "indeed"; u "greenhouse";
                            u "wellfound"]).
    { pose proof (detect_source_chain html) as C. cbv zeta in C.
      rewrite C in Hd. clear C.
      repeat match type of Hd with
             | (if ?b then _ else _) = _ => destruct b
             end; try discriminate; injection Hd as <-;
        repeat first [apply list_elem_of_here | apply list_elem_of_further]. }
    split; [exact Hin |].
    assert (Hr : exists cls, app_parsers.PARSER_REGISTRY !! source = Some cls).
    { repeat (apply elem_of_cons in Hin; destruct Hin as [-> | Hin];
              [eexists; vm_compute; reflexivity |]).
      apply elem_of_nil in Hin. destruct Hin. }
    destruct Hr as [cls Hr]. exists cls. split; [exact Hr |].
    unfold app_parsers.parse_email. rewrite Hd.
    rewrite (get_parser_registered _ _ _ Hr Hsub). reflexivity.
  - intros hint cls Hr. unfold app_parsers.parse_email.
    rewrite (get_parser_registered _ _ _ Hr Hsub). reflexivity.
Qed.

Lemma parse_email_dispatches_witness :
  app_parsers.parse_email plain_text_soup id no_jobs no_jobs no_jobs no_jobs
    (u "New jobs on linkedin.com/jobs/view/123") (u "2026-01-05T09:00:00")
    (Some (u "indeed")) ∅
  = (app_parsers.parse plain_text_soup id no_jobs no_jobs no_jobs no_jobs
       app_parsers.IndeedParser
       (u "New jobs on linkedin.com/jobs/view/123") (u "2026-01-05T09:00:00"),
     <[ u "indeed" := app_parsers.IndeedParser ]> ∅).
Proof.
  apply (proj2 (parse_email_dispatches plain_text_soup id no_jobs no_jobs
                  no_jobs no_jobs (u "New jobs on linkedin.com/jobs/view/123")
                  (u "2026-01-05T09:00:00") ∅ (map_empty_subseteq _))
           (u "indeed") app_parsers.IndeedParser).
  vm_compute. reflexivity.
Defined.

(** ** The capture endpoint, further *)


(** The capture of the scenario raises on the empty table, where the
    [INSERT] is reached, and a capture of the same page without company
    raises on the table that holds its id, where the [UPDATE] is reached. *)
Example capture_scenario_raises :
  let bare := JDict {[ u "url" := JStr scenario_url;
                       u "title" := JStr (u "Senior Backend Engineer") ]} in
  local_app.api_capture sample_str_of capture_request (u "2026-01-08T08:00:00") ∅
  = (∅, None)
  /\ generate_job_id scenario_url (u "Senior Backend Engineer") []
     = Some (u "9677f89a7ab4989b")
  /\ is_Some (scanned_table !! u "9677f89a7ab4989b")
  /\ (local_app.api_capture sample_str_of bare (u "2026-01-08T08:00:00")
        scanned_table).2
     = None.
Proof.
  cbv zeta. split; [vm_compute; reflexivity |].
  split; [vm_compute; reflexivity |].
  split; [vm_compute; eauto |].
  vm_compute. reflexivity.
Qed.

(** ** Scoring and cover letters *)

(** X15. [api_analyze] rescans only the rows whose score is 0: a row with
    another score is left exactly as it is, no row is created or deleted,
    and a row it analyses keeps every column but [status], [score],
    [analysis] and [updated_at]; its status is set to ["interested"] or
    ["new"] from the analysis, whatever it was before. Without a resume the
    route answers 400 and leaves the table as it is. *)
Theorem api_analyze_rescores_unscored_only
    (analyze_job : str -> local_app.row -> str -> local_app.analysis)
    (resume_text now : str) (conn : gmap str local_app.row) :
  local_app.api_analyze analyze_job [] now conn
  = (conn, Response [ (u "error", JStr (u "No resumes found")) ] 400)
  /\ (resume_text <> [] ->
      let r := local_app.api_analyze analyze_job resume_text now conn in
      dom r.1 = dom conn
      /\ (forall id row,
            conn !! id = Some row -> local_app.r_score row <> 0 ->
            r.1 !! id = Some row)
      /\ (forall id row,
            conn !! id = Some row -> local_app.r_score row = 0 ->
            exists row',
              r.1 !! id = Some row'
              /\ same_but_scoring row row'
              /\ local_app.r_score row'
                 = local_app.qualification_score
                     (analyze_job id row resume_text)
              /\ local_app.r_status row'
                 = (if local_app.should_apply (analyze_job id row resume_text)
                    then u "interested" else u "new")
              /\ local_app.r_updated_at row' = now)
      /\ r.2 = jsonify
                 [ (u "analyzed",
                    JInt (Z.of_nat
                            (size (filter
                                     (fun kr : str * local_app.row =>
                                        local_app.r_score kr.2 = 0)
                                     conn)))) ]).
Proof.
  split; [reflexivity |].
  intros Hr. cbv zeta. unfold local_app.api_analyze.
  assert (E : str_eqb resume_text [] = false)
    by (unfold str_eqb; apply bool_decide_eq_false_2, Hr).
  rewrite E. cbn [fst snd].
  split; [| split; [| split; [| reflexivity]]].
  - apply set_eq. intros id. rewrite !elem_of_dom, map_lookup_imap.
    destruct (conn !! id); cbn; split; intros [x Hx]; eauto; discriminate.
  - intros id row Hrow Hs. rewrite map_lookup_imap, Hrow. cbn.
    apply Z.eqb_neq in Hs. rewrite Hs. reflexivity.
  - intros id row Hrow Hs. rewrite map_lookup_imap, Hrow. cbn.
    rewrite Hs. cbn. eexists. split; [reflexivity |].
    split; [repeat split |]. repeat split.
Qed.

Lemma api_analyze_rescores_unscored_only_witness :
  let judge (id : str) (r : local_app.row) (resume : str) :=
    local_app.Analysis 72 false (u "{}") in
  let r := local_app.api_analyze judge (u "Ten years of Python.")
             (u "2026-01-09T08:00:00") scanned_table in
  dom r.1 = dom scanned_table
  /\ forall id row,
       scanned_table !! id = Some row -> local_app.r_score row <> 0 ->
       r.1 !! id = Some row.
Proof.
  cbv zeta.
  destruct (proj2 (api_analyze_rescores_unscored_only
                     (fun _ _ _ => local_app.Analysis 72 false (u "{}"))
                     (u "Ten years of Python.") (u "2026-01-09T08:00:00")
                     scanned_table)) as (Hd & Hk & _).
  - discriminate.
  - split; [exact Hd | exact Hk].
Defined.

(** X16. [api_cover_letter] writes the letter into the row of the id and
    changes that row's [cover_letter] and [updated_at] only; every other
    row is left as it is; for an id without a row, or when the id or the
    letter holds a surrogate and cannot be bound, the request fails before
    anything is written. *)
Theorem api_cover_letter_writes_letter_only
    (generate_cover_letter : str -> local_app.row -> str -> str)
    (job_id resume_text now : str) (conn : gmap str local_app.row) :
  let r := local_app.api_cover_letter generate_cover_letter job_id
             resume_text now conn in
  match conn !! job_id with
  | None => r = (conn, None)
  | Some job =>
      let letter := generate_cover_letter job_id job resume_text in
      if bindable job_id && bindable letter then
        r.2 = Some (jsonify [ (u "cover_letter", JStr letter) ])
        /\ dom r.1 = dom conn
        /\ (forall id, id <> job_id -> r.1 !! id = conn !! id)
        /\ exists row,
             r.1 !! job_id = Some row
             /\ local_app.r_cover_letter row = Some letter
             /\ local_app.r_updated_at row = now
             /\ same_but_letter job row
      else r = (conn, None)
  end.
Proof.
  cbv zeta. unfold local_app.api_cover_letter.
  destruct (conn !! job_id) as [job |] eqn:E;
    [| destruct (bindable job_id); reflexivity].
  destruct (bindable job_id); [| reflexivity]. cbn [negb andb].
  destruct (bindable (generate_cover_letter job_id job resume_text));
    [| reflexivity].
  cbn [fst snd]. split; [reflexivity |]. split.
  { rewrite dom_insert_L.
    assert (job_id ∈ dom conn) by (apply elem_of_dom; eauto). set_solver. }
  split; [intros id Hid; apply lookup_insert_ne; congruence |].
  eexists. split; [apply lookup_insert_eq |]. repeat split.
Qed.

(** A letter for the stored job of the scenario is written; a letter that
    holds a surrogate is not. *)
Example cover_letter_scenario :
  let write (letter : str) :=
    local_app.api_cover_letter (fun _ _ _ => letter) (u "9677f89a7ab4989b")
      (u "Ten years of Python.") (u "2026-01-09T08:00:00") scanned_table in
  (local_app.r_cover_letter
     <$> (write (u "Dear team,")).1 !! u "9677f89a7ab4989b")
  = Some (Some (u "Dear team,"))
  /\ (write (u "Dear team,")).2
     = Some (jsonify [ (u "cover_letter", JStr (u "Dear team,")) ])
  /\ (write (u "Dear team " ++ [55357%N])).2 = None.
Proof. cbv zeta. split; [| split]; vm_compute; reflexivity. Qed.

(** ** Message bodies *)

Section LocalBodies.

Variable decode : str -> option str.
Variable nested : payload -> option str.

Lemma local_parts_loop_skips (before rest : list payload) :
  Forall flat_part before ->
  Forall not_html_data before ->
  local_app.parts_loop decode nested (before ++ rest)
  = local_app.parts_loop decode nested rest.
Proof.
  induction before as [| q before IH]; intros Hf Hn; [reflexivity |].
  apply Forall_cons in Hf. destruct Hf as [Hq Hf].
  apply Forall_cons in Hn. destruct Hn as [Hq' Hn].
  cbn [app local_app.parts_loop]. unfold flat_part in Hq. rewrite Hq.
  destruct Hq' as [-> | ->].
  - apply IH; assumption.
  - destruct (str_eqb _ _); apply IH; assumption.
Qed.

End LocalBodies.

(** X17. [get_email_body] of [local_app.py] on a message without a body
    of its own and with parts that have no parts themselves returns the
    decoded data of the first [text/html] part that has data, and the
    empty text when there is none: text/plain parts are never read. *)
Theorem local_get_email_body_first_html
    (decode : str -> option str) (mime : str) (data : option str)
    (before : list payload) :
  data = None \/ data = Some [] ->
  Forall flat_part before ->
  Forall not_html_data before ->
  local_app.get_email_body decode (Payload mime data (Some before)) = Some []
  /\ forall part d after,
       payload_mime part = u "text/html" ->
       payload_data part = Some d ->
       local_app.get_email_body decode
         (Payload mime data (Some (before ++ part :: after)))
       = decode d.
Proof.
  intros Hd Hf Hn.
  assert (E : forall parts,
            local_app.get_email_body decode (Payload mime data (Some parts))
            = local_app.parts_loop decode (local_app.get_email_body decode) parts).
  { intros parts. destruct Hd as [-> | ->]; reflexivity. }
  split.
  - rewrite E. rewrite <- (app_nil_r before).
    rewrite local_parts_loop_skips by assumption. reflexivity.
  - intros part d after Hm Hp. rewrite E.
    rewrite local_parts_loop_skips by assumption.
    cbn [local_app.parts_loop]. rewrite Hm, Hp. reflexivity.
Qed.

Lemma local_get_email_body_first_html_witness :
  local_app.get_email_body sample_decode alternative_message
  = Some (u "<b>html</b>").
Proof.
  apply (proj2 (local_get_email_body_first_html sample_decode
                  (u "multipart/alternative") None
                  [Payload (u "text/plain") (Some (u "cGxhaW4=")) None]
                  (or_introl eq_refl)
                  ltac:(repeat constructor)
                  ltac:(repeat constructor; left; vm_compute; reflexivity))
           (Payload (u "text/html") (Some (u "PGI-aHRtbDwvYj4=")) None)
           (u "PGI-aHRtbDwvYj4=") []);
    reflexivity.
Defined.

Section ScannerBodies.

Variable decode : str -> option str.
Variable nested : payload -> option str.

Lemma scanner_parts_loop_reaches (before rest : list payload) (body : str) :
  Forall flat_part before ->
  Forall not_html_data before ->
  Forall (fun q => forall d, payload_data q = Some d -> is_Some (decode d))
         before ->
  exists body',
    email_scanner.parts_loop decode nested (before ++ rest) body
    = email_scanner.parts_loop decode nested rest body'.
Proof.
  revert body. induction before as [| q before IH]; intros body Hf Hn Hd.
  - exists body. reflexivity.
  - apply Forall_cons in Hf. destruct Hf as [Hq Hf].
    apply Forall_cons in Hn. destruct Hn as [Hq' Hn].
    apply Forall_cons in Hd. destruct Hd as [Hq'' Hd].
    cbn [app email_scanner.parts_loop]. unfold flat_part in Hq. rewrite Hq.
    destruct (str_eqb (payload_mime q) (u "text/html")) eqn:Eh.
    + destruct Hq' as [Hq' | ->]; [congruence |]. apply IH; assumption.
    + destruct (str_eqb (payload_mime q) (u "text/plain") && str_eqb body []).
      * destruct (payload_data q) as [d |] eqn:Ed; [| apply IH; assumption].
        destruct (Hq'' d eq_refl) as [b ->]. apply IH; assumption.
      * apply IH; assumption.
Qed.

Lemma scanner_parts_loop_keeps (after : list payload) (c : N) (t : str) :
  Forall flat_part after ->
  Forall (fun q => str_eqb (payload_mime q) (u "text/html") = false) after ->
  email_scanner.parts_loop decode nested after (c :: t) = Some (c :: t).
Proof.
  induction after as [| q after IH]; intros Hf Hn; [reflexivity |].
  apply Forall_cons in Hf. destruct Hf as [Hq Hf].
  apply Forall_cons in Hn. destruct Hn as [Hq' Hn].
  cbn [email_scanner.parts_loop]. unfold flat_part in Hq.
  rewrite Hq, Hq'. unfold str_eqb at 2.
  rewrite bool_decide_eq_false_2 by discriminate. rewrite andb_false_r.
  apply IH; assumption.
Qed.

End ScannerBodies.

(** X18. [get_email_body] of the e-mail scanner prefers HTML: on a
    message without a body of its own, the first [text/html] part that has
    data gives the body even when text/plain parts stand before it; and
    when no part is [text/html], a text/plain part whose text is not empty
    gives the body, the parts after it being passed over. *)
Theorem scanner_get_email_body_prefers_html
    (decode : str -> option str) (mime : str) (data : option str)
    (before after : list payload) (part : payload) (d : str) :
  data = None \/ data = Some [] ->
  Forall flat_part before ->
  Forall not_html_data before ->
  Forall (fun q => forall d, payload_data q = Some d -> is_Some (decode d))
         before ->
  payload_data part = Some d ->
  (payload_mime part = u "text/html" ->
   email_scanner.get_email_body decode
     (Payload mime data (Some (before ++ part :: after)))
   = decode d)
  /\ (payload_mime part = u "text/plain" ->
      Forall (fun q => payload_data q = None) before ->
      Forall flat_part after ->
      Forall (fun q => str_eqb (payload_mime q) (u "text/html") = false) after ->
      forall c t, decode d = Some (c :: t) ->
      email_scanner.get_email_body decode
        (Payload mime data (Some (before ++ part :: after)))
      = Some (c :: t)).
Proof.
  intros Hd Hf Hn Hdec Hp.
  assert (E : forall parts,
            email_scanner.get_email_body decode (Payload mime data (Some parts))
            = email_scanner.parts_loop decode
                (email_scanner.get_email_body decode) parts []).
  { intros parts. destruct Hd as [-> | ->]; reflexivity. }
  split.
  - intros Hm. rewrite E.
    destruct (scanner_parts_loop_reaches decode
                (email_scanner.get_email_body decode) before (part :: after) []
                Hf Hn Hdec) as [body' ->].
    cbn [email_scanner.parts_loop]. rewrite Hm, Hp. reflexivity.
  - intros Hm Hnone Hfa Hna c t Hc. rewrite E.
    assert (B : forall rest,
              email_scanner.parts_loop decode
                (email_scanner.get_email_body decode) (before ++ rest) []
              = email_scanner.parts_loop decode
                  (email_scanner.get_email_body decode) rest []).
    { intros rest. clear Hn Hdec.
      induction before as [| q before IH]; [reflexivity |].
      apply Forall_cons in Hf. destruct Hf as [Hq Hf].
      apply Forall_cons in Hnone. destruct Hnone as [Hq' Hnone].
      cbn [app email_scanner.parts_loop]. unfold flat_part in Hq.
      rewrite Hq, Hq'.
      destruct (str_eqb (payload_mime q) (u "text/html"));
        [apply IH; assumption |].
      destruct (_ && _); apply IH; assumption. }
    rewrite B. cbn [email_scanner.parts_loop]. rewrite Hm, Hp, Hc.
    cbn. apply scanner_parts_loop_keeps; assumption.
Qed.

Lemma scanner_get_email_body_prefers_html_witness :
  email_scanner.get_email_body sample_decode alternative_message
  = Some (u "<b>html</b>").
Proof.
  apply (proj1 (scanner_get_email_body_prefers_html sample_decode
                  (u "multipart/alternative") None
                  [Payload (u "text/plain") (Some (u "cGxhaW4=")) None] []
                  (Payload (u "text/html") (Some (u "PGI-aHRtbDwvYj4=")) None)
                  (u "PGI-aHRtbDwvYj4=")
                  (or_introl eq_refl)
                  ltac:(repeat constructor)
                  ltac:(repeat constructor; left; vm_compute; reflexivity)
                  ltac:(repeat constructor; intros d [= <-]; vm_compute; eauto)
                  eq_refl)).
  reflexivity.
Defined.

(** ** Routing of the Gmail queries *)

Lemma startswith_app (p a b : str) :
  startswith p a = true -> startswith p (a ++ b) = true.
Proof.
  revert a. induction p as [| x p IH]; intros a H; [reflexivity |].
  destruct a as [| y a]; [discriminate |].
  cbn [startswith app] in *. apply andb_prop in H. destruct H as [-> H].
  cbn. apply IH, H.
Qed.

Lemma contains_app (p a b : str) :
  contains p a = true -> contains p (a ++ b) = true.
Proof.
  induction a as [| y a IH]; intros H.
  - cbn in H. rewrite orb_false_r in H.
    destruct p; [destruct b; reflexivity | discriminate].
  - cbn [contains app] in *. apply orb_prop in H. destruct H as [H | H].
    + pose proof (startswith_app _ (y :: a) b H) as Hs. cbn [app] in Hs.
      rewrite Hs. reflexivity.
    + rewrite (IH H). apply orb_true_r.
Qed.

(** X19. [scan_emails] hands the messages of the LinkedIn queries to the
    LinkedIn parser and those of the Indeed queries to the Indeed parser,
    in the order of the queries, when the look-back date does not spell
    "linkedin" (a formatted date never does); the e-mail scanner does the
    same over its four queries and passes over a message whose body is
    empty. *)
Theorem scan_emails_routes_by_sender
    (BeautifulSoup : str -> list node) (gmail : str -> list (str * str))
    (after_date : str) :
  contains (u "linkedin") after_date = false ->
  local_app.scan_emails BeautifulSoup gmail after_date
  = local_app.scan_query (local_app.parse_linkedin_jobs BeautifulSoup)
      (gmail (u "from:jobs-noreply@linkedin.com after:" ++ after_date))
    ++ local_app.scan_query (local_app.parse_linkedin_jobs BeautifulSoup)
         (gmail (u "from:jobalerts-noreply@linkedin.com after:" ++ after_date))
    ++ local_app.scan_query (local_app.parse_indeed_jobs BeautifulSoup)
         (gmail (u "from:noreply@indeed.com subject:job after:" ++ after_date))
  /\ email_scanner.scan_emails BeautifulSoup gmail after_date
     = flat_map (fun m => if str_eqb m.2 [] then []
                          else email_scanner.parse_linkedin_jobs BeautifulSoup
                                 m.2 m.1)
         (gmail (u "from:jobs-noreply@linkedin.com after:" ++ after_date))
       ++ flat_map (fun m => if str_eqb m.2 [] then []
                             else email_scanner.parse_linkedin_jobs BeautifulSoup
                                    m.2 m.1)
            (gmail (u "from:jobalerts-noreply@linkedin.com after:" ++ after_date))
       ++ flat_map (fun m => if str_eqb m.2 [] then []
                             else email_scanner.parse_indeed_jobs BeautifulSoup
                                    m.2 m.1)
            (gmail (u "from:noreply@indeed.com subject:job after:" ++ after_date))
       ++ flat_map (fun m => if str_eqb m.2 [] then []
                             else email_scanner.parse_indeed_jobs BeautifulSoup
                                    m.2 m.1)
            (gmail (u "from:alert@indeed.com after:" ++ after_date)).
Proof.
  intros Hd.
  assert (L1 : contains (u "linkedin")
                 (u "from:jobs-noreply@linkedin.com after:" ++ after_date) = true)
    by (apply contains_app; vm_compute; reflexivity).
  assert (L2 : contains (u "linkedin")
                 (u "from:jobalerts-noreply@linkedin.com after:" ++ after_date)
               = true)
    by (apply contains_app; vm_compute; reflexivity).
  assert (I1 : contains (u "linkedin")
                 (u "from:noreply@indeed.com subject:job after:" ++ after_date)
               = false)
    by (transitivity (contains (u "linkedin") after_date);
        [vm_compute; reflexivity | exact Hd]).
  assert (I2 : contains (u "linkedin")
                 (u "from:alert@indeed.com after:" ++ after_date) = false)
    by (transitivity (contains (u "linkedin") after_date);
        [vm_compute; reflexivity | exact Hd]).
  split.
  - unfold local_app.scan_emails. cbv zeta. cbn [flat_map].
    rewrite L1, L2, I1, app_nil_r. reflexivity.
  - unfold email_scanner.scan_emails. cbv zeta. cbn [flat_map].
    rewrite L1, L2, I1, I2, app_nil_r.
    f_equal; [| f_equal; [| f_equal]]; apply flat_map_ext; intros [d h];
      reflexivity.
Qed.

Lemma scan_emails_routes_by_sender_witness :
  local_app.scan_emails (fun _ => scenario_soup) scenario_gmail (u "2026/01/01")
  = local_app.scan_query (local_app.parse_linkedin_jobs (fun _ => scenario_soup))
      (scenario_gmail (u "from:jobs-noreply@linkedin.com after:" ++ u "2026/01/01"))
    ++ local_app.scan_query
         (local_app.parse_linkedin_jobs (fun _ => scenario_soup))
         (scenario_gmail
            (u "from:jobalerts-noreply@linkedin.com after:" ++ u "2026/01/01"))
    ++ local_app.scan_query
         (local_app.parse_indeed_jobs (fun _ => scenario_soup))
         (scenario_gmail
            (u "from:noreply@indeed.com subject:job after:" ++ u "2026/01/01")).
Proof.
  apply (proj1 (scan_emails_routes_by_sender (fun _ => scenario_soup)
                  scenario_gmail (u "2026/01/01") eq_refl)).
Defined.

(** X24. In [scan_emails] of [local_app.py] the [try] encloses the loop
    over the messages of a query. While the parser returns, the jobs of
    the messages are gathered in their order; when it raises on a message,
    the jobs of the earlier messages of the query are kept and the later
    messages of the query are not read. *)
Theorem scan_query_stops_at_raise
    (parse : str -> str -> option (list local_app.job))
    (before after : list (str * str)) :
  Forall (fun m => is_Some (parse m.2 m.1)) before ->
  local_app.scan_query parse before
  = flat_map (fun m => default [] (parse m.2 m.1)) before
  /\ forall email_date html,
       parse html email_date = None ->
       local_app.scan_query parse (before ++ (email_date, html) :: after)
       = local_app.scan_query parse before.
Proof.
  induction before as [| [d h] before IH]; intros H.
  - split; [reflexivity |]. intros email_date html E.
    cbn [app local_app.scan_query]. rewrite E. reflexivity.
  - apply Forall_cons in H. destruct H as [[jobs Hj] H]. cbn [fst snd] in Hj.
    destruct (IH H) as [IH1 IH2]. split.
    + cbn [local_app.scan_query flat_map fst snd]. rewrite Hj. cbn [default].
      rewrite IH1. reflexivity.
    + intros email_date html E. cbn [app local_app.scan_query]. rewrite Hj.
      rewrite (IH2 email_date html E). reflexivity.
Qed.

Lemma scan_query_stops_at_raise_witness :
  let parse := local_app.parse_linkedin_jobs sample_BeautifulSoup in
  local_app.scan_query parse
    [ (u "2026-01-05T09:00:00", scenario_html);
      (u "2026-01-06T09:00:00", surrogate_link_html);
      (u "2026-01-07T09:00:00", bare_link_html) ]
  = local_app.scan_query parse [ (u "2026-01-05T09:00:00", scenario_html) ].
Proof.
  cbv zeta.
  apply (proj2 (scan_query_stops_at_raise
                  (local_app.parse_linkedin_jobs sample_BeautifulSoup)
                  [ (u "2026-01-05T09:00:00", scenario_html) ]
                  [ (u "2026-01-07T09:00:00", bare_link_html) ]
                  ltac:(repeat constructor; vm_compute; eauto))
           (u "2026-01-06T09:00:00") surrogate_link_html).
  vm_compute. reflexivity.
Defined.

(** The later message of that mailbox alone gives a job; after the message
    that raises it gives none. *)
Example scan_query_later_message_lost :
  let parse := local_app.parse_linkedin_jobs sample_BeautifulSoup in
  length (local_app.scan_query parse
            [ (u "2026-01-07T09:00:00", bare_link_html) ]) = 1%nat
  /\ length (local_app.scan_query parse
               [ (u "2026-01-05T09:00:00", scenario_html);
                 (u "2026-01-06T09:00:00", surrogate_link_html);
                 (u "2026-01-07T09:00:00", bare_link_html) ]) = 1%nat
  /\ length (local_app.scan_query parse
               [ (u "2026-01-05T09:00:00", scenario_html);
                 (u "2026-01-07T09:00:00", bare_link_html) ]) = 2%nat.
Proof. cbv zeta. split; [| split]; vm_compute; reflexivity. Qed.

(** ** IndeedParser, further *)

Lemma app_indeed_step_shaped (clean_job_url : str -> str) (d : str) st link :
  href_matches app_parsers.Indeed.href (here link) = true ->
  Forall (indeed_shaped clean_job_url d) st.2 ->
  Forall (indeed_shaped clean_job_url d)
         (app_parsers.indeed_step clean_job_url d st link).2.
Proof.
  destruct st as [seen jobs]. intros Hm H. unfold app_parsers.indeed_step.
  destruct (str_eqb (clean_job_url _) []) eqn:Eu; [exact H |]. cbn [orb].
  destruct (bool_decide _); [exact H |]. cbv zeta.
  match goal with |- context [if ?b then _ else _] => destruct b end; [exact H |].
  match goal with |- context [if ?b then _ else _] => destruct b end; [exact H |].
  destruct (find_parent [u "td"; u "div"; u "li"] link);
    try destruct (app_parsers.Indeed.company_location _ _);
    cbn [snd]; (apply Forall_app; split; [exact H |]);
    (constructor; [| constructor]);
    (split; [exact (str_eqb_false _ _ Eu) |]);
    (split; [eexists; split;
             [exact (href_matches_search _ _ Hm) | reflexivity] |]);
    repeat split.
Qed.

(** X20. Every record [IndeedParser.parse] returns has an address that is
    not empty and is the cleaned [href] of an anchor the Indeed link
    pattern matches, the source ["indeed"], and the date of the e-mail as
    [created_at] and as [email_date]. *)
Theorem indeed_parser_record_shape
    (BeautifulSoup : str -> list node) (clean_job_url : str -> str)
    (html email_date : str) :
  Forall (indeed_shaped clean_job_url email_date)
         (app_parsers.IndeedParser_parse BeautifulSoup clean_job_url
            html email_date).
Proof.
  apply (fold_left_invariant_on
           (fun st => Forall (indeed_shaped clean_job_url email_date) st.2)
           (fun l => href_matches app_parsers.Indeed.href (here l) = true));
    [intros s l; apply app_indeed_step_shaped
    | apply find_all_links_match | constructor].
Qed.

Lemma first_index_spec (p : nat -> str -> bool) (lines : list str)
    (lo hi i : nat) :
  app_parsers.Indeed.first_index p lines lo hi = Some i ->
  p i (nth i lines []) = true /\ (lo <= i < hi)%nat.
Proof.
  unfold app_parsers.Indeed.first_index. intros H.
  apply head_Some_elem_of in H. apply list_elem_of_filter in H.
  destruct H as [Hp H]. apply list_elem_of_In, in_seq in H.
  split; [| lia]. destruct (p i (nth i lines [])); [reflexivity | contradiction].
Qed.

(** X21. The company [IndeedParser] reads off the lines of a job card is
    empty or one of the lines after the title line, cut to 100 characters,
    and never a rating line nor a line with a dollar sign; the location is
    empty or one of the at most two lines after the company line, cut to
    100 characters, that mentions "remote", holds a comma or names one of
    the four states. *)
Theorem indeed_company_is_no_salary_line (title : str) (lines : list str) :
  let company := (app_parsers.Indeed.company_location title lines).1 in
  let location := (app_parsers.Indeed.company_location title lines).2 in
  (company = [] /\ location = []
   \/ exists i j,
        (i < j < length lines)%nat /\ (j <= i + 3)%nat
        /\ contains title (nth i lines []) = true
        /\ re_match app_parsers.Indeed.rating (nth j lines []) = false
        /\ contains (u "$") (nth j lines []) = false
        /\ company = take 100 (nth j lines [])
        /\ (location = []
            \/ exists k,
                 (j < k < length lines)%nat /\ (k <= j + 2)%nat
                 /\ app_parsers.Indeed.is_location (nth k lines []) = true
                 /\ location = take 100 (nth k lines []))).
Proof.
  cbv zeta. unfold app_parsers.Indeed.company_location. cbv zeta.
  destruct (app_parsers.Indeed.first_index _ lines 0 _) as [i |] eqn:Ei;
    [| left; split; reflexivity].
  destruct (app_parsers.Indeed.first_index _ lines (i + 1) _) as [j |] eqn:Ej;
    [| left; split; reflexivity].
  right. exists i, j.
  apply first_index_spec in Ei. destruct Ei as [Hi Hir].
  apply first_index_spec in Ej. destruct Ej as [Hj Hjr].
  apply andb_prop in Hi. destruct Hi as [Hi _].
  apply andb_prop in Hi. destruct Hi as [_ Hi].
  apply andb_prop in Hj. destruct Hj as [Hj1 Hj2].
  apply negb_true_iff in Hj1. apply negb_true_iff in Hj2.
  split; [lia |]. split; [lia |].
  split; [exact Hi |]. split; [exact Hj1 |]. split; [exact Hj2 |].
  cbn [fst snd]. split; [reflexivity |].
  destruct (app_parsers.Indeed.first_index _ lines (j + 1) _) as [k |] eqn:Ek;
    [| left; reflexivity].
  right. exists k. apply first_index_spec in Ek. destruct Ek as [Hk Hkr].
  split; [lia |]. split; [lia |]. split; [exact Hk | reflexivity].
Qed.

(** ** The Lambda handler *)

Lemma scanner_scan_emails_records
    (BeautifulSoup : str -> list node) (service : str -> list (str * str))
    (after_date : str) :
  Forall (fun j => scanner_bounded j
                   /\ email_scanner.status j = shared.NEW
                   /\ email_scanner.score j = 0
                   /\ (email_scanner.source j = u "linkedin"
                       \/ email_scanner.source j = u "indeed"))
         (email_scanner.scan_emails BeautifulSoup service after_date).
Proof.
  unfold email_scanner.scan_emails. cbv zeta.
  apply Forall_flat_map_intro. intros query _.
  apply Forall_flat_map_intro. intros [email_date html] _.
  destruct (str_eqb html []); [constructor |].
  destruct (contains (u "linkedin") query).
  - pose proof (scanner_linkedin_jobs_bounded BeautifulSoup html email_date) as B.
    pose proof (scanner_linkedin_jobs_shaped BeautifulSoup html email_date) as Sh.
    rewrite Forall_forall in *. intros j Hj. split; [apply B, Hj |].
    destruct (Sh j Hj) as (_ & Hs & _ & Hst & Hsc & _). auto.
  - pose proof (scanner_indeed_jobs_bounded BeautifulSoup html email_date) as B.
    pose proof (scanner_indeed_jobs_shaped BeautifulSoup html email_date) as Sh.
    rewrite Forall_forall in *. intros j Hj. split; [apply B, Hj |].
    destruct (Sh j Hj) as (_ & Hs & _ & Hst & Hsc & _). auto.
Qed.

(** X22. When the Gmail service cannot be built [lambda_handler] answers
    500 with the error and leaves the table as it is. Otherwise a record it
    adds is stored under the user of the call and its own job id, is the
    first record of the scan with that id, starts with the status [NEW] and
    the score 0, and keeps the parsers' bounds and source tags. *)
Theorem lambda_handler_stores_first_record
    (BeautifulSoup : str -> list node) (service : str -> list (str * str))
    (user_id after_date : str) (table : gmap (str * str) email_scanner.job) :
  (forall e,
     email_scanner.lambda_handler BeautifulSoup (inr e) user_id after_date table
     = (table, Response [ (u "error", JStr e) ] 500))
  /\ forall key r,
       table !! key = None ->
       (email_scanner.lambda_handler BeautifulSoup (inl service)
          user_id after_date table).1 !! key = Some r ->
       key = (user_id, email_scanner.job_id r)
       /\ email_scanner.status r = shared.NEW
       /\ email_scanner.score r = 0
       /\ scanner_bounded r
       /\ (email_scanner.source r = u "linkedin"
           \/ email_scanner.source r = u "indeed")
       /\ exists before after,
            email_scanner.scan_emails BeautifulSoup service after_date
            = before ++ r :: after
            /\ Forall (fun j' => email_scanner.job_id j'
                                 <> email_scanner.job_id r) before.
Proof.
  split; [reflexivity |].
  intros key r Hn Hr. unfold email_scanner.lambda_handler in Hr.
  rewrite (merge_ext _ _ _ (store_step_insert user_id)) in Hr.
  pose proof (merge_first (fun j => (user_id, email_scanner.job_id j)) id
                (email_scanner.scan_emails BeautifulSoup service after_date)
                (table, 0) key r Hn) as F.
  destruct (fold_left _ _ (table, 0)) as [c k]. cbn [fst] in *.
  destruct (F Hr) as (before & j & after & E & Hk & Hb & ->). unfold id in *.
  pose proof (scanner_scan_emails_records BeautifulSoup service after_date) as R.
  rewrite E in R. apply Forall_app in R. destruct R as [_ R].
  apply Forall_cons in R. destruct R as [(Rb & Rst & Rsc & Rs) _].
  split; [symmetry; exact Hk |]. repeat (split; [assumption |]).
  exists before, after. split; [exact E |].
  eapply Forall_impl; [exact Hb |]. cbn. intros j' Hj' Heq. apply Hj'.
  rewrite Heq. exact Hk.
Qed.

(** X23. Every record of the WeWorkRemotely scan carries the source
    ["weworkremotely"], and its id is the identity of its address with the
    job title and the company as they were before the cuts to 200 and 100
    characters. *)
Theorem wwr_record_identity
    (BeautifulSoup : str -> list node) (fetch_feed : str -> option element)
    (parsedate_to_datetime : str -> option datetime)
    (isoformat : datetime -> str) (days_back now : Z) :
  Forall (fun j =>
            local_app.source j = u "weworkremotely"
            /\ exists job_title company,
                 local_app.title j = take 200 job_title
                 /\ local_app.company j = take 100 company
                 /\ generate_job_id (local_app.url j) job_title company
                    = Some (local_app.job_id j))
         (local_app.fetch_wwr_jobs BeautifulSoup fetch_feed parsedate_to_datetime
            isoformat days_back now).
Proof.
  apply Forall_forall. intros j Hj.
  apply fetch_wwr_jobs_from_item in Hj.
  destruct Hj as (_ & _ & item & _ & _ & _ & Hw).
  apply wwr_item_record in Hw.
  destruct Hw as (title_elem & link_elem & _ & _ & _ & _ & Hr).
  cbv zeta in Hr. destruct Hr as (Ht & Hc & _ & _ & Hs & Hid & _).
  split; [exact Hs |]. eexists _, _.
  split; [exact Ht |]. split; [exact Hc | exact Hid].
Qed.

Lemma lambda_handler_stores_first_record_witness :
  let key := (u "default", email_scanner.job_id scenario_scanner_job) in
  key = (u "default", email_scanner.job_id scenario_scanner_job)
  /\ email_scanner.status scenario_scanner_job = shared.NEW
  /\ email_scanner.score scenario_scanner_job = 0
  /\ scanner_bounded scenario_scanner_job
  /\ (email_scanner.source scenario_scanner_job = u "linkedin"
      \/ email_scanner.source scenario_scanner_job = u "indeed")
  /\ exists before after,
       email_scanner.scan_emails (fun _ => scenario_soup) scenario_gmail
         (u "2026/01/01")
       = before ++ scenario_scanner_job :: after
       /\ Forall (fun j' => email_scanner.job_id j'
                            <> email_scanner.job_id scenario_scanner_job) before.
Proof.
  cbv zeta.
  apply (proj2 (lambda_handler_stores_first_record (fun _ => scenario_soup)
                  scenario_gmail (u "default") (u "2026/01/01") ∅)
           (u "default", email_scanner.job_id scenario_scanner_job)
           scenario_scanner_job).
  - reflexivity.
  - vm_compute. reflexivity.
Defined.

